(** * Water_Data: gap filling of a 15-minute water-level series

    Shallow embedding of [streamlit_app.py] (the basic application) and
    [test.py] (the extended application with an autoregressive feature and
    provenance columns), and the properties of their gap-filling engine.

    Conventions of the embedding:
    - a pandas [DataFrame] is the list of its rows, in row order;
    - a [datetime64[ns]] cell is the integer number of nanoseconds since the
      epoch, so the frequency ['15T'] is [900000000000];
    - a float cell is [option Q]: [None] is [NaN], [Some q] a finite reading
      (arithmetic on readings is exact rational arithmetic);
    - an exception raised by pandas, scikit-learn or Python aborts the
      function: fallible code lives in the [result] monad. *)

From Stdlib Require Import String ZArith QArith Qabs List Bool Lia Lqa Permutation FinFun.
Import ListNotations.
Open Scope Z_scope.

(** ** Exceptions *)

Inductive exn : Type :=
| ValueError
| KeyError
| TypeError
| IndexError.

Inductive result (A : Type) : Type :=
| Ok (a : A)
| Raise (e : exn).

Arguments Ok {A} a.
Arguments Raise {A} e.

Definition bind {A B : Type} (c : result A) (k : A -> result B) : result B :=
  match c with
  | Ok a => k a
  | Raise e => Raise e
  end.

Notation "x <- c ;; k" := (bind c (fun x => k))
  (at level 61, c at next level, right associativity).

(** ** Cells and rows *)

(** The frequency ['15T'] in nanoseconds. *)
Definition freq : Z := 900000000000.

(** The nine calendar columns written by [create_time_features]. *)
Record Calendar : Type := mkCalendar {
  year : Z;
  month : Z;
  day : Z;
  hour : Z;
  minute : Z;
  day_of_week : Z;
  day_of_year : Z;
  week_of_year : Z;
  days_in_month : Z
}.

(** A row of the working frame.  The calendar columns are written together by
    [create_time_features] and blanked together by a left merge, so they are
    one nullable group.  [wl_up_prev], [wl_forecast], [timestamp] and
    [wl_up2] are the columns of the extended application; in the basic one
    they stay [None]. *)
Record Row : Type := mkRow {
  datetime : Z;
  wl_up : option Q;
  code : option string;
  calendar : option Calendar;
  wl_up_prev : option Q;
  wl_forecast : option Q;
  timestamp : option Z;
  wl_up2 : option Q
}.

Definition isnull {A : Type} (c : option A) : bool :=
  match c with
  | None => true
  | Some _ => false
  end.

Definition set_wl_up (v : option Q) (r : Row) : Row :=
  mkRow (datetime r) v (code r) (calendar r) (wl_up_prev r)
        (wl_forecast r) (timestamp r) (wl_up2 r).

Definition set_wl_up_prev (v : option Q) (r : Row) : Row :=
  mkRow (datetime r) (wl_up r) (code r) (calendar r) v
        (wl_forecast r) (timestamp r) (wl_up2 r).

Definition set_wl_forecast (v : option Q) (r : Row) : Row :=
  mkRow (datetime r) (wl_up r) (code r) (calendar r) (wl_up_prev r)
        v (timestamp r) (wl_up2 r).

Definition set_timestamp (v : option Z) (r : Row) : Row :=
  mkRow (datetime r) (wl_up r) (code r) (calendar r) (wl_up_prev r)
        (wl_forecast r) v (wl_up2 r).

Definition set_wl_up2 (v : option Q) (r : Row) : Row :=
  mkRow (datetime r) (wl_up r) (code r) (calendar r) (wl_up_prev r)
        (wl_forecast r) (timestamp r) v.

(** Comparisons of a float column with a constant; every ordered comparison
    with [NaN] is false and [NaN != c] is true. *)
Definition ge_const (c : option Q) (k : Q) : bool :=
  match c with
  | Some v => Qle_bool k v
  | None => false
  end.

Definition le_const (c : option Q) (k : Q) : bool :=
  match c with
  | Some v => Qle_bool v k
  | None => false
  end.

Definition ne_const (c : option Q) (k : Q) : bool :=
  match c with
  | Some v => negb (Qeq_bool v k)
  | None => true
  end.

(** ** [clean_data] (identical in both applications) *)

(** A row as read from the CSV file: the timestamp is still text. *)
Record RawRow : Type := mkRawRow {
  raw_datetime : string;
  raw_wl_up : option Q;
  raw_code : option string
}.

Section CleanData.

(** [pd.to_datetime(..., errors='coerce')] on one cell: [None] is [NaT]. *)
Variable to_datetime : string -> option Z.

Definition of_raw (t : Z) (r : RawRow) : Row :=
  mkRow t (raw_wl_up r) (raw_code r) None None None None None.

(** [dropna(subset=['datetime'])] after the coercion. *)
Definition dropna_datetime (df : list (option Z * RawRow)) : list Row :=
  flat_map (fun p => match fst p with
                     | Some t => [of_raw t (snd p)]
                     | None => []
                     end) df.

Definition clean_data (df : list RawRow) : list Row :=
  let data_clean := map (fun r => (to_datetime (raw_datetime r), r)) df in
  let data_clean := dropna_datetime data_clean in
  let data_clean :=
    filter (fun r => ge_const (wl_up r) 100 && le_const (wl_up r) 450)
           data_clean in
  let data_clean :=
    filter (fun r => ne_const (wl_up r) 0 && negb (isnull (wl_up r)))
           data_clean in
  data_clean.

End CleanData.

(** ** [generate_missing_dates] (identical in both applications) *)

(** [Series.min()] and [Series.max()] of a datetime column; [None] is the
    [NaT] of an empty column. *)
Definition col_min (l : list Z) : option Z :=
  match l with
  | [] => None
  | x :: xs => Some (fold_left Z.min xs x)
  end.

Definition col_max (l : list Z) : option Z :=
  match l with
  | [] => None
  | x :: xs => Some (fold_left Z.max xs x)
  end.

(** [pd.date_range(start, end, freq='15T')]: the stamps [start + k * freq]
    that do not exceed [end]. *)
Definition date_range (start stop : Z) : list Z :=
  map (fun k => start + Z.of_nat k * freq)
      (seq 0 (Z.to_nat ((stop - start) / freq + 1))).

(** The row a left merge produces for a key without a match. *)
Definition blank_row (t : Z) : Row :=
  mkRow t None None None None None None None.

(** [pd.merge(all_dates, data, on='datetime', how='left')]: the left keys in
    order, each with all its matches in [data], or one blank row. *)
Definition merge_left (all_dates : list Z) (data : list Row) : list Row :=
  flat_map (fun t => match filter (fun r => datetime r =? t) data with
                     | [] => [blank_row t]
                     | matches => matches
                     end) all_dates.

Definition generate_missing_dates (data : list Row) : result (list Row) :=
  match col_min (map datetime data), col_max (map datetime data) with
  | Some lo, Some hi => Ok (merge_left (date_range lo hi) data)
  | _, _ => Raise ValueError
  end.

(** ** Week bookkeeping shared by both [handle_missing_values_by_week] *)

(** The [week_of_year] cell (nullable [UInt32]) and the [month] cell. *)
Definition week_of (r : Row) : option Z := option_map week_of_year (calendar r).

Definition month_of (r : Row) : option Z := option_map month (calendar r).

(** [column == key] on a nullable column: a comparison with [<NA>] selects
    nothing. *)
Definition eq_na (cell key : option Z) : bool :=
  match cell, key with
  | Some a, Some b => a =? b
  | _, _ => false
  end.

Definition same_cell (a b : option Z) : bool :=
  match a, b with
  | Some x, Some y => x =? y
  | None, None => true
  | _, _ => false
  end.

(** [Series.unique()]: the distinct cells in order of first appearance; all
    [<NA>] cells count as one value. *)
Fixpoint unique_from (seen l : list (option Z)) : list (option Z) :=
  match l with
  | [] => []
  | c :: rest =>
      if existsb (same_cell c) seen then unique_from seen rest
      else c :: unique_from (c :: seen) rest
  end.

Definition unique (l : list (option Z)) : list (option Z) := unique_from [] l.

(** [frame[frame['week_of_year'] == week]]. *)
Definition in_week (week : option Z) (frame : list Row) : list Row :=
  filter (fun r => eq_na (week_of r) week) frame.

(** [group['wl_up'].isnull().sum()]. *)
Definition missing_count (group : list Row) : Z :=
  Z.of_nat (length (filter (fun r => isnull (wl_up r)) group)).

(** The loop that sorts the weeks into [weeks_with_fewer_missing] and
    [weeks_with_more_missing]; both lists grow by [append]. *)
Fixpoint split_weeks (data_missing : list Row) (weeks fewer more : list (option Z))
  : list (option Z) * list (option Z) :=
  match weeks with
  | [] => (fewer, more)
  | week :: rest =>
      let group := in_week week data_missing in
      if missing_count group <=? 288
      then split_weeks data_missing rest (fewer ++ [week]) more
      else split_weeks data_missing rest fewer (more ++ [week])
  end.

Definition weeks_with_missing (data_missing : list Row) : list (option Z) :=
  unique (map week_of data_missing).

Definition weeks_with_fewer_missing (data_missing : list Row) : list (option Z) :=
  fst (split_weeks data_missing (weeks_with_missing data_missing) [] []).

Definition weeks_with_more_missing (data_missing : list Row) : list (option Z) :=
  snd (split_weeks data_missing (weeks_with_missing data_missing) [] []).

(** Python's [min(weeks)] and [max(weeks)] used as an operand of [<] or [>]:
    comparing with [<NA>] yields [<NA>], whose truth value raises. *)
Fixpoint all_weeks (weeks : list (option Z)) : option (list Z) :=
  match weeks with
  | [] => Some []
  | Some w :: rest => option_map (cons w) (all_weeks rest)
  | None :: _ => None
  end.

Definition py_min (weeks : list (option Z)) : result Z :=
  match all_weeks weeks with
  | Some (w :: ws) => Ok (fold_left Z.min ws w)
  | Some [] => Raise ValueError
  | None => Raise TypeError
  end.

Definition py_max (weeks : list (option Z)) : result Z :=
  match all_weeks weeks with
  | Some (w :: ws) => Ok (fold_left Z.max ws w)
  | Some [] => Raise ValueError
  | None => Raise TypeError
  end.

(** [frame.iloc[0]]. *)
Definition iloc0 (frame : list Row) : result Row :=
  match frame with
  | r :: _ => Ok r
  | [] => Raise IndexError
  end.

(** The restriction [start_date <= datetime <= end_date]. *)
Definition between (start_date end_date : Z) (data : list Row) : list Row :=
  filter (fun r => (start_date <=? datetime r) && (datetime r <=? end_date)) data.

(** A feature cell of the design matrix. *)
Definition calendar_cells (r : Row) : list (option Q) :=
  match calendar r with
  | Some c => map (fun z => Some (inject_Z z))
                  [year c; month c; day c; hour c; minute c;
                   day_of_week c; day_of_year c; week_of_year c;
                   days_in_month c]
  | None => repeat None 9
  end.

(** Cross-validation splitters of scikit-learn.  [KFold(n_splits)] rejects
    fewer than two folds when it is built and more folds than samples when
    it splits; [TimeSeriesSplit(n_splits)] rejects [n_splits + 1] folds
    exceeding the number of samples. *)
Definition KFold (n_splits n_samples : Z) : result unit :=
  if n_splits <? 2 then Raise ValueError
  else if n_samples <? n_splits then Raise ValueError
  else Ok tt.

Definition TimeSeriesSplit (n_splits n_samples : Z) : result unit :=
  if n_samples <? n_splits + 1 then Raise ValueError else Ok tt.

(** ** [sklearn.metrics] *)

(** Input validation of the metric functions: an empty target or a target
    holding [NaN] raises [ValueError], as do targets of different length. *)
Fixpoint check_array (y : list (option Q)) : result (list Q) :=
  match y with
  | [] => Ok []
  | None :: _ => Raise ValueError
  | Some v :: rest => vs <- check_array rest ;; Ok (v :: vs)
  end.

Definition check_targets (y_true y_pred : list (option Q))
  : result (list (Q * Q)) :=
  if negb (length y_true =? length y_pred)%nat then Raise ValueError
  else
    t <- check_array y_true ;;
    p <- check_array y_pred ;;
    match t with
    | [] => Raise ValueError
    | _ :: _ => Ok (combine t p)
    end.

Definition Qsum (l : list Q) : Q := fold_right Qplus 0%Q l.

Definition Qmean (l : list Q) : Q := (Qsum l / inject_Z (Z.of_nat (length l)))%Q.

Definition mean_squared_error (y_true y_pred : list (option Q)) : result Q :=
  tp <- check_targets y_true y_pred ;;
  Ok (Qmean (map (fun x => (fst x - snd x) * (fst x - snd x))%Q tp)).

Definition mean_absolute_error (y_true y_pred : list (option Q)) : result Q :=
  tp <- check_targets y_true y_pred ;;
  Ok (Qmean (map (fun x => Qabs (fst x - snd x)) tp)).

(** [r2_score]; the score is [None] ([nan], with a warning) for fewer than
    two samples. *)
Definition r2_score (y_true y_pred : list (option Q)) : result (option Q) :=
  tp <- check_targets y_true y_pred ;;
  if (length tp <? 2)%nat then Ok None
  else
    let numerator := Qsum (map (fun x => (fst x - snd x) * (fst x - snd x))%Q tp) in
    let y_mean := Qmean (map fst tp) in
    let denominator :=
      Qsum (map (fun x => (fst x - y_mean) * (fst x - y_mean))%Q tp) in
    if negb (Qeq_bool denominator 0) then Ok (Some (1 - numerator / denominator)%Q)
    else if negb (Qeq_bool numerator 0) then Ok (Some 0%Q)
    else Ok (Some 1%Q).

(** [pd.merge(left, right, on='datetime')]: the inner join, in the order of
    the left keys, one row per pair of rows sharing a timestamp. *)
Definition merge_inner (left right : list Row) : list (Row * Row) :=
  flat_map (fun l => map (pair l) (filter (fun r => datetime r =? datetime l) right))
           left.

(** ** [Series.shift(1)], [Series.interpolate(method='linear')],
    [Series.combine_first] *)

Definition shift1 (col : list (option Q)) : list (option Q) :=
  match col with
  | [] => []
  | _ :: _ => None :: removelast col
  end.

(** The distance to the next valid cell and its value. *)
Fixpoint next_valid (col : list (option Q)) : option (nat * Q) :=
  match col with
  | [] => None
  | Some v :: _ => Some (0%nat, v)
  | None :: rest =>
      match next_valid rest with
      | Some (d, v) => Some (S d, v)
      | None => None
      end
  end.

(** Cells between two valid cells lie on the line through them, equally
    spaced; cells after the last valid cell repeat it; leading [NaN] stay.
    [prev] is the last valid value and the distance from it. *)
Fixpoint interpolate_from (prev : option (Q * nat)) (col : list (option Q))
  : list (option Q) :=
  match col with
  | [] => []
  | Some v :: rest => Some v :: interpolate_from (Some (v, 1%nat)) rest
  | None :: rest =>
      match prev with
      | None => None :: interpolate_from None rest
      | Some (a, d) =>
          let x := match next_valid rest with
                   | Some (e, b) =>
                       (a + (b - a) * inject_Z (Z.of_nat d)
                            / inject_Z (Z.of_nat (d + e + 1)))%Q
                   | None => a
                   end in
          Some x :: interpolate_from (Some (a, S d)) rest
      end
  end.

Definition interpolate (col : list (option Q)) : list (option Q) :=
  interpolate_from None col.

Definition combine_first (a b : option Q) : option Q :=
  match a with
  | Some v => Some v
  | None => b
  end.

(** [frame[name] = col] for a column of the frame's length. *)
Definition assign {A : Type} (set : A -> Row -> Row) (col : list A)
           (frame : list Row) : list Row :=
  map (fun p => set (fst p) (snd p)) (combine col frame).

Definition set_code (c : option string) (r : Row) : Row :=
  mkRow (datetime r) (wl_up r) c (calendar r) (wl_up_prev r)
        (wl_forecast r) (timestamp r) (wl_up2 r).

Definition set_calendar (c : option Calendar) (r : Row) : Row :=
  mkRow (datetime r) (wl_up r) (code r) c (wl_up_prev r)
        (wl_forecast r) (timestamp r) (wl_up2 r).

(** ** [Series.fillna(method='ffill')] and [Series.fillna(method='bfill')]

    Forward fill gives an absent cell the last valid value before it, and
    leaves it absent when there is none; [last] is that value so far.
    Backward fill gives it the next valid value after it. *)
Fixpoint ffill_from {A : Type} (last : option A) (col : list (option A))
  : list (option A) :=
  match col with
  | [] => []
  | Some v :: rest => Some v :: ffill_from (Some v) rest
  | None :: rest => last :: ffill_from last rest
  end.

Definition ffill {A : Type} (col : list (option A)) : list (option A) :=
  ffill_from None col.

Fixpoint bfill {A : Type} (col : list (option A)) : list (option A) :=
  match col with
  | [] => []
  | c :: rest =>
      let filled := bfill rest in
      match c with
      | Some v => Some v :: filled
      | None => hd None filled :: filled
      end
  end.

(** [pd.merge(df1, df2[['datetime', 'wl_up']], on='datetime', how='left',
    suffixes=('', '_prev'))]: every row of [df1], once per row of [df2] with
    its stamp and with that row's value as [wl_up_prev], or once without
    it. *)
Definition merge_prev (df1 df2 : list Row) : list Row :=
  flat_map (fun l => match filter (fun r => datetime r =? datetime l) df2 with
                     | [] => [set_wl_up_prev None l]
                     | matches => map (fun m => set_wl_up_prev (wl_up m) l) matches
                     end) df1.

(** ** [Series.rolling(window, min_periods=1).mean()]

    The mean of the valid cells among the last [window] cells, absent when
    there is none.  [seen] holds the cells of the window so far, the latest
    first.  A window below [min_periods] is refused. *)
Definition valid_cells (cells : list (option Q)) : list Q :=
  flat_map (fun c => match c with
                     | Some v => [v]
                     | None => []
                     end) cells.

Definition window_mean (cells : list (option Q)) : option Q :=
  match valid_cells cells with
  | [] => None
  | v :: vs => Some (Qmean (v :: vs))
  end.

Fixpoint rolling_from (window : nat) (seen col : list (option Q))
  : list (option Q) :=
  match col with
  | [] => []
  | c :: rest =>
      let cells := firstn window (c :: seen) in
      window_mean cells :: rolling_from window cells rest
  end.

Definition rolling_mean (window : nat) (col : list (option Q))
  : result (list (option Q)) :=
  if (window <? 1)%nat then Raise ValueError
  else Ok (rolling_from window [] col).

(** ** [streamlit_app.py] *)

Module StreamlitApp.

Section Regressor.

(** The fitted estimator returned by the randomized search, the search
    itself once the folds are accepted, and [model.predict] on one row. *)
Variable Model : Type.
Variable search_fit : list (list (option Q)) -> list (option Q) -> result Model.
Variable predict : Model -> list (option Q) -> result Q.

Definition feature_cols (r : Row) : list (option Q) := calendar_cells r.

Definition prepare_features (data_clean : list Row)
  : list (list (option Q)) * list (option Q) :=
  (map feature_cols data_clean, map wl_up data_clean).

Definition n_splits_of (X_train : list (list (option Q))) : Z :=
  Z.min 3 (Z.of_nat (length X_train) / 2).

Definition train_model (X_train : list (list (option Q)))
           (y_train : list (option Q)) : result Model :=
  let n_splits := n_splits_of X_train in
  _ <- KFold n_splits (Z.of_nat (length X_train)) ;;
  search_fit X_train y_train.

(** [data_with_all_dates.loc[idx, 'wl_up'] = predicted_value]; the index
    is the [datetime] column, so every row carrying the label is set. *)
Definition loc_set_wl_up (idx : Z) (v : Q) (frame : list Row) : list Row :=
  map (fun r => if datetime r =? idx then set_wl_up (Some v) r else r) frame.

(** [for idx, row in group.iterrows(): ...]. *)
Fixpoint fill_group (model : Model) (group frame : list Row)
  : result (list Row) :=
  match group with
  | [] => Ok frame
  | row :: rest =>
      predicted_value <- predict model (feature_cols row) ;;
      fill_group model rest (loc_set_wl_up (datetime row) predicted_value frame)
  end.

Definition train_on (scope : list Row) : result Model :=
  let '(X, y) := prepare_features scope in train_model X y.

(** The loop over [weeks_with_fewer_missing]. *)
Fixpoint fill_fewer (data_missing data_not_missing : list Row)
         (weeks : list (option Z)) (frame : list Row) : result (list Row) :=
  match weeks with
  | [] => Ok frame
  | week :: rest =>
      let group := in_week week data_missing in
      let week_data := in_week week data_not_missing in
      if (0 <? Z.of_nat (length week_data))
      then
        model_week <- train_on week_data ;;
        frame' <- fill_group model_week group frame ;;
        fill_fewer data_missing data_not_missing rest frame'
      else fill_fewer data_missing data_not_missing rest frame
  end.

(** The week clamped to the range of the weeks that have missing rows. *)
Definition prev_week_of (all_weeks_missing : list (option Z)) (week : option Z)
  : result Z :=
  lo <- py_min all_weeks_missing ;;
  match week with
  | Some w => Ok (if lo <? w then w - 1 else w)
  | None => Raise TypeError
  end.

Definition next_week_of (all_weeks_missing : list (option Z)) (week : option Z)
  : result Z :=
  hi <- py_max all_weeks_missing ;;
  match week with
  | Some w => Ok (if w <? hi then w + 1 else w)
  | None => Raise TypeError
  end.

(** [data_clean[(data_clean['month'] == current_month) &
    (~data_clean['wl_up'].isnull())]]. *)
Definition month_scope (data_clean : list Row) (current_month : option Z)
  : list Row :=
  filter (fun r => eq_na (month_of r) current_month && negb (isnull (wl_up r)))
         data_clean.

(** The training rows chosen for one week of [weeks_with_more_missing]. *)
Definition scope_of_week (data_clean data_missing data_not_missing : list Row)
           (week : option Z) : result (list Row) :=
  let group := in_week week data_missing in
  prev_week <- prev_week_of (weeks_with_missing data_missing) week ;;
  next_week <- next_week_of (weeks_with_missing data_missing) week ;;
  let prev_data := in_week (Some prev_week) data_not_missing in
  let next_data := in_week (Some next_week) data_not_missing in
  let combined_data := prev_data ++ next_data in
  if 288 <? missing_count (in_week (Some next_week) data_missing)
  then
    first <- iloc0 group ;;
    Ok (month_scope data_clean (month_of first))
  else Ok combined_data.

(** The loop over [weeks_with_more_missing]. *)
Fixpoint fill_more (data_clean data_missing data_not_missing : list Row)
         (weeks : list (option Z)) (frame : list Row) : result (list Row) :=
  match weeks with
  | [] => Ok frame
  | week :: rest =>
      let group := in_week week data_missing in
      scope <- scope_of_week data_clean data_missing data_not_missing week ;;
      model <- train_on scope ;;
      frame' <- fill_group model group frame ;;
      fill_more data_clean data_missing data_not_missing rest frame'
  end.

Definition dropna_wl_up (frame : list Row) : list Row :=
  filter (fun r => negb (isnull (wl_up r))) frame.

(** The model trained first, on all present rows, is not used afterwards,
    but training it can raise. *)
Definition handle_missing_values_by_week (data_clean : list Row)
           (start_date end_date : Z) : result (list Row) :=
  let data := between start_date end_date data_clean in
  data_with_all_dates <- generate_missing_dates data ;;
  let data_missing := filter (fun r => isnull (wl_up r)) data_with_all_dates in
  let data_not_missing := dropna_wl_up data_with_all_dates in
  if (length data_missing =? 0)%nat then Ok data_with_all_dates
  else
    _ <- train_on data_not_missing ;;
    let fewer := weeks_with_fewer_missing data_missing in
    let more := weeks_with_more_missing data_missing in
    filled <- fill_fewer data_missing data_not_missing fewer data_with_all_dates ;;
    let data_not_missing := dropna_wl_up filled in
    fill_more data_clean data_missing data_not_missing more filled.

End Regressor.

(** What [st.write] shows. *)
Inductive message : Type :=
| NoDataFound (delete_start_date delete_end_date : Z).

(** [data.loc[data_to_delete.index, 'wl_up'] = np.nan] blanks the rows whose
    index label is selected; the labels of [data] are its row numbers, so
    these are the rows of the range.  The frame and what was written are
    returned. *)
Definition delete_data_by_date_range (data : list Row)
           (delete_start_date delete_end_date : Z) : list Row * list message :=
  let data_to_delete := between delete_start_date delete_end_date data in
  if negb (length data_to_delete =? 0)%nat
  then (map (fun r => if (delete_start_date <=? datetime r)
                         && (datetime r <=? delete_end_date)
                      then set_wl_up None r else r) data, [])
  else (data, [NoDataFound delete_start_date delete_end_date]).

(** The three figures written by [calculate_accuracy_metrics]. *)
Definition calculate_accuracy_metrics (original filled : list Row)
  : result (Q * Q * option Q) :=
  let merged_data := merge_inner original filled in
  let wl_up_original := map (fun p => wl_up (fst p)) merged_data in
  let wl_up_filled := map (fun p => wl_up (snd p)) merged_data in
  mse <- mean_squared_error wl_up_original wl_up_filled ;;
  mae <- mean_absolute_error wl_up_original wl_up_filled ;;
  r2 <- r2_score wl_up_original wl_up_filled ;;
  Ok (mse, mae, r2).

(** [has_code] tells whether the file had a column [code]; [data['code']]
    raises without it. *)
Definition fill_code_column (has_code : bool) (data : list Row)
  : result (list Row) :=
  if has_code then Ok (assign set_code (bfill (ffill (map code data))) data)
  else Raise KeyError.

Section Script.

Variable Model : Type.
Variable search_fit : list (list (option Q)) -> list (option Q) -> result Model.
Variable predict : Model -> list (option Q) -> result Q.

(** The nine [.dt] accessors on one stamp. *)
Variable calendar_of : Z -> Calendar.

(** The column [datetime] of a frame is already of a datetime type, so the
    conversion at the head of the function is skipped. *)
Definition create_time_features (data_clean : list Row) : list Row :=
  map (fun r => set_calendar (Some (calendar_of (datetime r))) r) data_clean.

(** What the script does once the button is pressed, from the cleaned
    selection [df_clean] on.  [delete_data_by_date_range] blanks the rows
    of [df_clean] itself, so the frame passed on to the orchestrator is the
    one it returns.  The result is the filled frame with what was
    written. *)
Definition process (has_code : bool) (df_clean : list Row)
           (delete_start_datetime delete_end_datetime start_date end_date : Z)
  : result (list Row * list message) :=
  df_clean <- generate_missing_dates df_clean ;;
  df_clean <- fill_code_column has_code df_clean ;;
  let df_clean := create_time_features df_clean in
  let '(df_deleted, shown) :=
    delete_data_by_date_range df_clean delete_start_datetime
                              delete_end_datetime in
  df_handled <- handle_missing_values_by_week Model search_fit predict
                  df_deleted start_date end_date ;;
  Ok (df_handled, shown).

End Script.

End StreamlitApp.

(** ** [test.py] *)

Module TestPy.

Section Regressor.

Variable Model : Type.
Variable search_fit : list (list (option Q)) -> list (option Q) -> result Model.
Variable predict : Model -> list (option Q) -> result Q.

(** The clock: [now k] is what the [k]-th call of [pd.Timestamp.now()]
    returns. *)
Variable now : nat -> Z.

Definition feature_cols (r : Row) : list (option Q) :=
  calendar_cells r ++ [wl_up_prev r].

Definition prepare_features (data_clean : list Row)
  : list (list (option Q)) * list (option Q) :=
  (map feature_cols data_clean, map wl_up data_clean).

Definition train_model (X_train : list (list (option Q)))
           (y_train : list (option Q)) : result Model :=
  _ <- TimeSeriesSplit 5 (Z.of_nat (length X_train)) ;;
  search_fit X_train y_train.

Definition train_on (scope : list Row) : result Model :=
  let '(X, y) := prepare_features scope in train_model X y.

(** The frame under construction and the number of clock readings so far;
    the columns [wl_forecast] and [timestamp] exist once it is positive. *)
Record State : Type := mkState {
  frame : list Row;
  fills : nat
}.

Definition loc_set_wl_forecast (idx : Z) (v : Q) (fr : list Row) : list Row :=
  map (fun r => if datetime r =? idx then set_wl_forecast (Some v) r else r) fr.

Definition loc_set_timestamp (idx : Z) (t : Z) (fr : list Row) : list Row :=
  map (fun r => if datetime r =? idx then set_timestamp (Some t) r else r) fr.

Fixpoint fill_group (model : Model) (group : list Row) (st : State)
  : result State :=
  match group with
  | [] => Ok st
  | row :: rest =>
      predicted_value <- predict model (feature_cols row) ;;
      let fr := loc_set_wl_forecast (datetime row) predicted_value (frame st) in
      let fr := loc_set_timestamp (datetime row) (now (fills st)) fr in
      fill_group model rest (mkState fr (S (fills st)))
  end.

Fixpoint fill_fewer (data_missing data_not_missing : list Row)
         (weeks : list (option Z)) (st : State) : result State :=
  match weeks with
  | [] => Ok st
  | week :: rest =>
      let group := in_week week data_missing in
      let week_data := in_week week data_not_missing in
      if (0 <? Z.of_nat (length week_data))
      then
        model_week <- train_on week_data ;;
        st' <- fill_group model_week group st ;;
        fill_fewer data_missing data_not_missing rest st'
      else fill_fewer data_missing data_not_missing rest st
  end.

Definition prev_week_of (all_weeks_missing : list (option Z)) (week : option Z)
  : result Z :=
  lo <- py_min all_weeks_missing ;;
  match week with
  | Some w => Ok (if lo <? w then w - 1 else w)
  | None => Raise TypeError
  end.

Definition next_week_of (all_weeks_missing : list (option Z)) (week : option Z)
  : result Z :=
  hi <- py_max all_weeks_missing ;;
  match week with
  | Some w => Ok (if w <? hi then w + 1 else w)
  | None => Raise TypeError
  end.

Definition month_scope (data_clean : list Row) (current_month : option Z)
  : list Row :=
  filter (fun r => eq_na (month_of r) current_month && negb (isnull (wl_up r)))
         data_clean.

(** [data_not_missing[data_not_missing['month'] == m - 1]]. *)
Definition previous_month (data_not_missing : list Row) (m : option Z)
  : list Row :=
  filter (fun r => eq_na (month_of r) (option_map (fun x => x - 1) m))
         data_not_missing.

Definition scope_of_week (data_clean data_missing data_not_missing : list Row)
           (week : option Z) : result (list Row) :=
  let group := in_week week data_missing in
  prev_week <- prev_week_of (weeks_with_missing data_missing) week ;;
  next_week <- next_week_of (weeks_with_missing data_missing) week ;;
  let prev_data := in_week (Some prev_week) data_not_missing in
  let next_data := in_week (Some next_week) data_not_missing in
  first <- iloc0 group ;;
  let previous_month_data := previous_month data_not_missing (month_of first) in
  let combined_data := prev_data ++ next_data ++ previous_month_data in
  if 288 <? missing_count (in_week (Some next_week) data_missing)
  then Ok (month_scope data_clean (month_of first))
  else Ok combined_data.

Fixpoint fill_more (data_clean data_missing data_not_missing : list Row)
         (weeks : list (option Z)) (st : State) : result State :=
  match weeks with
  | [] => Ok st
  | week :: rest =>
      let group := in_week week data_missing in
      scope <- scope_of_week data_clean data_missing data_not_missing week ;;
      model <- train_on scope ;;
      st' <- fill_group model group st ;;
      fill_more data_clean data_missing data_not_missing rest st'
  end.

Definition dropna_wl_up (fr : list Row) : list Row :=
  filter (fun r => negb (isnull (wl_up r))) fr.

(** [has_wl_up_prev] tells whether the frame passed in has the column
    [wl_up_prev]; without it [prepare_features] cannot select it from
    [data_not_missing], which was taken before the column was added.  The
    column [wl_forecast] exists only once a row was filled; reading it for
    the display column raises otherwise. *)
Definition handle_missing_values_by_week (has_wl_up_prev : bool)
           (data_clean : list Row) (start_date end_date : Z)
  : result (list Row) :=
  let data := between start_date end_date data_clean in
  data_with_all_dates <- generate_missing_dates data ;;
  let data_missing := filter (fun r => isnull (wl_up r)) data_with_all_dates in
  let data_not_missing := dropna_wl_up data_with_all_dates in
  let data_with_all_dates :=
    if has_wl_up_prev
    then assign set_wl_up_prev
                (interpolate (map wl_up_prev data_with_all_dates))
                data_with_all_dates
    else assign set_wl_up_prev
                (interpolate (shift1 (map wl_up data_with_all_dates)))
                data_with_all_dates in
  if (length data_missing =? 0)%nat then Ok data_with_all_dates
  else
    _ <- (if has_wl_up_prev then Ok tt else Raise KeyError) ;;
    _ <- train_on data_not_missing ;;
    let fewer := weeks_with_fewer_missing data_missing in
    let more := weeks_with_more_missing data_missing in
    st <- fill_fewer data_missing data_not_missing fewer
                     (mkState data_with_all_dates 0) ;;
    let data_not_missing := dropna_wl_up (frame st) in
    st <- fill_more data_clean data_missing data_not_missing more st ;;
    if (fills st =? 0)%nat then Raise KeyError
    else Ok (map (fun r => set_wl_up2 (combine_first (wl_up r) (wl_forecast r)) r)
                 (frame st)).

End Regressor.

(** What [st.warning] shows. *)
Inductive message : Type :=
| NoDataFound (delete_start_date delete_end_date : Z)
| TooMuchToDelete.

(** [len(data_to_delete) > 0.3 * len(data)] compares an integer with a
    float product; for row counts the comparison agrees with the exact one
    [10 * len(data_to_delete) > 3 * len(data)]. *)
Definition over_30_percent (n_delete n_data : nat) : bool :=
  3 * Z.of_nat n_data <? 10 * Z.of_nat n_delete.

Definition delete_data_by_date_range (data : list Row)
           (delete_start_date delete_end_date : Z) : list Row * list message :=
  let data_to_delete := between delete_start_date delete_end_date data in
  if (length data_to_delete =? 0)%nat
  then (data, [NoDataFound delete_start_date delete_end_date])
  else if over_30_percent (length data_to_delete) (length data)
  then (data, [TooMuchToDelete])
  else (map (fun r => if (delete_start_date <=? datetime r)
                         && (datetime r <=? delete_end_date)
                      then set_wl_up None r else r) data, []).

Definition calculate_accuracy_metrics (original filled : list Row)
  : result (Q * Q * option Q) :=
  let merged_data := merge_inner original filled in
  let wl_up_col := map (fun p => wl_up (fst p)) merged_data in
  let wl_up2_col := map (fun p => wl_up2 (snd p)) merged_data in
  mse <- mean_squared_error wl_up_col wl_up2_col ;;
  mae <- mean_absolute_error wl_up_col wl_up2_col ;;
  r2 <- r2_score wl_up_col wl_up2_col ;;
  Ok (mse, mae, r2).

(** Without a column [code] the frame is returned as it is. *)
Definition fill_code_column (has_code : bool) (data : list Row) : list Row :=
  if has_code then assign set_code (bfill (ffill (map code data))) data
  else data.

(** [df2] is [None] when no second station is used. *)
Definition merge_data (df1 : list Row) (df2 : option (list Row)) : list Row :=
  match df2 with
  | Some df2 => merge_prev df1 df2
  | None => assign set_wl_up_prev (shift1 (map wl_up df1)) df1
  end.

(** The column [wl_up] is interpolated, then replaced by its rolling mean;
    [window_size] is 3 unless given. *)
Definition smooth_filled_values (data_with_all_dates : list Row)
           (window_size : nat) : result (list Row) :=
  let data_with_all_dates :=
    assign set_wl_up (interpolate (map wl_up data_with_all_dates))
           data_with_all_dates in
  smoothed <- rolling_mean window_size (map wl_up data_with_all_dates) ;;
  Ok (assign set_wl_up smoothed data_with_all_dates).

Section Script.

Variable Model : Type.
Variable search_fit : list (list (option Q)) -> list (option Q) -> result Model.
Variable predict : Model -> list (option Q) -> result Q.
Variable now : nat -> Z.

(** The nine [.dt] accessors on one stamp. *)
Variable calendar_of : Z -> Calendar.

Definition create_time_features (data_clean : list Row) : list Row :=
  map (fun r => set_calendar (Some (calendar_of (datetime r))) r) data_clean.

(** What the script does once the button is pressed, from the cleaned
    selections [df_clean] and [df2_clean] on.  [merge_data] always leaves a
    column [wl_up_prev], so the shift guarded by
    ['wl_up_prev' not in df_clean.columns] is never taken and the column
    is interpolated as it is. *)
Definition process (has_code : bool) (df_clean : list Row)
           (df2_clean : option (list Row)) (delete_data_option : bool)
           (delete_start_datetime delete_end_datetime start_date end_date : Z)
  : result (list Row * list message) :=
  let df_merged := merge_data df_clean df2_clean in
  let '(df_deleted, shown) :=
    if delete_data_option
    then delete_data_by_date_range df_merged delete_start_datetime
                                   delete_end_datetime
    else (df_merged, []) in
  df_clean <- generate_missing_dates df_deleted ;;
  let df_clean := fill_code_column has_code df_clean in
  let df_clean := create_time_features df_clean in
  let df_clean :=
    assign set_wl_up_prev (interpolate (map wl_up_prev df_clean)) df_clean in
  df_handled <- handle_missing_values_by_week Model search_fit predict now
                  true df_clean start_date end_date ;;
  Ok (df_handled, shown).

End Script.

End TestPy.

(** ** The validity filter in the words of the specification *)

Section CleanDataSpec.

Variable to_datetime : string -> option Z.

(** A reading is invalid when its timestamp does not parse or its value is
    absent, exactly zero, or outside the sensor range 100 to 450. *)
Definition invalid_reading (r : RawRow) : Prop :=
  to_datetime (raw_datetime r) = None \/
  match raw_wl_up r with
  | None => True
  | Some v => (v == 0 \/ v < 100 \/ 450 < v)%Q
  end.

(** [Cleaned df out]: [out] is [df] without its invalid readings, every
    other reading kept in place with its value and station code. *)
Inductive Cleaned : list RawRow -> list Row -> Prop :=
| Cleaned_nil : Cleaned [] []
| Cleaned_drop r df out :
    invalid_reading r -> Cleaned df out -> Cleaned (r :: df) out
| Cleaned_keep r df out t :
    ~ invalid_reading r ->
    to_datetime (raw_datetime r) = Some t ->
    Cleaned df out ->
    Cleaned (r :: df) (of_raw t r :: out).

End CleanDataSpec.

(** Rows with the same stamp have the same [week_of_year] cell, as
    [create_time_features] leaves them. *)
Definition weeks_follow_stamps (frame : list Row) : bool :=
  forallb (fun a =>
             forallb (fun b => negb (datetime a =? datetime b)
                               || same_cell (week_of a) (week_of b)) frame)
          frame.

(** [Index.is_unique] of a datetime column. *)
Fixpoint is_unique (l : list Z) : bool :=
  match l with
  | [] => true
  | x :: xs => negb (existsb (Z.eqb x) xs) && is_unique xs
  end.

(** The test of the partition loop on one week. *)
Definition fewer_test (data_missing : list Row) (week : option Z) : bool :=
  missing_count (in_week week data_missing) <=? 288.

(** ** Sample frames *)

(** A reading as [clean_data] leaves it, and a stamp given in minutes. *)
Definition reading (t : Z) (v : Q) : Row :=
  mkRow t (Some v) None None None None None None.

Definition minutes (m : Z) : Z := m * 60000000000.

(** Readings at 0:00, 0:10 and 0:30: the second one is off the grid. *)
Definition off_grid_frame : list Row :=
  [reading (minutes 0) 200; reading (minutes 10) 210; reading (minutes 30) 220].

(** Two readings with the same stamp. *)
Definition twin_frame : list Row :=
  [reading (minutes 0) 200; reading (minutes 0) 300].

(** Readings at 0:00 and 0:45, with two empty slots between them. *)
Definition sparse_frame : list Row :=
  [reading (minutes 0) 200; reading (minutes 45) 230].

(** Ten readings, one per slot from 0:00. *)
Definition ten_frame : list Row :=
  map (fun k => reading (minutes (15 * Z.of_nat k)) 200) (seq 0 10).

(** The rows a deletion range selects, and the frame after blanking them. *)
Definition in_range (delete_start_date delete_end_date : Z) (r : Row) : bool :=
  (delete_start_date <=? datetime r) && (datetime r <=? delete_end_date).

Definition blanked (delete_start_date delete_end_date : Z) (r : Row) : Row :=
  if in_range delete_start_date delete_end_date r then set_wl_up None r else r.

(** A one-row series, and a frame whose stamp repeats with two values. *)
Definition single_frame : list Row := [reading (minutes 0) 200].

(** Two series that share no stamp. *)
Definition early_frame : list Row :=
  [reading (minutes 0) 200; reading (minutes 15) 210].

Definition late_frame : list Row :=
  [reading (minutes 30) 200; reading (minutes 45) 210].

(** A frame whose display column [wl_up2] repeats its [wl_up]. *)
Definition with_display (frame : list Row) : list Row :=
  map (fun r => set_wl_up2 (wl_up r) r) frame.

(** ** Label-based writes

    [frame.loc[idx, column] = value] acts on a frame row by row: a row is
    updated when its label is [idx].  A run of such writes is a log of
    labels with what is written. *)

Section WriteLog.

Variable W : Type.
Variable upd : W -> Row -> Row.

Definition apply_write (w : Z * W) (r : Row) : Row :=
  if datetime r =? fst w then upd (snd w) r else r.

Definition run_log (log : list (Z * W)) (r : Row) : Row :=
  fold_left (fun acc w => apply_write w acc) log r.

(** The writes made for the rows of a group, each with what was written. *)
Definition writes_of (entries : list (Row * W)) : list (Z * W) :=
  map (fun e => (datetime (fst e), snd e)) entries.

End WriteLog.

Arguments apply_write {W} upd w r.
Arguments run_log {W} upd log r.
Arguments writes_of {W} entries.

(** What one iteration writes in [streamlit_app.py] (the value) and in
    [test.py] (the forecast and the time of the fill). *)
Definition upd_value (v : Q) (r : Row) : Row := set_wl_up (Some v) r.

Definition upd_forecast (w : Q * Z) (r : Row) : Row :=
  set_timestamp (Some (snd w)) (set_wl_forecast (Some (fst w)) r).

(** ** What the orchestrator does for one week with more than 288 missing
    rows, in the words of the specification *)

Section HighSeverityWeek.

Variable Model : Type.
Variable search_fit : list (list (option Q)) -> list (option Q) -> result Model.
Variable predict : Model -> list (option Q) -> result Q.

(** The neighbouring weeks, clamped to the smallest and largest week of the
    missing rows. *)
Definition clamped_prev (lo wk : Z) : Z := if lo <? wk then wk - 1 else wk.

Definition clamped_next (hi wk : Z) : Z := if wk <? hi then wk + 1 else wk.

(** [streamlit_app.py]: the model is trained on the month scope when the
    next week has more than 288 missing rows and on the present rows of the
    two neighbouring weeks otherwise, and every missing row [r] of the week
    holds in [out] the prediction of that model for the row [g] of the week
    with its stamp ([r] itself when no stamp repeats, the last such row
    otherwise). *)
Definition basic_high_week_filled (data_clean data_missing pool out : list Row)
           (week : option Z) : Prop :=
  exists wk lo hi scope model,
    week = Some wk /\
    py_min (weeks_with_missing data_missing) = Ok lo /\
    py_max (weeks_with_missing data_missing) = Ok hi /\
    (if 288 <? missing_count (in_week (Some (clamped_next hi wk)) data_missing)
     then exists first,
         iloc0 (in_week week data_missing) = Ok first /\
         scope = filter (fun r => eq_na (month_of r) (month_of first)
                                  && negb (isnull (wl_up r))) data_clean
     else scope = in_week (Some (clamped_prev lo wk)) pool
                  ++ in_week (Some (clamped_next hi wk)) pool) /\
    StreamlitApp.train_on Model search_fit scope = Ok model /\
    forall r, In r (in_week week data_missing) ->
              exists g v,
                In g (in_week week data_missing) /\
                datetime g = datetime r /\
                predict model (StreamlitApp.feature_cols g) = Ok v /\
                In (set_wl_up (Some v) r) out.

(** [test.py]: the scope of the second case also holds the present rows of
    the previous calendar month; the prediction is in [wl_forecast] and in
    the display column, with the time of the fill, and the value stays
    absent. *)
Definition extended_high_week_filled (data_clean data_missing pool out : list Row)
           (week : option Z) : Prop :=
  exists wk lo hi first scope model,
    week = Some wk /\
    py_min (weeks_with_missing data_missing) = Ok lo /\
    py_max (weeks_with_missing data_missing) = Ok hi /\
    iloc0 (in_week week data_missing) = Ok first /\
    (if 288 <? missing_count (in_week (Some (clamped_next hi wk)) data_missing)
     then scope = filter (fun r => eq_na (month_of r) (month_of first)
                                   && negb (isnull (wl_up r))) data_clean
     else scope = in_week (Some (clamped_prev lo wk)) pool
                  ++ in_week (Some (clamped_next hi wk)) pool
                  ++ filter (fun r => eq_na (month_of r)
                                            (option_map (fun m => m - 1)
                                                        (month_of first))) pool) /\
    TestPy.train_on Model search_fit scope = Ok model /\
    forall r, In r (in_week week data_missing) ->
              exists g v r',
                In g (in_week week data_missing) /\
                datetime g = datetime r /\
                predict model (TestPy.feature_cols g) = Ok v /\
                In r' out /\
                datetime r' = datetime r /\
                wl_up r' = None /\
                wl_forecast r' = Some v /\
                timestamp r' <> None /\
                wl_up2 r' = Some v.

(** The whole run: the grid, the frame after the first pass, and every week
    with more than 288 missing rows handled as above, the pool being the
    present rows of the frame after the first pass. *)
Definition basic_high_weeks_handled (data_clean : list Row)
           (start_date end_date : Z) (out : list Row) : Prop :=
  exists grid filled,
    generate_missing_dates (between start_date end_date data_clean) = Ok grid /\
    StreamlitApp.fill_fewer Model search_fit predict
      (filter (fun r => isnull (wl_up r)) grid) (StreamlitApp.dropna_wl_up grid)
      (weeks_with_fewer_missing (filter (fun r => isnull (wl_up r)) grid)) grid
    = Ok filled /\
    forall week,
      In week (weeks_with_more_missing (filter (fun r => isnull (wl_up r)) grid)) ->
      basic_high_week_filled data_clean
        (filter (fun r => isnull (wl_up r)) grid)
        (StreamlitApp.dropna_wl_up filled) out week.

Definition extended_high_weeks_handled (now : nat -> Z) (data_clean : list Row)
           (start_date end_date : Z) (out : list Row) : Prop :=
  exists grid frame0 st,
    generate_missing_dates (between start_date end_date data_clean) = Ok grid /\
    TestPy.fill_fewer Model search_fit predict now
      (filter (fun r => isnull (wl_up r)) grid) (TestPy.dropna_wl_up grid)
      (weeks_with_fewer_missing (filter (fun r => isnull (wl_up r)) grid))
      (TestPy.mkState frame0 0) = Ok st /\
    forall week,
      In week (weeks_with_more_missing (filter (fun r => isnull (wl_up r)) grid)) ->
      extended_high_week_filled data_clean
        (filter (fun r => isnull (wl_up r)) grid)
        (TestPy.dropna_wl_up (TestPy.frame st)) out week.

End HighSeverityWeek.

(** The row with its display column [wl_up2] computed. *)
Definition merged (r : Row) : Row :=
  set_wl_up2 (combine_first (wl_up r) (wl_forecast r)) r.

(** A row of a frame that has no provenance or display column yet. *)
Definition no_provenance (r : Row) : bool :=
  isnull (wl_forecast r) && isnull (timestamp r) && isnull (wl_up2 r).

Definition is_ok {A : Type} (r : result A) : bool :=
  match r with
  | Ok _ => true
  | Raise _ => false
  end.

(** ** Two runs over May 2024

    Slots are counted from Monday 2024-05-06 00:00, the start of ISO week
    19.  [may_frame] holds slots 640 to 2335, gridded and with its calendar
    columns; 595 of its 1696 values are absent: 3 in week 19, 300 in week
    20, 2 in week 21 and 290 in week 22.  The first window runs from slot
    660 (in week 19) to slot 1355 (in week 21); the second one holds the
    slots of week 22. *)

Definition monday : Z := 1714953600000000000.

Definition slot_stamp (k : Z) : Z := monday + k * freq.

Definition slot_calendar (k : Z) : Calendar :=
  mkCalendar 2024 5 (6 + k / 96) (k mod 96 / 4) (15 * (k mod 4))
             (k / 96 mod 7) (127 + k / 96) (19 + k / 672) 31.

Definition slot (k : Z) (v : option Q) : Row :=
  mkRow (slot_stamp k) v None (Some (slot_calendar k)) (Some 200%Q)
        None None None.

Definition may_missing (k : Z) : bool :=
  ((664 <=? k) && (k <? 667)) || ((700 <=? k) && (k <? 1000))
  || ((1348 <=? k) && (k <? 1350)) || ((2020 <=? k) && (k <? 2310)).

Definition may_frame : list Row :=
  map (fun n => let k := 640 + Z.of_nat n in
                slot k (if may_missing k then None else Some 250%Q))
      (seq 0 1696).

Definition first_start : Z := slot_stamp 660.

Definition first_end : Z := slot_stamp 1355.

Definition second_start : Z := slot_stamp 2016.

Definition second_end : Z := slot_stamp 2335.

(** The rows of the first window, already a grid, and its missing rows. *)
Definition first_window : list Row := between first_start first_end may_frame.

Definition first_missing : list Row :=
  filter (fun r => isnull (wl_up r)) first_window.

(** A stand-in for the randomized search: the fitted model remembers the
    size of its training scope and predicts it for every row. *)
Definition fit_size (X_train : list (list (option Q))) (y_train : list (option Q))
  : result nat := Ok (length X_train).

Definition predict_size (model : nat) (x : list (option Q)) : result Q :=
  Ok (inject_Z (Z.of_nat model)).

(** A clock that advances by one nanosecond per reading. *)
Definition tick_clock (k : nat) : Z := slot_stamp 2400 + Z.of_nat k.

Definition frame_of (r : result (list Row)) : list Row :=
  match r with
  | Ok frame => frame
  | Raise _ => []
  end.

(** The two orchestrators on [may_frame] with that stand-in. *)
Abbreviation basic_run :=
  (StreamlitApp.handle_missing_values_by_week nat fit_size predict_size may_frame).

Abbreviation extended_run :=
  (TestPy.handle_missing_values_by_week
     nat fit_size predict_size tick_clock true may_frame).

(** The value, forecast, time of the fill and display value of the rows at
    the given positions of a frame. *)
Definition cells (r : Row) : option Q * option Q * option Z * option Q :=
  (wl_up r, wl_forecast r, timestamp r, wl_up2 r).

Definition probe (frame : list Row) (rows : list nat)
  : list (option (option Q * option Q * option Z * option Q)) :=
  map (fun n => option_map cells (nth_error frame n)) rows.

(** Whether a run returned, and the cells of its result at these rows. *)
Definition run_summary (run : result (list Row)) (rows : list nat)
  : bool * list (option (option Q * option Q * option Z * option Q)) :=
  (is_ok run, probe (frame_of run) rows).


(** ** Provenance, in the words of the specification

    [out] is the result of filling the window of [data_clean]: the stamps
    and the original value column are those of the grid, a filled row
    carries its forecast and the time of the fill beside the untouched
    value, and the display value is the original value where present and
    the forecast where absent. *)
Definition provenance_kept (data_clean : list Row) (start_date end_date : Z)
           (out : list Row) : Prop :=
  exists grid,
    generate_missing_dates (between start_date end_date data_clean) = Ok grid /\
    map datetime out = map datetime grid /\
    map wl_up out = map wl_up grid /\
    (forall r v, In r out -> wl_forecast r = Some v ->
                 timestamp r <> None /\
                 wl_up2 r = combine_first (wl_up r) (Some v)) /\
    (forall r, In r out -> wl_forecast r = None -> timestamp r = None) /\
    (filter (fun r => isnull (wl_up r)) grid <> [] ->
     forall r, In r out -> wl_up2 r = combine_first (wl_up r) (wl_forecast r)) /\
    (is_unique (map datetime (between start_date end_date data_clean)) = true ->
     forall r, In r out -> wl_forecast r <> None -> wl_up r = None).

Definition state_of (r : result TestPy.State) : TestPy.State :=
  match r with
  | Ok st => st
  | Raise _ => TestPy.mkState [] 0
  end.

(** The first pass of [test.py] on the first window of [may_frame]. *)
Abbreviation first_low_pass :=
  (TestPy.fill_fewer nat fit_size predict_size tick_clock
     first_missing (TestPy.dropna_wl_up first_window)
     (weeks_with_fewer_missing first_missing) (TestPy.mkState first_window 0)).

(** A column of stamps in which each stamp is one interval after the one
    before it. *)
Fixpoint gridded (stamps : list Z) : bool :=
  match stamps with
  | a :: (b :: _) as rest => (b =? a + freq) && gridded rest
  | _ => true
  end.

(** ** What the orchestrator does for one week with at most 288 missing
    rows *)

Section LowSeverityWeek.

Variable Model : Type.
Variable search_fit : list (list (option Q)) -> list (option Q) -> result Model.
Variable predict : Model -> list (option Q) -> result Q.

(** [len(week_data) > 0]. *)
Definition has_week_data (data_not_missing : list Row) (week : option Z) : bool :=
  0 <? Z.of_nat (length (in_week week data_not_missing)).

(** [streamlit_app.py]: the model is trained on the present rows of the week
    itself, and every missing row [r] of the week holds in [out] the
    prediction of that model for the row [g] of the week with its stamp. *)
Definition basic_low_week_filled (grid out : list Row) (week : option Z) : Prop :=
  exists model,
    StreamlitApp.train_on Model search_fit
      (in_week week (StreamlitApp.dropna_wl_up grid)) = Ok model /\
    forall r, In r (in_week week (filter (fun r => isnull (wl_up r)) grid)) ->
              exists g v,
                In g (in_week week (filter (fun r => isnull (wl_up r)) grid)) /\
                datetime g = datetime r /\
                predict model (StreamlitApp.feature_cols g) = Ok v /\
                In (set_wl_up (Some v) r) out.

(** [test.py]: the same, with the prediction in [wl_forecast] and in the
    display column and the value still absent. *)
Definition extended_low_week_filled (grid out : list Row) (week : option Z) : Prop :=
  exists model,
    TestPy.train_on Model search_fit
      (in_week week (TestPy.dropna_wl_up grid)) = Ok model /\
    forall r, In r (in_week week (filter (fun r => isnull (wl_up r)) grid)) ->
              exists g v r',
                In g (in_week week (filter (fun r => isnull (wl_up r)) grid)) /\
                datetime g = datetime r /\
                predict model (TestPy.feature_cols g) = Ok v /\
                In r' out /\
                datetime r' = datetime r /\
                wl_up r' = None /\
                wl_forecast r' = Some v /\
                timestamp r' <> None /\
                wl_up2 r' = Some v.

End LowSeverityWeek.

(** A missing row that no pass writes for: its week cell is absent, or its
    week has at most 288 missing rows and not one present row. *)
Definition never_filled (grid : list Row) (r : Row) : Prop :=
  week_of r = None \/
  (In (week_of r) (weeks_with_fewer_missing (filter (fun r => isnull (wl_up r)) grid)) /\
   in_week (week_of r) (filter (fun r => negb (isnull (wl_up r))) grid) = []).

(** What both orchestrators leave behind for the weeks with at most 288
    missing rows that have a present row. *)
Section LowSeverityWeeks.

Variable Model : Type.
Variable search_fit : list (list (option Q)) -> list (option Q) -> result Model.
Variable predict : Model -> list (option Q) -> result Q.

Definition basic_low_weeks_handled (data_clean : list Row) (start_date end_date : Z)
           (out : list Row) : Prop :=
  exists grid,
    generate_missing_dates (between start_date end_date data_clean) = Ok grid /\
    forall week,
      In week (weeks_with_fewer_missing (filter (fun r => isnull (wl_up r)) grid)) ->
      has_week_data (StreamlitApp.dropna_wl_up grid) week = true ->
      basic_low_week_filled Model search_fit predict grid out week.

Definition extended_low_weeks_handled (data_clean : list Row)
           (start_date end_date : Z) (out : list Row) : Prop :=
  exists grid,
    generate_missing_dates (between start_date end_date data_clean) = Ok grid /\
    forall week,
      In week (weeks_with_fewer_missing (filter (fun r => isnull (wl_up r)) grid)) ->
      has_week_data (TestPy.dropna_wl_up grid) week = true ->
      extended_low_week_filled Model search_fit predict grid out week.

End LowSeverityWeeks.

(** ** A window that ends early in a week

    Slots 660 to 673 of May 2024, gridded and with calendar columns: slots
    660 to 671 close week 19, slots 672 and 673 open week 20.  Slot 670 and
    the two slots of week 20 have no value, so week 20 has missing rows and
    no present row. *)
Definition tail_frame : list Row :=
  map (fun n => let k := 660 + Z.of_nat n in
                slot k (if (k =? 670) || (672 <=? k) then None else Some 250%Q))
      (seq 0 14).

Definition tail_start : Z := slot_stamp 660.

Definition tail_end : Z := slot_stamp 673.

(** Slots 660 to 665 with a second row, without a value, at the stamp of
    slot 662. *)
Definition echo_frame : list Row :=
  map (fun n => slot (660 + Z.of_nat n) (Some 250%Q)) (seq 0 6)
  ++ [slot 662 None].

Definition echo_end : Z := slot_stamp 665.

(** ** More sample windows

    [short_frame]: slots 660 to 663, the second one without a value: three
    present rows.  [idle_frame]: [tail_frame] with a value in slot 670, so
    that its only missing rows are the two of week 20.  [holed_frame]:
    [may_frame] without the row of slot 2017, a slot of the second window,
    whose week 22 has 290 missing rows. *)
Definition short_frame : list Row :=
  [slot 660 (Some 250%Q); slot 661 None; slot 662 (Some 250%Q);
   slot 663 (Some 250%Q)].

Definition short_end : Z := slot_stamp 663.

Definition idle_frame : list Row :=
  map (fun n => let k := 660 + Z.of_nat n in
                slot k (if 672 <=? k then None else Some 250%Q))
      (seq 0 14).

Definition holed_frame : list Row :=
  filter (fun r => negb (datetime r =? slot_stamp 2017)) may_frame.

(** ** The first and the last valid cell of a column *)

Fixpoint first_valid {A : Type} (col : list (option A)) : option A :=
  match col with
  | [] => None
  | Some v :: _ => Some v
  | None :: rest => first_valid rest
  end.

Definition last_valid {A : Type} (col : list (option A)) : option A :=
  fold_left (fun acc c => match c with
                          | Some v => Some v
                          | None => acc
                          end) col None.

(** The label a row gets from [fill_code_column]: its own, else the last
    one before it, else the first one after it. *)
Definition nearest_code (before : list Row) (r : Row) (after : list Row)
  : option string :=
  match code r with
  | Some c => Some c
  | None =>
      match last_valid (map code before) with
      | Some c => Some c
      | None => first_valid (map code after)
      end
  end.

(** A frame in which only the third of five rows is labelled. *)
Definition labelled (t : Z) (c : option string) : Row :=
  mkRow (minutes t) (Some 200%Q) c None None None None None.

Definition station_frame : list Row :=
  [labelled 0 None; labelled 15 None; labelled 30 (Some "CPY001"%string);
   labelled 45 None; labelled 60 (Some "CPY002"%string); labelled 75 None].

(** ** Two stations

    [upstream_frame] holds readings of a second station at 0:00 and 0:30;
    [gap_frame] holds readings of the first one at 0:00, 0:15 and 5:00. *)
Definition upstream_frame : list Row :=
  [reading (minutes 0) 300; reading (minutes 30) 320].

Definition gap_frame : list Row :=
  [reading (minutes 0) 200; reading (minutes 15) 210; reading (minutes 300) 260].

(** What [merge_data] makes of a row [a] of the first station, given the
    second station [df2]: the row with the value of [df2] at its stamp as
    [wl_up_prev], or without one when [df2] has no row at that stamp. *)
Definition joined (df2 : list Row) (a b : Row) : Prop :=
  (exists m, In m df2 /\ datetime m = datetime a /\
             b = set_wl_up_prev (wl_up m) a) \/
  ((forall m, In m df2 -> datetime m <> datetime a) /\
   b = set_wl_up_prev None a).

(** ** The chain of the scripts

    A frame whose calendar columns were computed from its stamps, and a row
    of a window that is missing in a week with at most 288 missing rows and
    no present row. *)
Definition with_calendar (calendar_of : Z -> Calendar) (frame : list Row) : Prop :=
  forall r, In r frame -> calendar r = Some (calendar_of (datetime r)).

Definition in_idle_week (window : list Row) (a : Row) : Prop :=
  exists w,
    week_of a = Some w /\
    In a (filter (fun r => isnull (wl_up r)) window) /\
    In (Some w) (weeks_with_fewer_missing (filter (fun r => isnull (wl_up r)) window)) /\
    in_week (Some w) (filter (fun r => negb (isnull (wl_up r))) window) = [].

(** The calendar of the stamps of May 2024, by slots. *)
Definition may_calendar_of (t : Z) : Calendar := slot_calendar ((t - monday) / freq).

(** Fourteen cleaned readings, slots 660 to 673; the deletion range below
    covers the last four of them. *)
Definition cleaned_frame : list Row :=
  map (fun n => reading (slot_stamp (660 + Z.of_nat n)) 250) (seq 0 14).

Definition cut_start : Z := slot_stamp 670.

(** What a run returned, or [default] when it raised. *)
Definition value_of {A : Type} (default : A) (r : result A) : A :=
  match r with
  | Ok v => v
  | Raise _ => default
  end.

(** The two chains on [cleaned_frame], with slots 670 to 673 deleted and
    the window from slot 660 to slot 673. *)
Abbreviation basic_chain :=
  (StreamlitApp.process nat fit_size predict_size may_calendar_of true
     cleaned_frame cut_start tail_end tail_start tail_end).

Abbreviation extended_chain :=
  (TestPy.process nat fit_size predict_size tick_clock may_calendar_of true
     cleaned_frame None true cut_start tail_end tail_start tail_end).

(** ** Columns with a leading run of absent cells *)

Fixpoint leading_absent (col : list (option Q)) : nat :=
  match col with
  | None :: rest => S (leading_absent rest)
  | _ => 0%nat
  end.

(** A cell that is absent or lies between two bounds. *)
Definition within (lo hi : Q) (c : option Q) : Prop :=
  match c with
  | Some v => (lo <= v)%Q /\ (v <= hi)%Q
  | None => True
  end.

(** A series that starts with a gap, rises and has a gap of two slots. *)
Definition ramp_frame : list Row :=
  [mkRow (minutes 0) None None None None None None None;
   reading (minutes 15) 200; reading (minutes 30) 230;
   mkRow (minutes 45) None None None None None None None;
   mkRow (minutes 60) None None None None None None None;
   reading (minutes 75) 260].

(** * Properties *)

(** ** The result monad *)

Lemma bind_Ok_inv (A B : Type) (c : result A) (k : A -> result B) (b : B) :
  bind c k = Ok b -> exists a, c = Ok a /\ k a = Ok b.
Proof.
  destruct c as [a|e]; simpl; intros H; [eauto | discriminate].
Qed.

Lemma is_unique_NoDup (l : list Z) : is_unique l = true <-> NoDup l.
Proof.
  induction l as [|x xs IH]; simpl.
  - split; [constructor | reflexivity].
  - rewrite andb_true_iff, negb_true_iff, IH. split.
    + intros [Hx Hxs]. constructor; [|assumption].
      intros Hin. assert (existsb (Z.eqb x) xs = true) as E.
      { apply existsb_exists. exists x. split; [assumption | apply Z.eqb_refl]. }
      congruence.
    + intros Hnd. inversion Hnd as [|? ? Hx Hxs]; subst. split; [|assumption].
      destruct (existsb (Z.eqb x) xs) eqn:E; [|reflexivity].
      apply existsb_exists in E. destruct E as [y [Hy Hxy]].
      apply Z.eqb_eq in Hxy. subst y. contradiction.
Qed.

(** ** [clean_data] *)

Section CleanDataProperties.

Variable to_datetime : string -> option Z.

Lemma clean_data_cons (r : RawRow) (df : list RawRow) :
  clean_data to_datetime (r :: df) =
  match to_datetime (raw_datetime r) with
  | Some t =>
      if (ge_const (raw_wl_up r) 100 && le_const (raw_wl_up r) 450)
         && (ne_const (raw_wl_up r) 0 && negb (isnull (raw_wl_up r)))
      then of_raw t r :: clean_data to_datetime df
      else clean_data to_datetime df
  | None => clean_data to_datetime df
  end.
Proof.
  unfold clean_data, dropna_datetime. simpl.
  destruct (to_datetime (raw_datetime r)) as [t|]; simpl; [|reflexivity].
  destruct (ge_const (raw_wl_up r) 100 && le_const (raw_wl_up r) 450); simpl;
    [|reflexivity].
  destruct (ne_const (raw_wl_up r) 0 && negb (isnull (raw_wl_up r)));
    reflexivity.
Qed.

Lemma valid_value_iff (c : option Q) :
  (ge_const c 100 && le_const c 450) && (ne_const c 0 && negb (isnull c)) = true
  <-> exists v, c = Some v /\ ~ (v == 0 \/ v < 100 \/ 450 < v)%Q.
Proof.
  destruct c as [v|]; simpl.
  - rewrite !andb_true_r, !andb_true_iff, negb_true_iff, !Qle_bool_iff. split.
    + intros [[Hlo Hhi] Hz]. exists v. split; [reflexivity|].
      intros [H0 | [H1 | H2]].
      * apply Qeq_bool_iff in H0. congruence.
      * apply Qle_not_lt in Hlo. contradiction.
      * apply Qle_not_lt in Hhi. contradiction.
    + intros [w [Hw Hv]]. injection Hw as <-. repeat split.
      * apply Qnot_lt_le. tauto.
      * apply Qnot_lt_le. tauto.
      * destruct (Qeq_bool v 0) eqn:E; [|reflexivity].
        apply Qeq_bool_iff in E. tauto.
  - split; [discriminate | intros [v [Hv _]]; discriminate].
Qed.

(** C9. [clean_data] drops exactly the rows whose timestamp fails to parse
    or whose value is absent, exactly zero, or outside 100..450, and keeps
    every other row, in order, with its value unchanged. *)
Theorem clean_data_drops_exactly_invalid (df : list RawRow) :
  Cleaned to_datetime df (clean_data to_datetime df).
Proof.
  induction df as [|r df IH]; [constructor|].
  rewrite clean_data_cons.
  destruct (to_datetime (raw_datetime r)) as [t|] eqn:Et.
  - destruct ((ge_const (raw_wl_up r) 100 && le_const (raw_wl_up r) 450)
              && (ne_const (raw_wl_up r) 0 && negb (isnull (raw_wl_up r))))
      eqn:Ev.
    + apply valid_value_iff in Ev. destruct Ev as [v [Hv Hok]].
      apply Cleaned_keep; try assumption.
      unfold invalid_reading. rewrite Et, Hv.
      intros [Hbad | Hbad]; [discriminate | tauto].
    + apply Cleaned_drop; [|assumption].
      right. destruct (raw_wl_up r) as [v|] eqn:Hv; [|exact I].
      destruct (Qeq_dec v 0) as [H0|H0]; [tauto|].
      destruct (Qlt_le_dec v 100) as [H1|H1]; [tauto|].
      destruct (Qlt_le_dec 450 v) as [H2|H2]; [tauto|].
      exfalso. assert (true = false) as Habs; [|discriminate].
      rewrite <- Ev. symmetry. apply valid_value_iff. exists v.
      split; [reflexivity|].
      intros [H | [H | H]]; [tauto | |].
      * apply Qle_not_lt in H1. contradiction.
      * apply Qle_not_lt in H2. contradiction.
  - apply Cleaned_drop; [|assumption]. left. assumption.
Qed.

End CleanDataProperties.

(** ** The gap partitioner *)

Lemma same_cell_eq (a b : option Z) : same_cell a b = true <-> a = b.
Proof.
  destruct a as [x|], b as [y|]; simpl; split; intros H;
    try discriminate; try reflexivity.
  - apply Z.eqb_eq in H. congruence.
  - injection H as ->. apply Z.eqb_refl.
Qed.

Lemma seen_iff (c : option Z) (seen : list (option Z)) :
  existsb (same_cell c) seen = true <-> In c seen.
Proof.
  rewrite existsb_exists. split.
  - intros [x [Hx Hc]]. apply same_cell_eq in Hc. congruence.
  - intros H. exists c. split; [assumption | apply same_cell_eq; reflexivity].
Qed.

Lemma in_unique_from (c : option Z) (l seen : list (option Z)) :
  In c (unique_from seen l) <-> In c l /\ ~ In c seen.
Proof.
  revert seen. induction l as [|x xs IH]; intros seen; simpl; [tauto|].
  destruct (existsb (same_cell x) seen) eqn:E.
  - apply seen_iff in E. rewrite IH. split.
    + tauto.
    + intros [[-> | H] Hn]; [contradiction | tauto].
  - assert (~ In x seen) as Hx.
    { intros H. apply seen_iff in H. congruence. }
    simpl. rewrite IH. simpl. split.
    + intros [-> | [H Hn]]; [tauto|]. split; [tauto|]. intros Hc. apply Hn. tauto.
    + intros [[-> | H] Hn]; [tauto|].
      destruct (same_cell x c) eqn:Exc.
      * apply same_cell_eq in Exc. tauto.
      * right. split; [assumption|]. intros [-> | Hc]; [|contradiction].
        assert (same_cell c c = true) by (apply same_cell_eq; reflexivity).
        congruence.
Qed.

Lemma NoDup_unique_from (l seen : list (option Z)) : NoDup (unique_from seen l).
Proof.
  revert seen. induction l as [|x xs IH]; intros seen; simpl; [constructor|].
  destruct (existsb (same_cell x) seen); [apply IH|].
  constructor; [|apply IH].
  rewrite in_unique_from. simpl. tauto.
Qed.

Lemma in_unique (c : option Z) (l : list (option Z)) : In c (unique l) <-> In c l.
Proof. unfold unique. rewrite in_unique_from. simpl. tauto. Qed.

Lemma NoDup_unique (l : list (option Z)) : NoDup (unique l).
Proof. apply NoDup_unique_from. Qed.

Lemma split_weeks_filter (data_missing : list Row) (weeks fewer more : list (option Z)) :
  split_weeks data_missing weeks fewer more =
  (fewer ++ filter (fewer_test data_missing) weeks,
   more ++ filter (fun w => negb (fewer_test data_missing w)) weeks).
Proof.
  revert fewer more. induction weeks as [|w ws IH]; intros fewer more; simpl.
  - rewrite !app_nil_r. reflexivity.
  - fold (fewer_test data_missing w).
    destruct (fewer_test data_missing w); simpl; rewrite IH, <- app_assoc;
      reflexivity.
Qed.

Lemma fewer_filter (data_missing : list Row) :
  weeks_with_fewer_missing data_missing =
  filter (fewer_test data_missing) (weeks_with_missing data_missing).
Proof.
  unfold weeks_with_fewer_missing. rewrite split_weeks_filter. reflexivity.
Qed.

Lemma more_filter (data_missing : list Row) :
  weeks_with_more_missing data_missing =
  filter (fun w => negb (fewer_test data_missing w))
         (weeks_with_missing data_missing).
Proof.
  unfold weeks_with_more_missing. rewrite split_weeks_filter. reflexivity.
Qed.

Lemma in_fewer (data_missing : list Row) (w : option Z) :
  In w (weeks_with_fewer_missing data_missing) <->
  In w (weeks_with_missing data_missing) /\
  missing_count (in_week w data_missing) <= 288.
Proof.
  rewrite fewer_filter, filter_In. unfold fewer_test. rewrite Z.leb_le. tauto.
Qed.

Lemma in_more (data_missing : list Row) (w : option Z) :
  In w (weeks_with_more_missing data_missing) <->
  In w (weeks_with_missing data_missing) /\
  288 < missing_count (in_week w data_missing).
Proof.
  rewrite more_filter, filter_In. unfold fewer_test.
  rewrite negb_true_iff, Z.leb_gt. tauto.
Qed.

Lemma filter_split_perm (A : Type) (f : A -> bool) (l : list A) :
  Permutation (filter f l ++ filter (fun x => negb (f x)) l) l.
Proof.
  induction l as [|x xs IH]; simpl; [constructor|].
  destruct (f x); simpl.
  - constructor. assumption.
  - apply Permutation_sym. apply Permutation_cons_app.
    apply Permutation_sym. assumption.
Qed.

(** C3. Every week that has missing rows goes to exactly one of the two
    lists, by the threshold 288 on its missing count; the lists have no
    repetition, are disjoint, together are the weeks with missing rows, and
    so hold the week of every missing row. *)
Theorem partition_disjoint_and_covering (data_missing : list Row) :
  let fewer := weeks_with_fewer_missing data_missing in
  let more := weeks_with_more_missing data_missing in
  let weeks := weeks_with_missing data_missing in
  (forall w, In w fewer <->
             In w weeks /\ missing_count (in_week w data_missing) <= 288) /\
  (forall w, In w more <->
             In w weeks /\ 288 < missing_count (in_week w data_missing)) /\
  (forall w, In w weeks ->
             (In w fewer /\ ~ In w more) \/ (In w more /\ ~ In w fewer)) /\
  (forall w, ~ (In w fewer /\ In w more)) /\
  NoDup fewer /\ NoDup more /\
  Permutation (fewer ++ more) weeks /\
  (forall r, In r data_missing ->
             In (week_of r) fewer \/ In (week_of r) more).
Proof.
  cbv zeta.
  assert (forall w, ~ (In w (weeks_with_fewer_missing data_missing) /\
                       In w (weeks_with_more_missing data_missing))) as Hdisj.
  { intros w [H1 H2]. apply in_fewer in H1. apply in_more in H2. lia. }
  assert (forall w, In w (weeks_with_missing data_missing) ->
                    In w (weeks_with_fewer_missing data_missing) \/
                    In w (weeks_with_more_missing data_missing)) as Hcov.
  { intros w Hw. rewrite in_fewer, in_more.
    destruct (Z_le_gt_dec (missing_count (in_week w data_missing)) 288);
      [left | right]; split; try assumption; lia. }
  split; [apply in_fewer|]. split; [apply in_more|].
  split.
  { intros w Hw. destruct (Hcov w Hw) as [H | H]; [left | right];
      (split; [assumption|]); intros H'; apply (Hdisj w); tauto. }
  split; [assumption|].
  split.
  { rewrite fewer_filter. apply NoDup_filter, NoDup_unique. }
  split.
  { rewrite more_filter. apply NoDup_filter, NoDup_unique. }
  split.
  { rewrite fewer_filter, more_filter. apply filter_split_perm. }
  intros r Hr. apply Hcov. unfold weeks_with_missing.
  apply in_unique. apply in_map. assumption.
Qed.

(** ** [generate_missing_dates] *)

Lemma freq_pos : 0 < freq.
Proof. reflexivity. Qed.

Lemma fold_min_le (l : list Z) (a : Z) :
  fold_left Z.min l a <= a /\ Forall (fun x => fold_left Z.min l a <= x) l.
Proof.
  revert a. induction l as [|x xs IH]; intros a; simpl.
  - split; [lia | constructor].
  - destruct (IH (Z.min a x)) as [H1 H2]. split; [lia|].
    constructor; [lia | assumption].
Qed.

Lemma fold_max_ge (l : list Z) (a : Z) :
  a <= fold_left Z.max l a /\ Forall (fun x => x <= fold_left Z.max l a) l.
Proof.
  revert a. induction l as [|x xs IH]; intros a; simpl.
  - split; [lia | constructor].
  - destruct (IH (Z.max a x)) as [H1 H2]. split; [lia|].
    constructor; [lia | assumption].
Qed.

Lemma fold_min_in (l : list Z) (a : Z) : In (fold_left Z.min l a) (a :: l).
Proof.
  revert a. induction l as [|x xs IH]; intros a; simpl; [tauto|].
  destruct (IH (Z.min a x)) as [H | H]; [|tauto].
  destruct (Z.min_spec a x) as [[_ E] | [_ E]];
    [left | right; left]; congruence.
Qed.

Lemma fold_max_in (l : list Z) (a : Z) : In (fold_left Z.max l a) (a :: l).
Proof.
  revert a. induction l as [|x xs IH]; intros a; simpl; [tauto|].
  destruct (IH (Z.max a x)) as [H | H]; [|tauto].
  destruct (Z.max_spec a x) as [[_ E] | [_ E]];
    [right; left | left]; congruence.
Qed.

Lemma col_min_spec (l : list Z) (lo : Z) :
  col_min l = Some lo -> In lo l /\ forall x, In x l -> lo <= x.
Proof.
  destruct l as [|a l]; simpl; [discriminate|].
  intros H. injection H as <-. split; [apply fold_min_in|].
  destruct (fold_min_le l a) as [H1 H2]. rewrite Forall_forall in H2.
  intros x [<- | Hx]; auto.
Qed.

Lemma col_max_spec (l : list Z) (hi : Z) :
  col_max l = Some hi -> In hi l /\ forall x, In x l -> x <= hi.
Proof.
  destruct l as [|a l]; simpl; [discriminate|].
  intros H. injection H as <-. split; [apply fold_max_in|].
  destruct (fold_max_ge l a) as [H1 H2]. rewrite Forall_forall in H2.
  intros x [<- | Hx]; auto.
Qed.

Lemma col_min_max_nonempty (l : list Z) :
  l <> [] -> exists lo hi, col_min l = Some lo /\ col_max l = Some hi.
Proof.
  destruct l as [|a l]; [congruence|]. intros _. simpl. eauto.
Qed.

Lemma in_date_range (lo hi t : Z) :
  In t (date_range lo hi) <->
  exists k, 0 <= k <= (hi - lo) / freq /\ t = lo + k * freq.
Proof.
  unfold date_range. rewrite in_map_iff. split.
  - intros [n [<- Hn]]. apply in_seq in Hn. exists (Z.of_nat n). split; lia.
  - intros [k [Hk ->]]. exists (Z.to_nat k). split.
    + rewrite Z2Nat.id by lia. reflexivity.
    + apply in_seq. lia.
Qed.

Lemma length_date_range (lo hi : Z) :
  lo <= hi -> Z.of_nat (length (date_range lo hi)) = (hi - lo) / freq + 1.
Proof.
  intros H. unfold date_range. rewrite length_map, length_seq.
  assert (0 <= (hi - lo) / freq) by (apply Z.div_pos; [lia | apply freq_pos]).
  lia.
Qed.

Lemma NoDup_date_range (lo hi : Z) : NoDup (date_range lo hi).
Proof.
  unfold date_range. apply Injective_map_NoDup; [|apply seq_NoDup].
  intros a b H. pose proof freq_pos. nia.
Qed.

(** Consecutive stamps of the range are one interval apart. *)
Lemma date_range_nth (lo hi : Z) (n : nat) :
  (n < length (date_range lo hi))%nat ->
  nth n (date_range lo hi) 0 = lo + Z.of_nat n * freq.
Proof.
  intros H. unfold date_range in *. rewrite length_map, length_seq in H.
  rewrite nth_indep with (d' := lo + Z.of_nat 0 * freq)
    by (rewrite length_map, length_seq; assumption).
  rewrite (map_nth (fun k => lo + Z.of_nat k * freq)), seq_nth by assumption.
  reflexivity.
Qed.

Lemma in_merge_left (dates : list Z) (data : list Row) (g : Row) :
  In g (merge_left dates data) <->
  In (datetime g) dates /\
  (In g data \/
   (g = blank_row (datetime g) /\ forall r, In r data -> datetime r <> datetime g)).
Proof.
  unfold merge_left. rewrite in_flat_map. split.
  - intros [t [Ht Hg]].
    destruct (filter (fun r => datetime r =? t) data) as [|m ms] eqn:E.
    + destruct Hg as [<- | []]. simpl. split; [assumption|]. right.
      split; [reflexivity|]. intros r Hr Heq.
      assert (In r (filter (fun r => datetime r =? t) data)) as Hin.
      { apply filter_In. split; [assumption | apply Z.eqb_eq; assumption]. }
      rewrite E in Hin. contradiction.
    + rewrite <- E in Hg. apply filter_In in Hg. destruct Hg as [Hg Ht'].
      apply Z.eqb_eq in Ht'. subst t. tauto.
  - intros [Ht [Hg | [Hb Hno]]].
    + exists (datetime g). split; [assumption|].
      assert (In g (filter (fun r => datetime r =? datetime g) data)) as Hin.
      { apply filter_In. split; [assumption | apply Z.eqb_refl]. }
      destruct (filter (fun r => datetime r =? datetime g) data); [contradiction|].
      assumption.
    + exists (datetime g). split; [assumption|].
      destruct (filter (fun r => datetime r =? datetime g) data) as [|m ms] eqn:E.
      * left. symmetry. assumption.
      * exfalso. assert (In m (filter (fun r => datetime r =? datetime g) data)) as Hin
          by (rewrite E; left; reflexivity).
        apply filter_In in Hin. destruct Hin as [Hm Heq]. apply Z.eqb_eq in Heq.
        apply (Hno m Hm Heq).
Qed.

Lemma filter_unique_key (data : list Row) (t : Z) :
  NoDup (map datetime data) ->
  (length (filter (fun r => (datetime r =? t)%Z) data) <= 1)%nat.
Proof.
  induction data as [|r rs IH]; simpl; intros Hnd; [lia|].
  inversion Hnd as [|? ? Hr Hrs]; subst.
  destruct (datetime r =? t) eqn:E; [|auto].
  apply Z.eqb_eq in E. simpl.
  assert (filter (fun r0 => datetime r0 =? t) rs = []) as ->; [|simpl; lia].
  destruct (filter (fun r0 => datetime r0 =? t) rs) as [|m ms] eqn:Ef; [reflexivity|].
  exfalso. assert (In m (filter (fun r0 => datetime r0 =? t) rs)) as Hin
    by (rewrite Ef; left; reflexivity).
  apply filter_In in Hin. destruct Hin as [Hm Heq]. apply Z.eqb_eq in Heq.
  apply Hr. rewrite E, <- Heq. apply in_map. assumption.
Qed.

Lemma merge_left_keys (dates : list Z) (data : list Row) :
  NoDup (map datetime data) ->
  map datetime (merge_left dates data) = dates.
Proof.
  intros Hnd. unfold merge_left. induction dates as [|t ts IH]; simpl; [reflexivity|].
  rewrite map_app, IH. pose proof (filter_unique_key data t Hnd) as Hlen.
  destruct (filter (fun r => datetime r =? t) data) as [|m ms] eqn:E; simpl.
  - reflexivity.
  - destruct ms; simpl in Hlen; [|lia].
    assert (In m (filter (fun r => datetime r =? t) data)) as Hin
      by (rewrite E; left; reflexivity).
    apply filter_In in Hin. destruct Hin as [_ Heq]. apply Z.eqb_eq in Heq.
    simpl. rewrite Heq. reflexivity.
Qed.

(** Every stamp of the grid is a whole number of intervals after the
    smallest input stamp, whatever the input. *)
Lemma grid_stamps_on_grid (data grid : list Row) (lo : Z) :
  generate_missing_dates data = Ok grid ->
  col_min (map datetime data) = Some lo ->
  forall g, In g grid -> (datetime g - lo) mod freq = 0.
Proof.
  unfold generate_missing_dates. intros Hgen Hlo. rewrite Hlo in Hgen.
  destruct (col_max (map datetime data)) as [hi|]; [|discriminate].
  injection Hgen as <-. intros g Hg. apply in_merge_left in Hg.
  destruct Hg as [Hd _]. apply in_date_range in Hd. destruct Hd as [k [_ ->]].
  replace (lo + k * freq - lo) with (k * freq) by lia. apply Z_mod_mult.
Qed.

(** C10. A row whose stamp is not a whole number of 15-minute intervals
    after the smallest stamp is dropped without an error: the grid is
    produced, no row of the grid carries the stamp, and the row is not in
    the grid. *)
Theorem off_grid_rows_are_dropped (data : list Row) (r : Row) (lo : Z) :
  In r data ->
  col_min (map datetime data) = Some lo ->
  (datetime r - lo) mod freq <> 0 ->
  exists grid,
    generate_missing_dates data = Ok grid /\
    (forall g, In g grid -> datetime g <> datetime r) /\
    ~ In r grid.
Proof.
  intros Hr Hlo Hoff.
  destruct (col_min_max_nonempty (map datetime data)) as [lo' [hi [Hlo' Hhi]]].
  { destruct data; [contradiction | discriminate]. }
  exists (merge_left (date_range lo' hi) data).
  assert (generate_missing_dates data = Ok (merge_left (date_range lo' hi) data))
    as Hgen.
  { unfold generate_missing_dates. rewrite Hlo', Hhi. reflexivity. }
  split; [assumption|].
  assert (forall g, In g (merge_left (date_range lo' hi) data) ->
                    datetime g <> datetime r) as Hno.
  { intros g Hg Heq. apply Hoff. rewrite <- Heq.
    apply (grid_stamps_on_grid data _ lo Hgen Hlo g Hg). }
  split; [assumption|]. intros Hin. apply (Hno r Hin). reflexivity.
Qed.

Lemma off_grid_rows_are_dropped_witness :
  exists grid,
    generate_missing_dates off_grid_frame = Ok grid /\
    (forall g, In g grid -> datetime g <> datetime (reading (minutes 10) 210)) /\
    ~ In (reading (minutes 10) 210) grid.
Proof.
  apply (off_grid_rows_are_dropped off_grid_frame (reading (minutes 10) 210) 0).
  - simpl. tauto.
  - reflexivity.
  - vm_compute. discriminate.
Defined.

(** C2, as stated, fails on an input with a repeated stamp: the left merge
    returns both rows of [twin_frame], so the grid has two rows where
    [(max - min) / interval + 1] is one, and the stamp appears twice. *)
Lemma repeated_stamp_breaks_grid :
  generate_missing_dates twin_frame = Ok twin_frame /\
  col_min (map datetime twin_frame) = Some 0 /\
  col_max (map datetime twin_frame) = Some 0 /\
  Z.of_nat (length twin_frame) <> (0 - 0) / freq + 1 /\
  ~ NoDup (map datetime twin_frame).
Proof.
  split; [reflexivity|]. split; [reflexivity|]. split; [reflexivity|].
  split; [vm_compute; discriminate|].
  intros H. apply is_unique_NoDup in H. vm_compute in H. discriminate.
Qed.

(** C2, amended. For an input with at least one reading and no repeated
    stamp, the grid runs from the smallest to the largest stamp in steps of
    one interval, has [(max - min) / interval + 1] rows and no repeated
    stamp; a row whose stamp is not in the input has every value absent, and
    a row whose stamp is in the input is that input row. *)
Theorem grid_complete_without_repeated_stamps (data : list Row) :
  data <> [] ->
  is_unique (map datetime data) = true ->
  exists lo hi grid,
    col_min (map datetime data) = Some lo /\
    col_max (map datetime data) = Some hi /\
    generate_missing_dates data = Ok grid /\
    map datetime grid = date_range lo hi /\
    Z.of_nat (length grid) = (hi - lo) / freq + 1 /\
    NoDup (map datetime grid) /\
    (forall n, (n < length grid)%nat ->
               nth n (map datetime grid) 0 = lo + Z.of_nat n * freq) /\
    (forall g, In g grid ->
               (forall r, In r data -> datetime r <> datetime g) ->
               g = blank_row (datetime g) /\ wl_up g = None) /\
    (forall g r, In g grid -> In r data -> datetime r = datetime g -> g = r).
Proof.
  intros Hne Huniq. apply is_unique_NoDup in Huniq.
  destruct (col_min_max_nonempty (map datetime data)) as [lo [hi [Hlo Hhi]]].
  { destruct data; [congruence | discriminate]. }
  exists lo, hi, (merge_left (date_range lo hi) data).
  pose proof (merge_left_keys (date_range lo hi) data Huniq) as Hkeys.
  assert (lo <= hi) as Hle.
  { destruct (col_min_spec _ _ Hlo) as [Hin _].
    destruct (col_max_spec _ _ Hhi) as [_ Hmax]. auto. }
  split; [assumption|]. split; [assumption|].
  split. { unfold generate_missing_dates. rewrite Hlo, Hhi. reflexivity. }
  split; [assumption|].
  split. { rewrite <- (length_map datetime), Hkeys. apply length_date_range, Hle. }
  split. { rewrite Hkeys. apply NoDup_date_range. }
  split.
  { intros n Hn. rewrite Hkeys. apply date_range_nth.
    rewrite <- Hkeys, length_map. assumption. }
  split.
  { intros g Hg Hno. apply in_merge_left in Hg. destruct Hg as [_ [Hg | [Hb _]]].
    - exfalso. apply (Hno g Hg). reflexivity.
    - split; [assumption|]. rewrite Hb. reflexivity. }
  intros g r Hg Hr Heq. apply in_merge_left in Hg. destruct Hg as [_ [Hg | [_ Hno]]].
  - clear - Huniq Hg Hr Heq. induction data as [|x xs IH]; [contradiction|].
    simpl in Huniq. inversion Huniq as [|? ? Hx Hxs]; subst.
    destruct Hg as [<- | Hg], Hr as [<- | Hr]; auto.
    + exfalso. apply Hx. rewrite <- Heq. apply in_map. assumption.
    + exfalso. apply Hx. rewrite Heq. apply in_map. assumption.
  - exfalso. apply (Hno r Hr Heq).
Qed.

Lemma grid_complete_without_repeated_stamps_witness :
  exists lo hi grid,
    col_min (map datetime sparse_frame) = Some lo /\
    col_max (map datetime sparse_frame) = Some hi /\
    generate_missing_dates sparse_frame = Ok grid /\
    map datetime grid = date_range lo hi /\
    Z.of_nat (length grid) = (hi - lo) / freq + 1 /\
    NoDup (map datetime grid) /\
    (forall n, (n < length grid)%nat ->
               nth n (map datetime grid) 0 = lo + Z.of_nat n * freq) /\
    (forall g, In g grid ->
               (forall r, In r sparse_frame -> datetime r <> datetime g) ->
               g = blank_row (datetime g) /\ wl_up g = None) /\
    (forall g r, In g grid -> In r sparse_frame -> datetime r = datetime g -> g = r).
Proof.
  apply (grid_complete_without_repeated_stamps sparse_frame).
  - discriminate.
  - reflexivity.
Defined.

(** The grid of [sparse_frame]: four rows, the two in the middle blank. *)
Example grid_of_sparse_frame :
  generate_missing_dates sparse_frame =
  Ok [reading (minutes 0) 200; blank_row (minutes 15); blank_row (minutes 30);
      reading (minutes 45) 230].
Proof. reflexivity. Qed.

(** ** [delete_data_by_date_range] *)

Lemma between_in_range (s e : Z) (data : list Row) :
  between s e data = filter (in_range s e) data.
Proof. reflexivity. Qed.

(** C6, as stated, fails in [streamlit_app.py], which has no 30% guard: a
    range covering all ten rows of [ten_frame] blanks every one of them. *)
Lemma basic_delete_has_no_guard :
  TestPy.over_30_percent
    (length (between (minutes 0) (minutes 135) ten_frame)) (length ten_frame)
  = true /\
  StreamlitApp.delete_data_by_date_range ten_frame (minutes 0) (minutes 135) =
  (map (set_wl_up None) ten_frame, []) /\
  map (set_wl_up None) ten_frame <> ten_frame.
Proof.
  split; [reflexivity|]. split; [reflexivity|]. vm_compute. discriminate.
Qed.

(** C6, amended. In [test.py]: a range matching no row reports that no data
    was found and a range matching more than 30% of the rows reports the
    rejection, the data unchanged in both cases; any other range blanks the
    value of exactly the matched rows and reports nothing.  In
    [streamlit_app.py] there is no 30% guard: an empty match reports that no
    data was found, every other range blanks exactly the matched rows. *)
Theorem delete_guard (data : list Row) (s e : Z) :
  let matched := between s e data in
  (length matched = 0%nat ->
   TestPy.delete_data_by_date_range data s e = (data, [TestPy.NoDataFound s e]) /\
   StreamlitApp.delete_data_by_date_range data s e =
   (data, [StreamlitApp.NoDataFound s e])) /\
  (3 * Z.of_nat (length data) < 10 * Z.of_nat (length matched) ->
   TestPy.delete_data_by_date_range data s e = (data, [TestPy.TooMuchToDelete])) /\
  (length matched <> 0%nat ->
   10 * Z.of_nat (length matched) <= 3 * Z.of_nat (length data) ->
   TestPy.delete_data_by_date_range data s e = (map (blanked s e) data, [])) /\
  (length matched <> 0%nat ->
   StreamlitApp.delete_data_by_date_range data s e = (map (blanked s e) data, [])) /\
  (forall r, In r data -> in_range s e r = true ->
             In r matched /\ blanked s e r = set_wl_up None r) /\
  (forall r, In r data -> in_range s e r = false ->
             ~ In r matched /\ blanked s e r = r).
Proof.
  cbv zeta. unfold TestPy.delete_data_by_date_range,
    StreamlitApp.delete_data_by_date_range, TestPy.over_30_percent.
  repeat split.
  - rewrite H. reflexivity.
  - rewrite H. reflexivity.
  - intros H. destruct (length (between s e data)) eqn:E; simpl (_ =? _)%nat.
    + lia.
    + apply Z.ltb_lt in H. rewrite H. reflexivity.
  - intros H1 H2. apply Nat.eqb_neq in H1. rewrite H1.
    destruct (3 * Z.of_nat (length data) <? 10 * Z.of_nat (length (between s e data)))
      eqn:E; [apply Z.ltb_lt in E; lia | reflexivity].
  - intros H1. apply Nat.eqb_neq in H1. rewrite H1. reflexivity.
  - rewrite between_in_range. apply filter_In. tauto.
  - unfold blanked. rewrite H0. reflexivity.
  - rewrite between_in_range, filter_In. intros [_ Hc]. congruence.
  - unfold blanked. rewrite H0. reflexivity.
Qed.

(** Deleting 0:30..0:45 from [ten_frame] (2 of 10 rows) blanks these two
    rows; deleting 0:30..1:15 (4 of 10 rows) is rejected; a range before the
    data matches nothing. *)
Lemma delete_guard_witness :
  TestPy.delete_data_by_date_range ten_frame (minutes 30) (minutes 45) =
  (map (blanked (minutes 30) (minutes 45)) ten_frame, []) /\
  TestPy.delete_data_by_date_range ten_frame (minutes 30) (minutes 75) =
  (ten_frame, [TestPy.TooMuchToDelete]) /\
  TestPy.delete_data_by_date_range ten_frame (minutes (-30)) (minutes (-15)) =
  (ten_frame, [TestPy.NoDataFound (minutes (-30)) (minutes (-15))]).
Proof.
  split; [|split].
  - apply (proj1 (proj2 (proj2 (delete_guard ten_frame (minutes 30) (minutes 45))))).
    + vm_compute. discriminate.
    + vm_compute. discriminate.
  - apply (proj1 (proj2 (delete_guard ten_frame (minutes 30) (minutes 75)))).
    reflexivity.
  - apply (proj1 (delete_guard ten_frame (minutes (-30)) (minutes (-15)))).
    reflexivity.
Defined.

(** ** [train_model] *)

Section TrainModel.

Variable Model : Type.
Variable search_fit : list (list (option Q)) -> list (option Q) -> result Model.

(** The fold count of [streamlit_app.py] is 0 for one row and 1 for two or
    three rows. *)
Lemma n_splits_small (X : list (list (option Q))) :
  (1 <= length X <= 3)%nat -> StreamlitApp.n_splits_of X < 2.
Proof.
  intros H. unfold StreamlitApp.n_splits_of.
  assert (Z.of_nat (length X) / 2 < 2) by (apply Z.div_lt_upper_bound; lia).
  lia.
Qed.

Lemma basic_train_model_small_scope (X : list (list (option Q))) (y : list (option Q)) :
  (1 <= length X <= 3)%nat ->
  StreamlitApp.train_model Model search_fit X y = Raise ValueError.
Proof.
  intros H. unfold StreamlitApp.train_model, KFold.
  pose proof (n_splits_small X H) as Hn. apply Z.ltb_lt in Hn. rewrite Hn.
  reflexivity.
Qed.

Lemma basic_train_model_enough_rows (X : list (list (option Q))) (y : list (option Q)) :
  (4 <= length X)%nat ->
  StreamlitApp.train_model Model search_fit X y = search_fit X y.
Proof.
  intros H. unfold StreamlitApp.train_model, KFold, StreamlitApp.n_splits_of.
  assert (2 <= Z.of_nat (length X) / 2) by (apply Z.div_le_lower_bound; lia).
  assert (Z.of_nat (length X) / 2 <= Z.of_nat (length X))
    by (apply Z.div_le_upper_bound; lia).
  destruct (Z.min 3 (Z.of_nat (length X) / 2) <? 2) eqn:E1;
    [apply Z.ltb_lt in E1; lia|].
  destruct (Z.of_nat (length X) <? Z.min 3 (Z.of_nat (length X) / 2)) eqn:E2;
    [apply Z.ltb_lt in E2; lia|].
  reflexivity.
Qed.

Lemma extended_train_model_small_scope (X : list (list (option Q)))
      (y : list (option Q)) :
  (length X <= 5)%nat ->
  TestPy.train_model Model search_fit X y = Raise ValueError.
Proof.
  intros H. unfold TestPy.train_model, TimeSeriesSplit.
  destruct (Z.of_nat (length X) <? 5 + 1) eqn:E; [reflexivity|].
  apply Z.ltb_ge in E. lia.
Qed.

Lemma extended_train_model_enough_rows (X : list (list (option Q)))
      (y : list (option Q)) :
  (6 <= length X)%nat ->
  TestPy.train_model Model search_fit X y = search_fit X y.
Proof.
  intros H. unfold TestPy.train_model, TimeSeriesSplit.
  destruct (Z.of_nat (length X) <? 5 + 1) eqn:E; [|reflexivity].
  apply Z.ltb_lt in E. lia.
Qed.

(** C8 at a training scope of one row: both [train_model] raise, whatever
    the search would return.  In [streamlit_app.py] the fold count
    [min(3, 1 // 2)] is 0, which [KFold] rejects; in [test.py] the five
    splits of [TimeSeriesSplit] are never reduced. *)
Theorem train_model_one_row_raises (x : list (option Q)) (y : option Q) :
  StreamlitApp.n_splits_of [x] = 0 /\
  StreamlitApp.train_model Model search_fit [x] [y] = Raise ValueError /\
  TestPy.train_model Model search_fit [x] [y] = Raise ValueError.
Proof.
  split; [reflexivity|]. split.
  - unfold StreamlitApp.train_model.
    change (StreamlitApp.n_splits_of [x]) with 0. reflexivity.
  - unfold TestPy.train_model. reflexivity.
Qed.

End TrainModel.

Lemma basic_train_model_small_scope_witness :
  StreamlitApp.train_model nat fit_size [[None]; [None]; [None]] [None; None; None]
  = Raise ValueError.
Proof.
  apply (basic_train_model_small_scope nat fit_size). simpl. lia.
Defined.

Lemma basic_train_model_enough_rows_witness :
  StreamlitApp.train_model nat fit_size [[None]; [None]; [None]; [None]]
                           [None; None; None; None]
  = fit_size [[None]; [None]; [None]; [None]] [None; None; None; None].
Proof.
  apply (basic_train_model_enough_rows nat fit_size). simpl. lia.
Defined.

Lemma extended_train_model_small_scope_witness :
  TestPy.train_model nat fit_size [[None]; [None]; [None]; [None]; [None]]
                     [None; None; None; None; None]
  = Raise ValueError.
Proof.
  apply (extended_train_model_small_scope nat fit_size). simpl. lia.
Defined.

Lemma extended_train_model_enough_rows_witness :
  TestPy.train_model nat fit_size [[None]; [None]; [None]; [None]; [None]; [None]]
                     [None; None; None; None; None; None]
  = fit_size [[None]; [None]; [None]; [None]; [None]; [None]]
             [None; None; None; None; None; None].
Proof.
  apply (extended_train_model_enough_rows nat fit_size). simpl. lia.
Defined.

(** ** [calculate_accuracy_metrics] *)

Lemma in_merge_inner (left right : list Row) (l r : Row) :
  In (l, r) (merge_inner left right) <->
  In l left /\ In r right /\ datetime r = datetime l.
Proof.
  unfold merge_inner. rewrite in_flat_map. split.
  - intros [x [Hx Hin]]. apply in_map_iff in Hin. destruct Hin as [y [Heq Hy]].
    injection Heq as -> ->. apply filter_In in Hy. destruct Hy as [Hy Hk].
    apply Z.eqb_eq in Hk. tauto.
  - intros [Hl [Hr Hk]]. exists l. split; [assumption|].
    apply in_map. apply filter_In. split; [assumption | apply Z.eqb_eq; assumption].
Qed.

Lemma merge_inner_disjoint (left right : list Row) :
  (forall l r, In l left -> In r right -> datetime l <> datetime r) ->
  merge_inner left right = [].
Proof.
  intros H. destruct (merge_inner left right) as [|[l r] rest] eqn:E; [reflexivity|].
  assert (In (l, r) (merge_inner left right)) as Hin by (rewrite E; left; reflexivity).
  apply in_merge_inner in Hin. destruct Hin as [Hl [Hr Hk]].
  exfalso. apply (H l r Hl Hr). congruence.
Qed.

Lemma filter_key_single (data : list Row) (r : Row) :
  NoDup (map datetime data) -> In r data ->
  filter (fun x => datetime x =? datetime r) data = [r].
Proof.
  induction data as [|x xs IH]; simpl; intros Hnd Hin; [contradiction|].
  inversion Hnd as [|? ? Hx Hxs]; subst.
  destruct Hin as [-> | Hin].
  - rewrite Z.eqb_refl. f_equal.
    destruct (filter (fun x => datetime x =? datetime r) xs) as [|m ms] eqn:E;
      [reflexivity|].
    exfalso. assert (In m (filter (fun x => datetime x =? datetime r) xs)) as Hm
      by (rewrite E; left; reflexivity).
    apply filter_In in Hm. destruct Hm as [Hm Hk]. apply Z.eqb_eq in Hk.
    apply Hx. rewrite <- Hk. apply in_map. assumption.
  - destruct (datetime x =? datetime r) eqn:E.
    + apply Z.eqb_eq in E. exfalso. apply Hx. rewrite E. apply in_map. assumption.
    + apply IH; assumption.
Qed.

(** Over two frames with the same stamps, none repeated, the inner join
    pairs the rows position by position. *)
Lemma merge_inner_aligned (left right : list Row) :
  map datetime left = map datetime right ->
  NoDup (map datetime right) ->
  merge_inner left right = combine left right.
Proof.
  intros Hkeys Hnd. unfold merge_inner.
  assert (forall l' r', map datetime l' = map datetime r' -> incl r' right ->
            flat_map (fun l => map (pair l)
                       (filter (fun r => datetime r =? datetime l) right)) l'
            = combine l' r') as Hgen.
  { induction l' as [|l ls IH]; intros r' Hk Hincl; [reflexivity|].
    destruct r' as [|r rs]; [discriminate|]. simpl in Hk.
    injection Hk as Hk1 Hk2. simpl. rewrite Hk1.
    rewrite (filter_key_single right r Hnd) by (apply Hincl; left; reflexivity).
    simpl. f_equal. apply IH; [assumption|].
    intros x Hx. apply Hincl. right. assumption. }
  apply Hgen; [assumption | apply incl_refl].
Qed.

Lemma check_array_Some (vs : list Q) : check_array (map Some vs) = Ok vs.
Proof.
  induction vs as [|v vs IH]; simpl; [reflexivity|]. rewrite IH. reflexivity.
Qed.

Lemma all_present (col : list (option Q)) :
  forallb (fun c => negb (isnull c)) col = true -> exists vs, col = map Some vs.
Proof.
  induction col as [|c cs IH]; simpl; intros H.
  - exists []. reflexivity.
  - apply andb_true_iff in H. destruct H as [Hc Hcs].
    destruct (IH Hcs) as [vs ->]. destruct c as [v|]; [|discriminate].
    exists (v :: vs). reflexivity.
Qed.

Lemma check_targets_same (vs : list Q) :
  vs <> [] ->
  check_targets (map Some vs) (map Some vs) = Ok (map (fun v => (v, v)) vs).
Proof.
  intros Hne. unfold check_targets. rewrite Nat.eqb_refl. simpl.
  rewrite check_array_Some. simpl.
  destruct vs as [|v vs']; [congruence|]. f_equal.
  generalize (v :: vs'). intros l. induction l as [|a l IH]; simpl; congruence.
Qed.

Lemma Qsum_zero (l : list Q) : Forall (fun q => q == 0)%Q l -> (Qsum l == 0)%Q.
Proof.
  induction 1 as [|q l Hq Hl IH]; simpl; [reflexivity|].
  rewrite Hq, IH. reflexivity.
Qed.

Lemma Qmean_zero (l : list Q) : (Qsum l == 0)%Q -> (Qmean l == 0)%Q.
Proof.
  intros H. unfold Qmean. rewrite H. unfold Qdiv. apply Qmult_0_l.
Qed.

Lemma squares_of_same (vs : list Q) :
  Forall (fun q => q == 0)%Q
         (map (fun x => (fst x - snd x) * (fst x - snd x))%Q
              (map (fun v => (v, v)) vs)).
Proof.
  induction vs as [|v vs IH]; simpl; constructor; [|assumption]. ring.
Qed.

Lemma abs_of_same (vs : list Q) :
  Forall (fun q => q == 0)%Q
         (map (fun x => Qabs (fst x - snd x)) (map (fun v => (v, v)) vs)).
Proof.
  induction vs as [|v vs IH]; [constructor|].
  cbn [map fst snd]. constructor; [|assumption].
  setoid_replace (v - v)%Q with 0%Q by ring. reflexivity.
Qed.

(** The three metrics of a series against itself. *)
Lemma metrics_of_same (vs : list Q) :
  (2 <= length vs)%nat ->
  exists mse mae r2,
    mean_squared_error (map Some vs) (map Some vs) = Ok mse /\
    mean_absolute_error (map Some vs) (map Some vs) = Ok mae /\
    r2_score (map Some vs) (map Some vs) = Ok (Some r2) /\
    (mse == 0)%Q /\ (mae == 0)%Q /\ (r2 == 1)%Q.
Proof.
  intros Hlen. assert (vs <> []) as Hne by (destruct vs; simpl in *; [lia | congruence]).
  unfold mean_squared_error, mean_absolute_error, r2_score.
  rewrite (check_targets_same vs Hne). simpl bind.
  assert ((length (map (fun v => (v, v)) vs) <? 2)%nat = false) as ->.
  { apply Nat.ltb_ge. rewrite length_map. assumption. }
  pose proof (Qsum_zero _ (squares_of_same vs)) as Hnum.
  set (num := Qsum (map (fun x => (fst x - snd x) * (fst x - snd x))%Q
                        (map (fun v => (v, v)) vs))) in *.
  set (den := Qsum (map (fun x => _) (map (fun v => (v, v)) vs))).
  destruct (Qeq_bool den 0) eqn:Eden; simpl.
  - assert (Qeq_bool num 0 = true) as -> by (apply Qeq_bool_iff; assumption).
    simpl. do 3 eexists. repeat split; try reflexivity.
    + apply Qmean_zero. assumption.
    + apply Qmean_zero, Qsum_zero, abs_of_same.
  - do 3 eexists. repeat split; try reflexivity.
    + apply Qmean_zero. assumption.
    + apply Qmean_zero, Qsum_zero, abs_of_same.
    + rewrite Hnum. unfold Qdiv. rewrite Qmult_0_l. ring.
Qed.

Lemma map_fst_combine (A : Type) (g : Row -> A) (l r : list Row) :
  length l = length r -> map (fun p => g (fst p)) (combine l r) = map g l.
Proof.
  revert r. induction l as [|x xs IH]; intros [|y ys] H; simpl in *;
    try discriminate; try reflexivity.
  f_equal. apply IH. lia.
Qed.

Lemma map_snd_combine (A : Type) (g : Row -> A) (l r : list Row) :
  length l = length r -> map (fun p => g (snd p)) (combine l r) = map g r.
Proof.
  revert r. induction l as [|x xs IH]; intros [|y ys] H; simpl in *;
    try discriminate; try reflexivity.
  f_equal. apply IH. lia.
Qed.

(** The columns handed to the metric functions when the two frames have the
    same stamps, none repeated, and the same present values. *)
Lemma aligned_columns (original filled : list Row) (col : Row -> option Q) :
  map datetime original = map datetime filled ->
  is_unique (map datetime filled) = true ->
  map col filled = map wl_up original ->
  forallb (fun c => negb (isnull c)) (map wl_up original) = true ->
  (2 <= length original)%nat ->
  exists vs,
    (2 <= length vs)%nat /\
    map (fun p => wl_up (fst p)) (merge_inner original filled) = map Some vs /\
    map (fun p => col (snd p)) (merge_inner original filled) = map Some vs.
Proof.
  intros Hk Hu Hv Hp Hlen. apply is_unique_NoDup in Hu.
  rewrite (merge_inner_aligned original filled Hk Hu).
  assert (length original = length filled) as Hl.
  { rewrite <- (length_map datetime original), Hk. apply length_map. }
  destruct (all_present _ Hp) as [vs Hvs]. exists vs.
  rewrite (map_fst_combine _ wl_up original filled Hl).
  rewrite (map_snd_combine _ col original filled Hl), Hv, Hvs.
  split; [|split; reflexivity].
  rewrite <- (length_map Some vs), <- Hvs, length_map. assumption.
Qed.

(** C7, as stated, fails for identical series in two ways: a stamp that
    repeats is joined with every row carrying it, so [twin_frame] against
    itself has a mean squared error of 5000 and an R² of -1; and for a
    one-row series R² is undefined, not 1. *)
Lemma identical_series_without_perfect_score :
  (exists mse mae r2,
     StreamlitApp.calculate_accuracy_metrics twin_frame twin_frame
       = Ok (mse, mae, Some r2) /\
     (mse == 5000)%Q /\ (mae == 50)%Q /\ (r2 == -1)%Q) /\
  StreamlitApp.calculate_accuracy_metrics single_frame single_frame
    = Ok (0%Q, 0%Q, None).
Proof.
  split; [|reflexivity].
  do 3 eexists. split; [vm_compute; reflexivity|].
  repeat split; reflexivity.
Qed.

(** C7, amended. Both [calculate_accuracy_metrics] compute the metrics over
    the inner join on the stamp: one pair per pair of rows sharing a stamp.
    For two series with the same stamps, none repeated, the same values, all
    present, and at least two rows, the result is MSE = 0, MAE = 0 and
    R² = 1.  For two series that share no stamp the join is empty and the
    metric functions raise [ValueError]; no metric is computed. *)
Theorem metrics_over_common_stamps :
  (forall original filled o f,
      In (o, f) (merge_inner original filled) <->
      In o original /\ In f filled /\ datetime f = datetime o) /\
  (forall original filled,
      map datetime original = map datetime filled ->
      is_unique (map datetime filled) = true ->
      forallb (fun c => negb (isnull c)) (map wl_up original) = true ->
      (2 <= length original)%nat ->
      (map wl_up filled = map wl_up original ->
       exists mse mae r2,
         StreamlitApp.calculate_accuracy_metrics original filled
           = Ok (mse, mae, Some r2) /\
         (mse == 0)%Q /\ (mae == 0)%Q /\ (r2 == 1)%Q) /\
      (map wl_up2 filled = map wl_up original ->
       exists mse mae r2,
         TestPy.calculate_accuracy_metrics original filled
           = Ok (mse, mae, Some r2) /\
         (mse == 0)%Q /\ (mae == 0)%Q /\ (r2 == 1)%Q)) /\
  (forall original filled,
      (forall o f, In o original -> In f filled -> datetime o <> datetime f) ->
      StreamlitApp.calculate_accuracy_metrics original filled = Raise ValueError /\
      TestPy.calculate_accuracy_metrics original filled = Raise ValueError).
Proof.
  split; [apply in_merge_inner|]. split.
  - intros original filled Hk Hu Hp Hlen. split; intros Hv.
    + destruct (aligned_columns original filled wl_up Hk Hu Hv Hp Hlen)
        as [vs [Hvs [H1 H2]]].
      destruct (metrics_of_same vs Hvs) as [mse [mae [r2 [E1 [E2 [E3 H]]]]]].
      exists mse, mae, r2. split; [|assumption].
      unfold StreamlitApp.calculate_accuracy_metrics.
      rewrite H1, H2, E1, E2, E3. reflexivity.
    + destruct (aligned_columns original filled wl_up2 Hk Hu Hv Hp Hlen)
        as [vs [Hvs [H1 H2]]].
      destruct (metrics_of_same vs Hvs) as [mse [mae [r2 [E1 [E2 [E3 H]]]]]].
      exists mse, mae, r2. split; [|assumption].
      unfold TestPy.calculate_accuracy_metrics.
      rewrite H1, H2, E1, E2, E3. reflexivity.
  - intros original filled Hno.
    unfold StreamlitApp.calculate_accuracy_metrics,
      TestPy.calculate_accuracy_metrics.
    rewrite (merge_inner_disjoint original filled Hno). split; reflexivity.
Qed.

(** [early_frame] against itself scores perfectly in both applications;
    against [late_frame], which shares no stamp with it, both raise. *)
Lemma metrics_over_common_stamps_witness :
  (exists mse mae r2,
     StreamlitApp.calculate_accuracy_metrics early_frame early_frame
       = Ok (mse, mae, Some r2) /\
     (mse == 0)%Q /\ (mae == 0)%Q /\ (r2 == 1)%Q) /\
  (exists mse mae r2,
     TestPy.calculate_accuracy_metrics early_frame (with_display early_frame)
       = Ok (mse, mae, Some r2) /\
     (mse == 0)%Q /\ (mae == 0)%Q /\ (r2 == 1)%Q) /\
  StreamlitApp.calculate_accuracy_metrics early_frame late_frame = Raise ValueError /\
  TestPy.calculate_accuracy_metrics early_frame late_frame = Raise ValueError.
Proof.
  destruct metrics_over_common_stamps as [_ [Hsame Hdisjoint]].
  split; [|split].
  - apply (proj1 (Hsame early_frame early_frame eq_refl eq_refl eq_refl
                        (le_n 2)) eq_refl).
  - apply (proj2 (Hsame early_frame (with_display early_frame) eq_refl eq_refl
                        eq_refl (le_n 2)) eq_refl).
  - apply (Hdisjoint early_frame late_frame).
    intros o f Ho Hf. simpl in Ho, Hf.
    destruct Ho as [<- | [<- | []]]; destruct Hf as [<- | [<- | []]];
      vm_compute; discriminate.
Defined.

(** ** Logs of label-based writes *)

Section WriteLogProperties.

Variable W : Type.
Variable upd : W -> Row -> Row.
Hypothesis upd_datetime : forall w r, datetime (upd w r) = datetime r.
Hypothesis upd_last : forall w w' r, upd w (upd w' r) = upd w r.

Lemma run_log_app (l1 l2 : list (Z * W)) (r : Row) :
  run_log upd (l1 ++ l2) r = run_log upd l2 (run_log upd l1 r).
Proof. unfold run_log. apply fold_left_app. Qed.

Lemma apply_write_datetime (w : Z * W) (r : Row) :
  datetime (apply_write upd w r) = datetime r.
Proof.
  unfold apply_write. destruct (datetime r =? fst w); [apply upd_datetime | reflexivity].
Qed.

Lemma run_log_datetime (log : list (Z * W)) (r : Row) :
  datetime (run_log upd log r) = datetime r.
Proof.
  revert r. induction log as [|w ws IH]; intros r; simpl; [reflexivity|].
  unfold run_log in *. simpl. rewrite IH. apply apply_write_datetime.
Qed.

Lemma run_log_untouched (log : list (Z * W)) (r : Row) :
  ~ In (datetime r) (map fst log) -> run_log upd log r = r.
Proof.
  revert r. induction log as [|w ws IH]; intros r Hno; [reflexivity|].
  unfold run_log in *. simpl in *.
  assert (apply_write upd w r = r) as ->.
  { unfold apply_write. destruct (datetime r =? fst w) eqn:E; [|reflexivity].
    apply Z.eqb_eq in E. exfalso. apply Hno. left. symmetry. assumption. }
  apply IH. tauto.
Qed.

Lemma run_log_cases (log : list (Z * W)) (r : Row) :
  run_log upd log r = r \/ exists w, run_log upd log r = upd w r.
Proof.
  induction log as [|w ws IH] using rev_ind; [left; reflexivity|].
  rewrite run_log_app. unfold run_log at 1 3. simpl. unfold apply_write.
  destruct (datetime (run_log upd ws r) =? fst w); [|assumption].
  right. exists (snd w). destruct IH as [-> | [w' ->]]; [reflexivity | apply upd_last].
Qed.

(** The last write to a label decides the row. *)
Lemma run_log_last (l1 l2 : list (Z * W)) (w : W) (r : Row) :
  ~ In (datetime r) (map fst l2) ->
  run_log upd (l1 ++ (datetime r, w) :: l2) r = upd w r.
Proof.
  intros Hno. rewrite run_log_app.
  change ((datetime r, w) :: l2) with ([(datetime r, w)] ++ l2).
  rewrite run_log_app. rewrite run_log_untouched.
  - unfold run_log at 1. simpl. unfold apply_write. simpl.
    rewrite run_log_datetime, Z.eqb_refl.
    destruct (run_log_cases l1 r) as [-> | [w' ->]]; [reflexivity | apply upd_last].
  - unfold run_log at 1. simpl. rewrite apply_write_datetime, run_log_datetime.
    assumption.
Qed.

Lemma writes_of_app (e1 e2 : list (Row * W)) :
  writes_of (e1 ++ e2) = writes_of e1 ++ writes_of e2.
Proof. unfold writes_of. apply map_app. Qed.

Lemma writes_of_labels (entries : list (Row * W)) :
  map fst (writes_of entries) = map datetime (map fst entries).
Proof. unfold writes_of. rewrite !map_map. reflexivity. Qed.

Lemma run_log_keeps (A : Type) (f : Row -> A) (log : list (Z * W)) (r : Row) :
  (forall w x, f (upd w x) = f x) -> f (run_log upd log r) = f r.
Proof.
  intros Hf. revert r. induction log as [|w ws IH]; intros r; [reflexivity|].
  unfold run_log in *. simpl. rewrite IH. unfold apply_write.
  destruct (datetime r =? fst w); [apply Hf | reflexivity].
Qed.

Lemma last_entry (log : list (Row * W)) (t : Z) :
  In t (map datetime (map fst log)) ->
  exists l1 g w l2,
    log = l1 ++ (g, w) :: l2 /\ datetime g = t /\
    ~ In t (map datetime (map fst l2)).
Proof.
  induction log as [|[g w] rest IH]; simpl; intros Hin; [contradiction|].
  destruct (in_dec Z.eq_dec t (map datetime (map fst rest))) as [Hrest | Hrest].
  - destruct (IH Hrest) as [l1 [g' [w' [l2 [-> [Hg Hl2]]]]]].
    exists ((g, w) :: l1), g', w', l2. tauto.
  - destruct Hin as [Hg | Hin]; [|contradiction].
    exists [], g, w, rest. tauto.
Qed.

(** A row whose label is written ends as the last entry with that label
    leaves it. *)
Lemma run_log_last_entry (pre log : list (Row * W)) (r : Row) :
  In (datetime r) (map datetime (map fst log)) ->
  exists g w,
    In (g, w) log /\ datetime g = datetime r /\
    run_log upd (writes_of (pre ++ log)) r = upd w r.
Proof.
  intros Hin. destruct (last_entry log (datetime r) Hin)
    as [l1 [g [w [l2 [-> [Hg Hl2]]]]]].
  exists g, w. split; [apply in_or_app; right; left; reflexivity|].
  split; [assumption|].
  rewrite app_assoc, writes_of_app.
  change (writes_of ((g, w) :: l2)) with ((datetime g, w) :: writes_of l2).
  rewrite Hg. apply run_log_last. rewrite writes_of_labels. assumption.
Qed.

End WriteLogProperties.

Lemma NoDup_stamps_filter (keep : Row -> bool) (frame : list Row) :
  NoDup (map datetime frame) -> NoDup (map datetime (filter keep frame)).
Proof.
  induction frame as [|r rs IH]; simpl; intros H; [constructor|].
  inversion H as [|? ? Hr Hrs]; subst.
  destruct (keep r); simpl; [|auto]. constructor; [|auto].
  intros Hin. apply Hr. apply in_map_iff in Hin. destruct Hin as [y [Hy Hin]].
  apply filter_In in Hin. rewrite <- Hy. apply in_map. tauto.
Qed.

Lemma NoDup_map_inj (A B : Type) (f : A -> B) (l : list A) (a b : A) :
  NoDup (map f l) -> In a l -> In b l -> f a = f b -> a = b.
Proof.
  induction l as [|x xs IH]; simpl; intros H Ha Hb Hab; [contradiction|].
  inversion H as [|? ? Hx Hxs]; subst.
  destruct Ha as [-> | Ha], Hb as [-> | Hb]; auto.
  - exfalso. apply Hx. rewrite Hab. apply in_map. assumption.
  - exfalso. apply Hx. rewrite <- Hab. apply in_map. assumption.
Qed.

Lemma in_in_week (week : option Z) (frame : list Row) (r : Row) :
  In r (in_week week frame) <-> In r frame /\ eq_na (week_of r) week = true.
Proof. unfold in_week. apply filter_In. Qed.

Lemma eq_na_same (c w1 w2 : option Z) :
  eq_na c w1 = true -> eq_na c w2 = true -> w1 = w2.
Proof.
  destruct c as [x|], w1 as [a|], w2 as [b|]; simpl; try discriminate.
  intros H1 H2. apply Z.eqb_eq in H1, H2. congruence.
Qed.

Lemma upd_value_datetime (v : Q) (r : Row) : datetime (upd_value v r) = datetime r.
Proof. reflexivity. Qed.

Lemma upd_value_last (v v' : Q) (r : Row) :
  upd_value v (upd_value v' r) = upd_value v r.
Proof. reflexivity. Qed.

Lemma upd_forecast_datetime (w : Q * Z) (r : Row) :
  datetime (upd_forecast w r) = datetime r.
Proof. reflexivity. Qed.

Lemma upd_forecast_last (w w' : Q * Z) (r : Row) :
  upd_forecast w (upd_forecast w' r) = upd_forecast w r.
Proof. reflexivity. Qed.

Lemma map_run_log (W : Type) (upd : W -> Row -> Row) (l1 l2 : list (Z * W))
      (frame : list Row) :
  map (run_log upd l2) (map (run_log upd l1) frame) =
  map (run_log upd (l1 ++ l2)) frame.
Proof.
  rewrite map_map. apply map_ext. intros r. unfold run_log.
  rewrite fold_left_app. reflexivity.
Qed.

Lemma map_run_log_nil (W : Type) (upd : W -> Row -> Row) (frame : list Row) :
  map (run_log upd []) frame = frame.
Proof. unfold run_log. simpl. apply map_id. Qed.

(** ** The fill loops of [streamlit_app.py] *)

Section BasicLoops.

Variable Model : Type.
Variable search_fit : list (list (option Q)) -> list (option Q) -> result Model.
Variable predict : Model -> list (option Q) -> result Q.

Lemma basic_fill_group_log (model : Model) (group frame frame' : list Row) :
  StreamlitApp.fill_group Model predict model group frame = Ok frame' ->
  exists entries,
    map fst entries = group /\
    Forall (fun e => predict model (StreamlitApp.feature_cols (fst e)) = Ok (snd e))
           entries /\
    frame' = map (run_log upd_value (writes_of entries)) frame.
Proof.
  revert frame. induction group as [|g gs IH]; intros frame H; simpl in H.
  - injection H as <-. exists []. rewrite map_run_log_nil. repeat split. constructor.
  - apply bind_Ok_inv in H. destruct H as [v [Hv H]].
    destruct (IH _ H) as [es [Hes [Hp ->]]].
    exists ((g, v) :: es). split; [simpl; congruence|].
    split; [constructor; assumption|].
    change (writes_of ((g, v) :: es)) with ([(datetime g, v)] ++ writes_of es).
    rewrite <- map_run_log. reflexivity.
Qed.

Lemma basic_fill_fewer_log (data_missing data_not_missing : list Row)
      (weeks : list (option Z)) (frame frame' : list Row) :
  StreamlitApp.fill_fewer Model search_fit predict data_missing data_not_missing
                          weeks frame = Ok frame' ->
  exists entries : list (Row * Q),
    frame' = map (run_log upd_value (writes_of entries)) frame.
Proof.
  revert frame. induction weeks as [|w ws IH]; intros frame H; simpl in H.
  - injection H as <-. exists []. rewrite map_run_log_nil. reflexivity.
  - destruct (0 <? Z.of_nat (length (in_week w data_not_missing))).
    + apply bind_Ok_inv in H. destruct H as [model [_ H]].
      apply bind_Ok_inv in H. destruct H as [frame1 [H1 H]].
      apply basic_fill_group_log in H1. destruct H1 as [es1 [_ [_ ->]]].
      destruct (IH _ H) as [es ->]. exists (es1 ++ es).
      rewrite writes_of_app, map_run_log. reflexivity.
    + apply IH. assumption.
Qed.

Lemma basic_fill_more_log (data_clean data_missing pool : list Row)
      (weeks : list (option Z)) (frame frame' : list Row) :
  StreamlitApp.fill_more Model search_fit predict data_clean data_missing pool
                         weeks frame = Ok frame' ->
  exists logs : list (list (Row * Q)),
    Forall2 (fun week entries =>
               exists scope model,
                 StreamlitApp.scope_of_week data_clean data_missing pool week
                   = Ok scope /\
                 StreamlitApp.train_on Model search_fit scope = Ok model /\
                 map fst entries = in_week week data_missing /\
                 Forall (fun e => predict model (StreamlitApp.feature_cols (fst e))
                                  = Ok (snd e)) entries)
            weeks logs /\
    frame' = map (run_log upd_value (writes_of (concat logs))) frame.
Proof.
  revert frame. induction weeks as [|w ws IH]; intros frame H; simpl in H.
  - injection H as <-. exists []. split; [constructor|].
    simpl. rewrite map_run_log_nil. reflexivity.
  - apply bind_Ok_inv in H. destruct H as [scope [Hs H]].
    apply bind_Ok_inv in H. destruct H as [model [Hm H]].
    apply bind_Ok_inv in H. destruct H as [frame1 [H1 H]].
    apply basic_fill_group_log in H1. destruct H1 as [es1 [Hes1 [Hp1 ->]]].
    destruct (IH _ H) as [logs [Hlogs ->]]. exists (es1 :: logs). split.
    + constructor; [|assumption]. exists scope, model. tauto.
    + simpl. rewrite writes_of_app, map_run_log. reflexivity.
Qed.

End BasicLoops.

Lemma Forall2_in_left (A B : Type) (R : A -> B -> Prop) (l : list A) (l' : list B)
      (a : A) :
  Forall2 R l l' -> In a l -> exists b, In b l' /\ R a b.
Proof.
  induction 1 as [|x y xs ys Hxy H IH]; simpl; intros Hin; [contradiction|].
  destruct Hin as [<- | Hin].
  - exists y. tauto.
  - destruct (IH Hin) as [b [Hb Hab]]. exists b. tauto.
Qed.

Lemma Forall2_in_right (A B : Type) (R : A -> B -> Prop) (l : list A) (l' : list B)
      (b : B) :
  Forall2 R l l' -> In b l' -> exists a, In a l /\ R a b.
Proof.
  induction 1 as [|x y xs ys Hxy H IH]; simpl; intros Hin; [contradiction|].
  destruct Hin as [<- | Hin].
  - exists x. tauto.
  - destruct (IH Hin) as [a [Ha Hab]]. exists a. tauto.
Qed.

Lemma concat_sources (W : Type) (data_missing : list Row) (weeks : list (option Z))
      (logs : list (list (Row * W))) :
  Forall2 (fun week entries => map fst entries = in_week week data_missing)
          weeks logs ->
  map fst (concat logs) = flat_map (fun w => in_week w data_missing) weeks.
Proof.
  induction 1 as [|w es ws logs Hes H IH]; simpl; [reflexivity|].
  rewrite map_app, Hes, IH. reflexivity.
Qed.

Lemma grid_stamps_unique (data grid : list Row) :
  is_unique (map datetime data) = true ->
  generate_missing_dates data = Ok grid ->
  NoDup (map datetime grid).
Proof.
  intros Hu Hgen. apply is_unique_NoDup in Hu. unfold generate_missing_dates in Hgen.
  destruct (col_min (map datetime data)) as [lo|]; [|discriminate].
  destruct (col_max (map datetime data)) as [hi|]; [|discriminate].
  injection Hgen as <-. rewrite (merge_left_keys _ _ Hu). apply NoDup_date_range.
Qed.

Lemma weeks_follow_stamps_spec (frame : list Row) (a b : Row) :
  weeks_follow_stamps frame = true ->
  In a frame -> In b frame -> datetime a = datetime b -> week_of a = week_of b.
Proof.
  unfold weeks_follow_stamps. rewrite forallb_forall. intros H Ha Hb Hab.
  specialize (H a Ha). rewrite forallb_forall in H. specialize (H b Hb).
  apply orb_true_iff in H. destruct H as [H | H].
  - apply negb_true_iff, Z.eqb_neq in H. contradiction.
  - apply same_cell_eq. assumption.
Qed.

Lemma unique_weeks_follow_stamps (frame : list Row) :
  is_unique (map datetime frame) = true -> weeks_follow_stamps frame = true.
Proof.
  intros Hu. apply is_unique_NoDup in Hu. unfold weeks_follow_stamps.
  apply forallb_forall. intros a Ha. apply forallb_forall. intros b Hb.
  destruct (datetime a =? datetime b) eqn:E; [|reflexivity]. simpl.
  apply Z.eqb_eq in E.
  rewrite (NoDup_map_inj _ _ datetime frame a b Hu Ha Hb E).
  apply same_cell_eq. reflexivity.
Qed.

(** The missing rows of the grid inherit the property from the window. *)
Lemma grid_weeks_follow_stamps (data grid : list Row) (a b : Row) :
  weeks_follow_stamps data = true ->
  generate_missing_dates data = Ok grid ->
  In a grid -> In b grid -> datetime a = datetime b -> week_of a = week_of b.
Proof.
  intros Hw Hgen Ha Hb Hab. unfold generate_missing_dates in Hgen.
  destruct (col_min (map datetime data)) as [lo|]; [|discriminate].
  destruct (col_max (map datetime data)) as [hi|]; [|discriminate].
  injection Hgen as <-. apply in_merge_left in Ha, Hb.
  destruct Ha as [_ [Ha | [Ea Hna]]], Hb as [_ [Hb | [Eb Hnb]]].
  - apply (weeks_follow_stamps_spec data); assumption.
  - exfalso. apply (Hnb a Ha). assumption.
  - exfalso. apply (Hna b Hb). symmetry. assumption.
  - rewrite Ea, Eb, Hab. reflexivity.
Qed.

(** The week whose pass wrote for a row [g] is the week of any missing row
    with the stamp of [g]. *)
Lemma week_of_entry (data_missing : list Row) (week week' : option Z) (r g : Row) :
  (forall a b, In a data_missing -> In b data_missing ->
               datetime a = datetime b -> week_of a = week_of b) ->
  In r (in_week week data_missing) ->
  In g (in_week week' data_missing) ->
  datetime g = datetime r ->
  week' = week.
Proof.
  intros Hw Hr Hg Hgr. apply in_in_week in Hr, Hg.
  destruct Hr as [Hr Er], Hg as [Hg Eg].
  rewrite (Hw g r Hg Hr Hgr) in Eg. apply (eq_na_same (week_of r)); assumption.
Qed.

Section BasicHandle.

Variable Model : Type.
Variable search_fit : list (list (option Q)) -> list (option Q) -> result Model.
Variable predict : Model -> list (option Q) -> result Q.

Lemma basic_scope_of_week_inv (data_clean data_missing pool scope : list Row)
      (week : option Z) :
  StreamlitApp.scope_of_week data_clean data_missing pool week = Ok scope ->
  exists wk lo hi,
    week = Some wk /\
    py_min (weeks_with_missing data_missing) = Ok lo /\
    py_max (weeks_with_missing data_missing) = Ok hi /\
    (if 288 <? missing_count (in_week (Some (clamped_next hi wk)) data_missing)
     then exists first,
         iloc0 (in_week week data_missing) = Ok first /\
         scope = filter (fun r => eq_na (month_of r) (month_of first)
                                  && negb (isnull (wl_up r))) data_clean
     else scope = in_week (Some (clamped_prev lo wk)) pool
                  ++ in_week (Some (clamped_next hi wk)) pool).
Proof.
  unfold StreamlitApp.scope_of_week, StreamlitApp.prev_week_of,
    StreamlitApp.next_week_of. intros H.
  apply bind_Ok_inv in H. destruct H as [prev_week [Hprev H]].
  apply bind_Ok_inv in H. destruct H as [next_week [Hnext H]].
  apply bind_Ok_inv in Hprev. destruct Hprev as [lo [Hlo Hprev]].
  apply bind_Ok_inv in Hnext. destruct Hnext as [hi [Hhi Hnext]].
  destruct week as [wk|]; [|discriminate].
  injection Hprev as <-. injection Hnext as <-.
  exists wk, lo, hi. repeat split; try assumption.
  fold (clamped_next hi wk) in H. fold (clamped_prev lo wk) in H.
  destruct (288 <? missing_count (in_week (Some (clamped_next hi wk)) data_missing)).
  - apply bind_Ok_inv in H. destruct H as [first [Hf H]]. injection H as <-.
    exists first. split; [assumption | reflexivity].
  - injection H as <-. reflexivity.
Qed.

(** The weeks with more than 288 missing rows in [streamlit_app.py]. *)
Lemma basic_high_weeks_filled (data_clean : list Row) (start_date end_date : Z)
      (out : list Row) :
  StreamlitApp.handle_missing_values_by_week Model search_fit predict
    data_clean start_date end_date = Ok out ->
  weeks_follow_stamps (between start_date end_date data_clean) = true ->
  basic_high_weeks_handled Model search_fit predict
    data_clean start_date end_date out.
Proof.
  unfold StreamlitApp.handle_missing_values_by_week, basic_high_weeks_handled.
  intros H Hu.
  apply bind_Ok_inv in H. destruct H as [grid [Hgrid H]].
  exists grid. set (dm := filter (fun r => isnull (wl_up r)) grid) in *.
  destruct (length dm =? 0)%nat eqn:E.
  - apply Nat.eqb_eq in E. apply length_zero_iff_nil in E. rewrite E.
    exists grid. split; [assumption|]. split; [reflexivity|].
    intros week [].
  - apply bind_Ok_inv in H. destruct H as [_ [_ H]].
    apply bind_Ok_inv in H. destruct H as [filled [Hlow H]].
    exists filled. split; [assumption|]. split; [assumption|].
    intros week Hweek.
    destruct (basic_fill_fewer_log _ _ _ _ _ _ _ _ Hlow) as [pre Hpre].
    destruct (basic_fill_more_log _ _ _ _ _ _ _ _ _ H) as [logs [Hlogs ->]].
    destruct (Forall2_in_left _ _ _ _ _ week Hlogs Hweek)
      as [entries [Hentries [scope [model [Hs [Hm [Hsrc Hp]]]]]]].
    destruct (basic_scope_of_week_inv _ _ _ _ _ Hs) as [wk [lo [hi [Hw [Hlo [Hhi Hsc]]]]]].
    exists wk, lo, hi, scope, model. repeat split; try assumption.
    intros r Hr.
    assert (In (datetime r) (map datetime (map fst (concat logs)))) as Hlabel.
    { apply in_map. apply in_map_iff.
      rewrite <- Hsrc in Hr. apply in_map_iff in Hr. destruct Hr as [e [He Hin]].
      exists e. split; [assumption|]. apply in_concat. exists entries. tauto. }
    destruct (run_log_last_entry Q upd_value upd_value_datetime upd_value_last
                pre (concat logs) r Hlabel) as [g [v [Hgv [Hg Hrun]]]].
    apply in_concat in Hgv. destruct Hgv as [entries' [Hentries' Hgv]].
    destruct (Forall2_in_right _ _ _ _ _ entries' Hlogs Hentries')
      as [week' [_ [scope' [model' [Hs' [Hm' [Hsrc' Hp']]]]]]].
    assert (In g (in_week week' dm)) as Hgin.
    { rewrite <- Hsrc'. apply (in_map fst _ (g, v)). assumption. }
    assert (week' = week) as ->.
    { apply (week_of_entry dm week week' r g); try assumption.
      intros a b Ha Hb. unfold dm in Ha, Hb. apply filter_In in Ha, Hb.
      apply (grid_weeks_follow_stamps _ grid a b Hu Hgrid); tauto. }
    assert (model' = model) as -> by congruence.
    exists g, v. split; [assumption|]. split; [assumption|]. split.
    + rewrite Forall_forall in Hp'. apply (Hp' (g, v) Hgv).
    + rewrite Hpre, map_run_log, <- writes_of_app.
      change (set_wl_up (Some v) r) with (upd_value v r). rewrite <- Hrun.
      apply in_map. apply in_in_week in Hr. destruct Hr as [Hr _].
      unfold dm in Hr. apply filter_In in Hr. tauto.
Qed.

End BasicHandle.

(** ** The fill loops of [test.py] *)

Lemma length_interpolate_from (prev : option (Q * nat)) (col : list (option Q)) :
  length (interpolate_from prev col) = length col.
Proof.
  revert prev. induction col as [|c cs IH]; intros prev; simpl; [reflexivity|].
  destruct c as [v|]; simpl; [rewrite IH; reflexivity|].
  destruct prev as [[a d]|]; simpl; rewrite IH; reflexivity.
Qed.

Lemma length_interpolate (col : list (option Q)) :
  length (interpolate col) = length col.
Proof. apply length_interpolate_from. Qed.

Lemma length_shift1 (col : list (option Q)) : length (shift1 col) = length col.
Proof.
  destruct col as [|c cs]; [reflexivity|]. unfold shift1.
  generalize c. induction cs as [|x xs IH]; intros c'; [reflexivity|].
  simpl in *. rewrite IH. reflexivity.
Qed.

(** Assigning the column [wl_up_prev] changes no other cell. *)
Lemma assign_wl_up_prev (col : list (option Q)) (frame : list Row) :
  length col = length frame ->
  Forall2 (fun a b => exists c, b = set_wl_up_prev c a)
          frame (assign set_wl_up_prev col frame).
Proof.
  unfold assign. revert col. induction frame as [|r rs IH]; intros [|c cs] H;
    simpl in *; try discriminate; constructor.
  - exists c. reflexivity.
  - apply IH. lia.
Qed.

Lemma Forall2_map_eq (A : Type) (f : Row -> A) (l l' : list Row) :
  Forall2 (fun a b => f b = f a) l l' -> map f l' = map f l.
Proof.
  induction 1 as [|x y xs ys Hxy H IH]; simpl; [reflexivity|]. congruence.
Qed.

Section ExtendedLoops.

Variable Model : Type.
Variable search_fit : list (list (option Q)) -> list (option Q) -> result Model.
Variable predict : Model -> list (option Q) -> result Q.
Variable now : nat -> Z.

Lemma extended_write (idx : Z) (v : Q) (t : Z) (fr : list Row) :
  TestPy.loc_set_timestamp idx t (TestPy.loc_set_wl_forecast idx v fr) =
  map (apply_write upd_forecast (idx, (v, t))) fr.
Proof.
  unfold TestPy.loc_set_timestamp, TestPy.loc_set_wl_forecast.
  rewrite map_map. apply map_ext. intros r. unfold apply_write. simpl.
  destruct (datetime r =? idx) eqn:E; simpl; rewrite E; reflexivity.
Qed.

Lemma extended_fill_group_log (model : Model) (group : list Row)
      (st st' : TestPy.State) :
  TestPy.fill_group Model predict now model group st = Ok st' ->
  exists entries,
    map fst entries = group /\
    Forall (fun e => predict model (TestPy.feature_cols (fst e)) = Ok (fst (snd e)))
           entries /\
    TestPy.frame st' = map (run_log upd_forecast (writes_of entries)) (TestPy.frame st) /\
    TestPy.fills st' = (TestPy.fills st + length group)%nat.
Proof.
  revert st. induction group as [|g gs IH]; intros st H; simpl in H.
  - injection H as <-. exists []. rewrite map_run_log_nil.
    split; [reflexivity|]. split; [apply Forall_nil|]. split; [reflexivity|].
    simpl. lia.
  - apply bind_Ok_inv in H. destruct H as [v [Hv H]].
    destruct (IH _ H) as [es [Hes [Hp [Hfr Hfills]]]].
    exists ((g, (v, now (TestPy.fills st))) :: es). split; [simpl; congruence|].
    split; [constructor; assumption|]. split.
    + rewrite Hfr. simpl TestPy.frame. rewrite extended_write.
      change (writes_of ((g, (v, now (TestPy.fills st))) :: es))
        with ([(datetime g, (v, now (TestPy.fills st)))] ++ writes_of es).
      rewrite <- map_run_log. reflexivity.
    + rewrite Hfills. simpl. lia.
Qed.

Lemma extended_fill_fewer_log (data_missing data_not_missing : list Row)
      (weeks : list (option Z)) (st st' : TestPy.State) :
  TestPy.fill_fewer Model search_fit predict now data_missing data_not_missing
                    weeks st = Ok st' ->
  exists entries : list (Row * (Q * Z)),
    Forall (fun e => In (fst e) data_missing) entries /\
    TestPy.frame st' = map (run_log upd_forecast (writes_of entries)) (TestPy.frame st) /\
    TestPy.fills st' = (TestPy.fills st + length entries)%nat.
Proof.
  revert st. induction weeks as [|w ws IH]; intros st H; simpl in H.
  - injection H as <-. exists []. rewrite map_run_log_nil.
    split; [apply Forall_nil|]. split; [reflexivity|]. simpl. lia.
  - destruct (0 <? Z.of_nat (length (in_week w data_not_missing))).
    + apply bind_Ok_inv in H. destruct H as [model [_ H]].
      apply bind_Ok_inv in H. destruct H as [st1 [H1 H]].
      apply extended_fill_group_log in H1.
      destruct H1 as [es1 [Hsrc [_ [Hfr1 Hfills1]]]].
      destruct (IH _ H) as [es [Hin [Hfr Hfills]]]. exists (es1 ++ es).
      split; [|split].
      * apply Forall_app. split; [|assumption]. apply Forall_forall.
        intros e He. assert (In (fst e) (in_week w data_missing)) as Hg
          by (rewrite <- Hsrc; apply in_map; assumption).
        apply in_in_week in Hg. tauto.
      * rewrite Hfr, Hfr1, writes_of_app, map_run_log. reflexivity.
      * rewrite Hfills, Hfills1, length_app, <- Hsrc, length_map. lia.
    + apply IH. assumption.
Qed.

Lemma extended_fill_more_log (data_clean data_missing pool : list Row)
      (weeks : list (option Z)) (st st' : TestPy.State) :
  TestPy.fill_more Model search_fit predict now data_clean data_missing pool
                   weeks st = Ok st' ->
  exists logs : list (list (Row * (Q * Z))),
    Forall2 (fun week entries =>
               exists scope model,
                 TestPy.scope_of_week data_clean data_missing pool week = Ok scope /\
                 TestPy.train_on Model search_fit scope = Ok model /\
                 map fst entries = in_week week data_missing /\
                 Forall (fun e => predict model (TestPy.feature_cols (fst e))
                                  = Ok (fst (snd e))) entries)
            weeks logs /\
    TestPy.frame st' =
    map (run_log upd_forecast (writes_of (concat logs))) (TestPy.frame st).
Proof.
  revert st. induction weeks as [|w ws IH]; intros st H; simpl in H.
  - injection H as <-. exists []. split; [constructor|].
    simpl. rewrite map_run_log_nil. reflexivity.
  - apply bind_Ok_inv in H. destruct H as [scope [Hs H]].
    apply bind_Ok_inv in H. destruct H as [model [Hm H]].
    apply bind_Ok_inv in H. destruct H as [st1 [H1 H]].
    apply extended_fill_group_log in H1. destruct H1 as [es1 [Hes1 [Hp1 [Hfr1 _]]]].
    destruct (IH _ H) as [logs [Hlogs Hfr]]. exists (es1 :: logs). split.
    + constructor; [|assumption]. exists scope, model. tauto.
    + simpl. rewrite Hfr, Hfr1, writes_of_app, map_run_log. reflexivity.
Qed.

Lemma extended_scope_of_week_inv (data_clean data_missing pool scope : list Row)
      (week : option Z) :
  TestPy.scope_of_week data_clean data_missing pool week = Ok scope ->
  exists wk lo hi first,
    week = Some wk /\
    py_min (weeks_with_missing data_missing) = Ok lo /\
    py_max (weeks_with_missing data_missing) = Ok hi /\
    iloc0 (in_week week data_missing) = Ok first /\
    (if 288 <? missing_count (in_week (Some (clamped_next hi wk)) data_missing)
     then scope = filter (fun r => eq_na (month_of r) (month_of first)
                                   && negb (isnull (wl_up r))) data_clean
     else scope = in_week (Some (clamped_prev lo wk)) pool
                  ++ in_week (Some (clamped_next hi wk)) pool
                  ++ filter (fun r => eq_na (month_of r)
                                            (option_map (fun m => m - 1)
                                                        (month_of first))) pool).
Proof.
  unfold TestPy.scope_of_week, TestPy.prev_week_of, TestPy.next_week_of. intros H.
  apply bind_Ok_inv in H. destruct H as [prev_week [Hprev H]].
  apply bind_Ok_inv in H. destruct H as [next_week [Hnext H]].
  apply bind_Ok_inv in H. destruct H as [first [Hfirst H]].
  apply bind_Ok_inv in Hprev. destruct Hprev as [lo [Hlo Hprev]].
  apply bind_Ok_inv in Hnext. destruct Hnext as [hi [Hhi Hnext]].
  destruct week as [wk|]; [|discriminate].
  injection Hprev as <-. injection Hnext as <-.
  exists wk, lo, hi, first. repeat split; try assumption.
  fold (clamped_next hi wk) in H. fold (clamped_prev lo wk) in H.
  destruct (288 <? missing_count (in_week (Some (clamped_next hi wk)) data_missing));
    injection H as <-; reflexivity.
Qed.

End ExtendedLoops.

Lemma Forall2_map_right (A B C : Type) (P : A -> B -> Prop) (R : A -> C -> Prop)
      (f : B -> C) (l : list A) (l' : list B) :
  (forall a b, P a b -> R a (f b)) -> Forall2 P l l' -> Forall2 R l (map f l').
Proof.
  intros HPR. induction 1 as [|x y xs ys Hxy H IH]; simpl; constructor; auto.
Qed.

Section ExtendedHandle.

Variable Model : Type.
Variable search_fit : list (list (option Q)) -> list (option Q) -> result Model.
Variable predict : Model -> list (option Q) -> result Q.
Variable now : nat -> Z.

(** The shape of every successful run of [test.py]'s orchestrator: either
    no row is missing and the frame comes back with [wl_up_prev]
    interpolated, or the result is the log of the two passes replayed on
    that frame, with the display column computed last. *)
Lemma extended_handle_log (has_wl_up_prev : bool) (data_clean : list Row)
      (start_date end_date : Z) (out : list Row) :
  TestPy.handle_missing_values_by_week Model search_fit predict now
    has_wl_up_prev data_clean start_date end_date = Ok out ->
  exists grid frame0,
    generate_missing_dates (between start_date end_date data_clean) = Ok grid /\
    Forall2 (fun a b => exists c, b = set_wl_up_prev c a) grid frame0 /\
    ((filter (fun r => isnull (wl_up r)) grid = [] /\ out = frame0) \/
     (exists st pre logs,
         TestPy.fill_fewer Model search_fit predict now
           (filter (fun r => isnull (wl_up r)) grid) (TestPy.dropna_wl_up grid)
           (weeks_with_fewer_missing (filter (fun r => isnull (wl_up r)) grid))
           (TestPy.mkState frame0 0) = Ok st /\
         Forall (fun e => In (fst e) (filter (fun r => isnull (wl_up r)) grid)) pre /\
         TestPy.frame st = map (run_log upd_forecast (writes_of pre)) frame0 /\
         Forall2 (fun week entries =>
                    exists scope model,
                      TestPy.scope_of_week data_clean
                        (filter (fun r => isnull (wl_up r)) grid)
                        (TestPy.dropna_wl_up (TestPy.frame st)) week = Ok scope /\
                      TestPy.train_on Model search_fit scope = Ok model /\
                      map fst entries =
                      in_week week (filter (fun r => isnull (wl_up r)) grid) /\
                      Forall (fun e => predict model (TestPy.feature_cols (fst e))
                                       = Ok (fst (snd e))) entries)
                 (weeks_with_more_missing (filter (fun r => isnull (wl_up r)) grid))
                 logs /\
         out = map merged
                   (map (run_log upd_forecast (writes_of (pre ++ concat logs)))
                        frame0))).
Proof.
  unfold TestPy.handle_missing_values_by_week. intros H.
  apply bind_Ok_inv in H. destruct H as [grid [Hgrid H]].
  set (dm := filter (fun r => isnull (wl_up r)) grid) in *.
  set (frame0 := if has_wl_up_prev
                 then assign set_wl_up_prev (interpolate (map wl_up_prev grid)) grid
                 else assign set_wl_up_prev (interpolate (shift1 (map wl_up grid)))
                             grid) in *.
  exists grid, frame0. split; [assumption|]. split.
  { unfold frame0. destruct has_wl_up_prev; apply assign_wl_up_prev.
    - rewrite length_interpolate. apply length_map.
    - rewrite length_interpolate, length_shift1. apply length_map. }
  destruct (length dm =? 0)%nat eqn:E.
  - left. apply Nat.eqb_eq in E. apply length_zero_iff_nil in E.
    injection H as <-. tauto.
  - right. apply bind_Ok_inv in H. destruct H as [_ [_ H]].
    apply bind_Ok_inv in H. destruct H as [_ [_ H]].
    apply bind_Ok_inv in H. destruct H as [st [Hlow H]].
    apply bind_Ok_inv in H. destruct H as [st2 [Hhigh H]].
    destruct (TestPy.fills st2 =? 0)%nat; [discriminate|]. injection H as <-.
    destruct (extended_fill_fewer_log _ _ _ _ _ _ _ _ _ Hlow) as [pre [Hpre [Hfr _]]].
    destruct (extended_fill_more_log _ _ _ _ _ _ _ _ _ _ Hhigh) as [logs [Hlogs Hfr2]].
    exists st, pre, logs. simpl in Hfr. repeat split; try assumption.
    rewrite Hfr2, Hfr, map_run_log, <- writes_of_app. reflexivity.
Qed.

(** The weeks with more than 288 missing rows in [test.py]. *)
Lemma extended_high_weeks_filled (has_wl_up_prev : bool) (data_clean : list Row)
      (start_date end_date : Z) (out : list Row) :
  TestPy.handle_missing_values_by_week Model search_fit predict now
    has_wl_up_prev data_clean start_date end_date = Ok out ->
  weeks_follow_stamps (between start_date end_date data_clean) = true ->
  extended_high_weeks_handled Model search_fit predict now
    data_clean start_date end_date out.
Proof.
  intros H Hu. unfold extended_high_weeks_handled.
  destruct (extended_handle_log _ _ _ _ _ H) as [grid [frame0 [Hgrid [Hf0 Hcases]]]].
  exists grid, frame0.
  set (dm := filter (fun r => isnull (wl_up r)) grid) in *.
  destruct Hcases as [[Hdm Hout] | [st [pre [logs [Hlow [Hpre [Hfr [Hlogs Hout]]]]]]]].
  - exists (TestPy.mkState frame0 0). split; [assumption|]. rewrite Hdm.
    split; [reflexivity|]. intros week [].
  - exists st. split; [assumption|]. split; [assumption|]. intros week Hweek.
    destruct (Forall2_in_left _ _ _ _ _ week Hlogs Hweek)
      as [entries [Hentries [scope [model [Hs [Hm [Hsrc Hp]]]]]]].
    destruct (extended_scope_of_week_inv _ _ _ _ _ Hs)
      as [wk [lo [hi [first [Hw [Hlo [Hhi [Hfirst Hsc]]]]]]]].
    exists wk, lo, hi, first, scope, model. repeat split; try assumption.
    intros r Hr.
    assert (In (datetime r) (map datetime (map fst (concat logs)))) as Hlabel.
    { apply in_map. apply in_map_iff.
      rewrite <- Hsrc in Hr. apply in_map_iff in Hr. destruct Hr as [e [He Hin]].
      exists e. split; [assumption|]. apply in_concat. exists entries. tauto. }
    apply in_in_week in Hr. destruct Hr as [Hr Hrw].
    unfold dm in Hr. apply filter_In in Hr. destruct Hr as [Hr Hnull].
    destruct (Forall2_in_left _ _ _ _ _ r Hf0 Hr) as [b [Hb [c ->]]].
    destruct (run_log_last_entry (Q * Z) upd_forecast upd_forecast_datetime
                upd_forecast_last pre (concat logs) (set_wl_up_prev c r) Hlabel)
      as [g [[v t] [Hgv [Hg Hrun]]]].
    apply in_concat in Hgv. destruct Hgv as [entries' [Hentries' Hgv]].
    destruct (Forall2_in_right _ _ _ _ _ entries' Hlogs Hentries')
      as [week' [_ [scope' [model' [Hs' [Hm' [Hsrc' Hp']]]]]]].
    assert (In g (in_week week' dm)) as Hgin.
    { rewrite <- Hsrc'. apply (in_map fst _ (g, (v, t))). assumption. }
    assert (week' = week) as ->.
    { apply (week_of_entry dm week week' r g); try assumption.
      - intros x y Hx Hy. unfold dm in Hx, Hy. apply filter_In in Hx, Hy.
        apply (grid_weeks_follow_stamps _ grid x y Hu Hgrid); tauto.
      - apply in_in_week. split; [|assumption]. unfold dm. apply filter_In. tauto. }
    assert (model' = model) as -> by congruence.
    exists g, v, (merged (upd_forecast (v, t) (set_wl_up_prev c r))).
    split; [assumption|]. split; [assumption|]. split.
    { rewrite Forall_forall in Hp'. apply (Hp' (g, (v, t)) Hgv). }
    split.
    { rewrite Hout. apply in_map. rewrite <- Hrun. apply in_map. assumption. }
    destruct (wl_up r) as [u|] eqn:Eu; [discriminate|].
    unfold merged, upd_forecast. simpl. rewrite Eu. simpl.
    repeat split. discriminate.
Qed.

End ExtendedHandle.

Lemma ok_frame_of (r : result (list Row)) : is_ok r = true -> r = Ok (frame_of r).
Proof. destruct r; [reflexivity | discriminate]. Qed.

(** ** The orchestrator on weeks with more than 288 missing rows *)


(** ** The two runs over [may_frame] *)

Lemma run_summary_inv (run : result (list Row)) (rows : list nat)
      (seen : list (option (option Q * option Q * option Z * option Q))) :
  run_summary run rows = (true, seen) ->
  run = Ok (frame_of run) /\ probe (frame_of run) rows = seen.
Proof.
  unfold run_summary. intros H. injection H as Hok Hseen.
  split; [apply ok_frame_of|]; assumption.
Qed.

Lemma basic_first_run :
  run_summary (basic_run first_start first_end) [0; 4; 40]%nat =
  (true, [Some (Some 250%Q, None, None, None);
          Some (Some 9%Q, None, None, None);
          Some (Some 24%Q, None, None, None)]).
Proof. vm_compute. reflexivity. Qed.

Lemma extended_first_run :
  run_summary (extended_run first_start first_end) [0; 4; 40]%nat =
  (true, [Some (Some 250%Q, None, None, Some 250%Q);
          Some (None, Some 9%Q, Some (tick_clock 0), Some 9%Q);
          Some (None, Some 19%Q, Some (tick_clock 5), Some 19%Q)]).
Proof. vm_compute. reflexivity. Qed.

Lemma basic_second_run :
  run_summary (basic_run second_start second_end) [0; 4]%nat =
  (true, [Some (Some 250%Q, None, None, None);
          Some (Some 1101%Q, None, None, None)]).
Proof. vm_compute. reflexivity. Qed.

Lemma extended_second_run :
  run_summary (extended_run second_start second_end) [0; 4]%nat =
  (true, [Some (Some 250%Q, None, None, Some 250%Q);
          Some (None, Some 1101%Q, Some (tick_clock 0), Some 1101%Q)]).
Proof. vm_compute. reflexivity. Qed.

Lemma first_window_unique :
  is_unique (map datetime (between first_start first_end may_frame)) = true.
Proof. vm_compute. reflexivity. Qed.

Lemma second_window_unique :
  is_unique (map datetime (between second_start second_end may_frame)) = true.
Proof. vm_compute. reflexivity. Qed.


(** In the first window week 20 is followed by week 21, which has 2 missing
    rows, and is trained on the rows of weeks 19 and 21.  In the second
    window week 22 is its own neighbour and is trained on the 1101 present
    rows of May, inside the window or not. *)
Example may_run_weeks :
  weeks_with_missing first_missing = [Some 19; Some 20; Some 21] /\
  weeks_with_fewer_missing first_missing = [Some 19; Some 21] /\
  weeks_with_more_missing first_missing = [Some 20] /\
  length (filter (fun r => negb (isnull (wl_up r))) may_frame) = 1101%nat.
Proof. vm_compute. repeat split. Qed.

(** ** The pool of present rows after the first pass *)

Lemma filter_map_commute (f : Row -> Row) (p : Row -> bool) (l : list Row) :
  (forall r, p (f r) = p r) -> filter p (map f l) = map f (filter p l).
Proof.
  intros Hp. induction l as [|x xs IH]; simpl; [reflexivity|].
  rewrite Hp. destruct (p x); simpl; rewrite IH; reflexivity.
Qed.

(** In [test.py] the first pass writes only [wl_forecast] and [timestamp]:
    the value column is as before, so recomputing the pool with
    [dropna(subset=['wl_up'])] selects the rows it selected before. *)
Lemma extended_low_pass_keeps_pool
      (Model : Type)
      (search_fit : list (list (option Q)) -> list (option Q) -> result Model)
      (predict : Model -> list (option Q) -> result Q) (now : nat -> Z)
      (data_missing data_not_missing : list Row) (weeks : list (option Z))
      (st st' : TestPy.State) :
  TestPy.fill_fewer Model search_fit predict now data_missing data_not_missing
                    weeks st = Ok st' ->
  map wl_up (TestPy.frame st') = map wl_up (TestPy.frame st) /\
  map datetime (TestPy.dropna_wl_up (TestPy.frame st')) =
  map datetime (TestPy.dropna_wl_up (TestPy.frame st)) /\
  length (TestPy.dropna_wl_up (TestPy.frame st')) =
  length (TestPy.dropna_wl_up (TestPy.frame st)).
Proof.
  intros H. destruct (extended_fill_fewer_log _ _ _ _ _ _ _ _ _ H) as [es [_ [Hfr _]]].
  rewrite Hfr. unfold TestPy.dropna_wl_up.
  assert (forall r, wl_up (run_log upd_forecast (writes_of es) r) = wl_up r) as Hv.
  { intros r. apply run_log_keeps. reflexivity. }
  rewrite filter_map_commute by (intros r; rewrite Hv; reflexivity).
  rewrite !map_map, length_map. repeat split.
  - apply map_ext. assumption.
  - apply map_ext. intros r. apply run_log_datetime. reflexivity.
Qed.

Lemma ok_state_of (r : result TestPy.State) : is_ok r = true -> r = Ok (state_of r).
Proof. destruct r; [reflexivity | discriminate]. Qed.

Lemma extended_low_pass_keeps_pool_witness :
  map wl_up (TestPy.frame (state_of first_low_pass)) =
  map wl_up (TestPy.frame (TestPy.mkState first_window 0)) /\
  map datetime (TestPy.dropna_wl_up (TestPy.frame (state_of first_low_pass))) =
  map datetime (TestPy.dropna_wl_up (TestPy.frame (TestPy.mkState first_window 0))) /\
  length (TestPy.dropna_wl_up (TestPy.frame (state_of first_low_pass))) =
  length (TestPy.dropna_wl_up (TestPy.frame (TestPy.mkState first_window 0))).
Proof.
  apply (extended_low_pass_keeps_pool nat fit_size predict_size tick_clock
           first_missing (TestPy.dropna_wl_up first_window)
           (weeks_with_fewer_missing first_missing)
           (TestPy.mkState first_window 0) (state_of first_low_pass)).
  apply ok_state_of. vm_compute. reflexivity.
Defined.

(** The first window is a grid already, and its [wl_up_prev] has no gap, so
    both orchestrators start from [first_window] itself. *)
Lemma first_window_is_grid :
  generate_missing_dates (between first_start first_end may_frame)
  = Ok first_window.
Proof. vm_cast_no_check (eq_refl (Ok first_window)). Qed.

Lemma first_window_interpolated :
  assign set_wl_up_prev (interpolate (map wl_up_prev first_window)) first_window
  = first_window.
Proof. vm_cast_no_check (eq_refl first_window). Qed.

(** C1 on the first window of [may_frame] (rows 4 and 40 are slots 664 and
    700).  The first pass of [test.py] fills the five missing rows of weeks
    19 and 21, yet the pool recomputed after it still has the 391 rows it
    had before, and week 20 is trained on 19 rows: the 9 and 10 rows of
    weeks 19 and 21 that were present from the start.  In
    [streamlit_app.py] the same pass raises the pool to 396 rows and week 20
    is trained on 24 rows. *)
Theorem low_severity_fills_missing_from_pool_in_test_py :
  generate_missing_dates (between first_start first_end may_frame)
  = Ok first_window /\
  assign set_wl_up_prev (interpolate (map wl_up_prev first_window)) first_window
  = first_window /\
  length (TestPy.dropna_wl_up first_window) = 391%nat /\
  (st <- TestPy.fill_fewer nat fit_size predict_size tick_clock
           first_missing (TestPy.dropna_wl_up first_window)
           (weeks_with_fewer_missing first_missing)
           (TestPy.mkState first_window 0) ;;
   scope <- TestPy.scope_of_week may_frame first_missing
              (TestPy.dropna_wl_up (TestPy.frame st)) (Some 20) ;;
   Ok (TestPy.fills st, length (TestPy.dropna_wl_up (TestPy.frame st)),
       length scope))
  = Ok (5%nat, 391%nat, 19%nat) /\
  (filled <- StreamlitApp.fill_fewer nat fit_size predict_size
               first_missing (StreamlitApp.dropna_wl_up first_window)
               (weeks_with_fewer_missing first_missing) first_window ;;
   scope <- StreamlitApp.scope_of_week may_frame first_missing
              (StreamlitApp.dropna_wl_up filled) (Some 20) ;;
   Ok (length (StreamlitApp.dropna_wl_up filled), length scope))
  = Ok (396%nat, 24%nat) /\
  probe (frame_of (extended_run first_start first_end)) [0; 4; 40]%nat
  = [Some (Some 250%Q, None, None, Some 250%Q);
     Some (None, Some 9%Q, Some (tick_clock 0), Some 9%Q);
     Some (None, Some 19%Q, Some (tick_clock 5), Some 19%Q)] /\
  probe (frame_of (basic_run first_start first_end)) [0; 4; 40]%nat
  = [Some (Some 250%Q, None, None, None);
     Some (Some 9%Q, None, None, None);
     Some (Some 24%Q, None, None, None)].
Proof.
  split; [exact first_window_is_grid|].
  split; [exact first_window_interpolated|].
  split; [vm_compute; reflexivity|]. split; [vm_compute; reflexivity|].
  split; [vm_compute; reflexivity|]. split.
  - exact (proj2 (run_summary_inv _ _ _ extended_first_run)).
  - exact (proj2 (run_summary_inv _ _ _ basic_first_run)).
Qed.

(** ** Provenance of the filled rows *)

Lemma grid_no_provenance (data grid : list Row) :
  forallb no_provenance data = true ->
  generate_missing_dates data = Ok grid ->
  forall g, In g grid -> no_provenance g = true.
Proof.
  intros Hd Hgen g Hg. unfold generate_missing_dates in Hgen.
  destruct (col_min (map datetime data)) as [lo|]; [|discriminate].
  destruct (col_max (map datetime data)) as [hi|]; [|discriminate].
  injection Hgen as <-. apply in_merge_left in Hg.
  destruct Hg as [_ [Hg | [-> _]]]; [|reflexivity].
  rewrite forallb_forall in Hd. auto.
Qed.

Lemma between_no_provenance (data : list Row) (s e : Z) :
  forallb no_provenance data = true ->
  forallb no_provenance (between s e data) = true.
Proof.
  rewrite !forallb_forall. intros H r Hr. unfold between in Hr.
  apply filter_In in Hr. apply H. tauto.
Qed.

Lemma no_provenance_inv (r : Row) :
  no_provenance r = true ->
  wl_forecast r = None /\ timestamp r = None /\ wl_up2 r = None.
Proof.
  unfold no_provenance.
  destruct (wl_forecast r), (timestamp r), (wl_up2 r); simpl; intros H;
    try discriminate; tauto.
Qed.

(** Every successful run of [streamlit_app.py]'s orchestrator is the replay
    of a log of value writes on the grid. *)
Lemma basic_handle_log
      (Model : Type)
      (search_fit : list (list (option Q)) -> list (option Q) -> result Model)
      (predict : Model -> list (option Q) -> result Q)
      (data_clean : list Row) (start_date end_date : Z) (out : list Row) :
  StreamlitApp.handle_missing_values_by_week Model search_fit predict
    data_clean start_date end_date = Ok out ->
  exists grid (entries : list (Row * Q)),
    generate_missing_dates (between start_date end_date data_clean) = Ok grid /\
    out = map (run_log upd_value (writes_of entries)) grid.
Proof.
  unfold StreamlitApp.handle_missing_values_by_week. intros H.
  apply bind_Ok_inv in H. destruct H as [grid [Hgrid H]].
  exists grid.
  destruct (length (filter (fun r => isnull (wl_up r)) grid) =? 0)%nat.
  - injection H as <-. exists []. rewrite map_run_log_nil. tauto.
  - apply bind_Ok_inv in H. destruct H as [_ [_ H]].
    apply bind_Ok_inv in H. destruct H as [filled [Hlow H]].
    destruct (basic_fill_fewer_log _ _ _ _ _ _ _ _ Hlow) as [pre ->].
    destruct (basic_fill_more_log _ _ _ _ _ _ _ _ _ H) as [logs [_ ->]].
    exists (pre ++ concat logs). split; [assumption|].
    rewrite map_run_log, <- writes_of_app. reflexivity.
Qed.



(** The first window of [may_frame], which has no provenance column. *)
Lemma may_frame_no_provenance : forallb no_provenance may_frame = true.
Proof. vm_compute. reflexivity. Qed.


(** In that run of [test.py] slot 664 keeps its missing marker; its forecast
    is recorded with the time of the fill and shown in the display column,
    and a row that was present shows its own value. *)
Example may_run_provenance :
  probe (frame_of (extended_run first_start first_end)) [0; 4; 40]%nat
  = [Some (Some 250%Q, None, None, Some 250%Q);
     Some (None, Some 9%Q, Some (tick_clock 0), Some 9%Q);
     Some (None, Some 19%Q, Some (tick_clock 5), Some 19%Q)].
Proof. exact (proj2 (run_summary_inv _ _ _ extended_first_run)). Qed.

(** ** Grids are fixed points of [generate_missing_dates] *)

Lemma gridded_cons (a : Z) (rest : list Z) :
  gridded (a :: rest) = true ->
  gridded rest = true /\ (forall x, In x rest -> a + freq <= x) /\
  (rest = [] \/ exists tl, rest = (a + freq) :: tl).
Proof.
  revert a. induction rest as [|b tl IH]; intros a H.
  - split; [reflexivity|]. split; [intros x []|]. left. reflexivity.
  - simpl in H. apply andb_true_iff in H. destruct H as [Hb Htl].
    apply Z.eqb_eq in Hb. subst b. split; [assumption|]. split.
    + destruct (IH _ Htl) as [_ [Hge _]]. pose proof freq_pos.
      intros x [<- | Hx]; [lia|]. specialize (Hge x Hx). lia.
    + right. exists tl. reflexivity.
Qed.

Lemma gridded_NoDup (stamps : list Z) : gridded stamps = true -> NoDup stamps.
Proof.
  induction stamps as [|a rest IH]; intros H; [constructor|].
  destruct (gridded_cons a rest H) as [Hrest [Hge _]].
  constructor; [|auto]. intros Hin. specialize (Hge a Hin).
  pose proof freq_pos. lia.
Qed.

Lemma gridded_cons2 (a b : Z) (rest : list Z) :
  gridded (a :: b :: rest) = (b =? a + freq) && gridded (b :: rest).
Proof. reflexivity. Qed.

Lemma gridded_date_range (lo hi : Z) : gridded (date_range lo hi) = true.
Proof.
  unfold date_range. generalize (Z.to_nat ((hi - lo) / freq + 1)). intros n.
  generalize 0%nat. induction n as [|n IH]; intros k; [reflexivity|].
  cbn [seq map]. destruct n as [|n]; [reflexivity|].
  specialize (IH (S k)). cbn [seq map] in IH |- *.
  rewrite gridded_cons2, IH, andb_true_r. apply Z.eqb_eq. lia.
Qed.

(** The stamps of a grid are the range from the first to the last one. *)
Lemma gridded_is_date_range (a : Z) (rest : list Z) :
  gridded (a :: rest) = true ->
  fold_left Z.min rest a = a /\
  fold_left Z.max rest a = a + Z.of_nat (length rest) * freq /\
  a :: rest = date_range a (a + Z.of_nat (length rest) * freq).
Proof.
  pose proof freq_pos as Hf.
  assert (forall (x : Z) (n : nat),
             Z.to_nat ((x + Z.of_nat n * freq - x) / freq + 1) = S n) as Hdiv.
  { intros x n. replace (x + Z.of_nat n * freq - x) with (Z.of_nat n * freq) by lia.
    rewrite Z.div_mul by lia. lia. }
  revert a. induction rest as [|b tl IH]; intros a H.
  - cbn [fold_left length]. split; [reflexivity|]. split; [lia|].
    unfold date_range. rewrite Hdiv. cbn [seq map]. f_equal. lia.
  - destruct (gridded_cons a (b :: tl) H) as [Hrest [Hge [Hnil | [tl' Hb]]]];
      [discriminate|]. injection Hb as -> ->.
    destruct (IH (a + freq) Hrest) as [Hmin [Hmax Hrange]].
    cbn [fold_left length].
    replace (Z.min a (a + freq)) with a by lia.
    replace (Z.max a (a + freq)) with (a + freq) by lia.
    split; [|split].
    + destruct (fold_min_le tl' a) as [Hle _].
      destruct (fold_min_in tl' a) as [E | Hin]; [congruence|].
      specialize (Hge _ (or_intror Hin)). lia.
    + rewrite Hmax. lia.
    + unfold date_range in Hrange |- *. rewrite Hdiv. rewrite Hdiv in Hrange.
      change (seq 0 (S (S (length tl'))))
        with (0%nat :: seq 1 (S (length tl'))).
      cbn [map]. f_equal; [lia|].
      rewrite Hrange at 1. rewrite <- seq_shift, map_map.
      apply map_ext. intros k. lia.
Qed.

Lemma merge_left_own_keys (frame : list Row) :
  NoDup (map datetime frame) -> merge_left (map datetime frame) frame = frame.
Proof.
  intros Hnd. unfold merge_left.
  assert (forall part, incl part frame ->
            flat_map (fun t => match filter (fun r => datetime r =? t) frame with
                               | [] => [blank_row t]
                               | matches => matches
                               end) (map datetime part) = part) as Hgen.
  { induction part as [|r rs IH]; intros Hincl; [reflexivity|].
    simpl. rewrite (filter_key_single frame r Hnd) by (apply Hincl; left; reflexivity).
    simpl. f_equal. apply IH. intros x Hx. apply Hincl. right. assumption. }
  apply Hgen. apply incl_refl.
Qed.

(** A frame that is a grid already comes back as it is. *)
Lemma regrid_of_grid (frame : list Row) :
  gridded (map datetime frame) = true -> frame <> [] ->
  generate_missing_dates frame = Ok frame.
Proof.
  intros Hg Hne. destruct frame as [|r rs]; [congruence|].
  simpl map in Hg. destruct (gridded_is_date_range _ _ Hg) as [Hmin [Hmax Hrange]].
  unfold generate_missing_dates. simpl map. unfold col_min, col_max.
  rewrite Hmin, Hmax, <- Hrange.
  change (datetime r :: map datetime rs) with (map datetime (r :: rs)).
  rewrite merge_left_own_keys; [reflexivity|].
  apply gridded_NoDup. assumption.
Qed.

Lemma gridded_filter_interval (s e : Z) (stamps : list Z) :
  gridded stamps = true ->
  gridded (filter (fun t => (s <=? t) && (t <=? e)) stamps) = true.
Proof.
  induction stamps as [|a rest IH]; intros H; [reflexivity|].
  destruct (gridded_cons a rest H) as [Hrest [Hge Hhead]]. simpl.
  destruct ((s <=? a) && (a <=? e)) eqn:Ea; [|auto].
  specialize (IH Hrest).
  destruct Hhead as [-> | [tl ->]]; [reflexivity|].
  simpl in *. destruct ((s <=? a + freq) && (a + freq <=? e)) eqn:Eb.
  - simpl. rewrite Z.eqb_refl. assumption.
  - (* the next stamp is outside: so is every later one *)
    assert (filter (fun t => (s <=? t) && (t <=? e)) tl = []) as ->; [|reflexivity].
    destruct (filter (fun t => (s <=? t) && (t <=? e)) tl) as [|x xs] eqn:Ef;
      [reflexivity|]. exfalso.
    assert (In x (filter (fun t => (s <=? t) && (t <=? e)) tl)) as Hx
      by (rewrite Ef; left; reflexivity).
    apply filter_In in Hx. destruct Hx as [Hx Hin].
    specialize (Hge x (or_intror Hx)).
    apply andb_true_iff in Ea, Hin. rewrite !Z.leb_le in *.
    apply andb_false_iff in Eb. rewrite !Z.leb_gt in Eb.
    pose proof freq_pos. lia.
Qed.

Lemma between_stamps (s e : Z) (frame : list Row) :
  map datetime (between s e frame) =
  filter (fun t => (s <=? t) && (t <=? e)) (map datetime frame).
Proof.
  unfold between. induction frame as [|r rs IH]; simpl; [reflexivity|].
  destruct ((s <=? datetime r) && (datetime r <=? e)); simpl; rewrite IH;
    reflexivity.
Qed.

Lemma grid_is_gridded (data grid : list Row) :
  is_unique (map datetime data) = true ->
  generate_missing_dates data = Ok grid ->
  gridded (map datetime grid) = true /\ grid <> [].
Proof.
  intros Hu Hgen. apply is_unique_NoDup in Hu. unfold generate_missing_dates in Hgen.
  destruct (col_min (map datetime data)) as [lo|] eqn:Hlo; [|discriminate].
  destruct (col_max (map datetime data)) as [hi|] eqn:Hhi; [|discriminate].
  injection Hgen as <-. split.
  - rewrite (merge_left_keys _ _ Hu). apply gridded_date_range.
  - intros Hnil. apply (f_equal (map datetime)) in Hnil.
    rewrite (merge_left_keys _ _ Hu) in Hnil.
    destruct (col_min_spec _ _ Hlo) as [Hin _].
    destruct (col_max_spec _ _ Hhi) as [_ Hmax]. specialize (Hmax lo Hin).
    assert (In lo (date_range lo hi)) as Hlo'.
    { apply in_date_range. exists 0. split; [|lia].
      split; [lia|]. apply Z.div_pos; [lia | apply freq_pos]. }
    rewrite Hnil in Hlo'. contradiction.
Qed.

(** Gridding is idempotent: on input without repeated stamps, the grid of
    the grid is the grid. *)
Theorem generate_missing_dates_idempotent (data grid : list Row) :
  is_unique (map datetime data) = true ->
  generate_missing_dates data = Ok grid ->
  generate_missing_dates grid = Ok grid.
Proof.
  intros Hu Hgen. destruct (grid_is_gridded data grid Hu Hgen) as [Hg Hne].
  apply regrid_of_grid; assumption.
Qed.

Lemma generate_missing_dates_idempotent_witness :
  generate_missing_dates
    [reading (minutes 0) 200; blank_row (minutes 15); blank_row (minutes 30);
     reading (minutes 45) 230]
  = Ok [reading (minutes 0) 200; blank_row (minutes 15); blank_row (minutes 30);
        reading (minutes 45) 230].
Proof.
  apply (generate_missing_dates_idempotent sparse_frame); reflexivity.
Defined.

(** A window of a grid that holds at least one row is itself a grid: the
    gridding that [handle_missing_values_by_week] repeats on its window then
    adds no row. *)
Theorem window_of_grid_is_grid (data grid : list Row) (start_date end_date : Z) :
  is_unique (map datetime data) = true ->
  generate_missing_dates data = Ok grid ->
  between start_date end_date grid <> [] ->
  generate_missing_dates (between start_date end_date grid)
  = Ok (between start_date end_date grid).
Proof.
  intros Hu Hgen Hne. destruct (grid_is_gridded data grid Hu Hgen) as [Hg _].
  apply regrid_of_grid; [|assumption].
  rewrite between_stamps. apply gridded_filter_interval. assumption.
Qed.

Lemma window_of_grid_is_grid_witness :
  generate_missing_dates
    (between (minutes 10) (minutes 40)
             [reading (minutes 0) 200; blank_row (minutes 15);
              blank_row (minutes 30); reading (minutes 45) 230])
  = Ok (between (minutes 10) (minutes 40)
                [reading (minutes 0) 200; blank_row (minutes 15);
                 blank_row (minutes 30); reading (minutes 45) 230]).
Proof.
  apply (window_of_grid_is_grid sparse_frame).
  - reflexivity.
  - reflexivity.
  - vm_compute. discriminate.
Defined.

(** Every reading whose stamp is a whole number of intervals after the
    smallest stamp is a row of the grid. *)
Theorem on_grid_rows_are_kept (data : list Row) (r : Row) (lo : Z) :
  In r data ->
  col_min (map datetime data) = Some lo ->
  (datetime r - lo) mod freq = 0 ->
  exists grid, generate_missing_dates data = Ok grid /\ In r grid.
Proof.
  intros Hr Hlo Hon.
  destruct (col_min_max_nonempty (map datetime data)) as [lo' [hi [Hlo' Hhi]]].
  { destruct data; [contradiction | discriminate]. }
  assert (lo' = lo) as -> by congruence.
  exists (merge_left (date_range lo hi) data). split.
  { unfold generate_missing_dates. rewrite Hlo, Hhi. reflexivity. }
  apply in_merge_left. split; [|left; assumption].
  destruct (col_min_spec _ _ Hlo) as [_ Hmin].
  destruct (col_max_spec _ _ Hhi) as [_ Hmax].
  specialize (Hmin _ (in_map datetime _ _ Hr)).
  specialize (Hmax _ (in_map datetime _ _ Hr)).
  pose proof freq_pos as Hf. apply in_date_range.
  exists ((datetime r - lo) / freq). split.
  - split; [apply Z.div_pos; lia|]. apply Z.div_le_mono; lia.
  - pose proof (Z.div_mod (datetime r - lo) freq). lia.
Qed.

Lemma on_grid_rows_are_kept_witness :
  exists grid,
    generate_missing_dates off_grid_frame = Ok grid /\
    In (reading (minutes 30) 220) grid.
Proof.
  apply (on_grid_rows_are_kept off_grid_frame (reading (minutes 30) 220) 0).
  - simpl. tauto.
  - reflexivity.
  - reflexivity.
Defined.

(** ** The first pass, week by week *)

Section LowPass.

Variable Model : Type.
Variable search_fit : list (list (option Q)) -> list (option Q) -> result Model.
Variable predict : Model -> list (option Q) -> result Q.
Variable now : nat -> Z.

Lemma basic_fill_fewer_weeks (data_missing data_not_missing : list Row)
      (weeks : list (option Z)) (frame frame' : list Row) :
  StreamlitApp.fill_fewer Model search_fit predict data_missing data_not_missing
                          weeks frame = Ok frame' ->
  exists logs : list (list (Row * Q)),
    Forall2 (fun week entries =>
               exists model,
                 StreamlitApp.train_on Model search_fit
                   (in_week week data_not_missing) = Ok model /\
                 map fst entries = in_week week data_missing /\
                 Forall (fun e => predict model (StreamlitApp.feature_cols (fst e))
                                  = Ok (snd e)) entries)
            (filter (has_week_data data_not_missing) weeks) logs /\
    frame' = map (run_log upd_value (writes_of (concat logs))) frame.
Proof.
  revert frame. induction weeks as [|w ws IH]; intros frame H; simpl in H.
  - injection H as <-. exists []. split; [constructor|].
    simpl. rewrite map_run_log_nil. reflexivity.
  - simpl filter. unfold has_week_data at 1.
    destruct (0 <? Z.of_nat (length (in_week w data_not_missing))).
    + apply bind_Ok_inv in H. destruct H as [model [Hm H]].
      apply bind_Ok_inv in H. destruct H as [frame1 [H1 H]].
      apply basic_fill_group_log in H1. destruct H1 as [es1 [Hes1 [Hp1 ->]]].
      destruct (IH _ H) as [logs [Hlogs ->]]. exists (es1 :: logs). split.
      * constructor; [|assumption]. exists model. tauto.
      * simpl. rewrite writes_of_app, map_run_log. reflexivity.
    + apply IH. assumption.
Qed.

Lemma extended_fill_fewer_weeks (data_missing data_not_missing : list Row)
      (weeks : list (option Z)) (st st' : TestPy.State) :
  TestPy.fill_fewer Model search_fit predict now data_missing data_not_missing
                    weeks st = Ok st' ->
  exists logs : list (list (Row * (Q * Z))),
    Forall2 (fun week entries =>
               exists model,
                 TestPy.train_on Model search_fit
                   (in_week week data_not_missing) = Ok model /\
                 map fst entries = in_week week data_missing /\
                 Forall (fun e => predict model (TestPy.feature_cols (fst e))
                                  = Ok (fst (snd e))) entries)
            (filter (has_week_data data_not_missing) weeks) logs /\
    TestPy.frame st' =
    map (run_log upd_forecast (writes_of (concat logs))) (TestPy.frame st) /\
    TestPy.fills st' = (TestPy.fills st + length (concat logs))%nat.
Proof.
  revert st. induction weeks as [|w ws IH]; intros st H; simpl in H.
  - injection H as <-. exists []. split; [constructor|].
    simpl. rewrite map_run_log_nil. split; [reflexivity | lia].
  - simpl filter. unfold has_week_data at 1.
    destruct (0 <? Z.of_nat (length (in_week w data_not_missing))).
    + apply bind_Ok_inv in H. destruct H as [model [Hm H]].
      apply bind_Ok_inv in H. destruct H as [st1 [H1 H]].
      apply extended_fill_group_log in H1.
      destruct H1 as [es1 [Hes1 [Hp1 [Hfr1 Hfills1]]]].
      destruct (IH _ H) as [logs [Hlogs [Hfr Hfills]]]. exists (es1 :: logs).
      split; [|split].
      * constructor; [|assumption]. exists model. tauto.
      * simpl. rewrite Hfr, Hfr1, writes_of_app, map_run_log. reflexivity.
      * simpl. rewrite Hfills, Hfills1, length_app, <- Hes1, length_map. lia.
    + apply IH. assumption.
Qed.

End LowPass.

(** ** Both passes of the orchestrators *)

(** An entry of the logs of a pass was written for a missing row of one of
    the weeks of the pass. *)
Lemma entry_week (W : Type) (data_missing : list Row) (weeks : list (option Z))
      (logs : list (list (Row * W))) (e : Row * W) :
  Forall2 (fun week entries => map fst entries = in_week week data_missing)
          weeks logs ->
  In e (concat logs) ->
  exists week, In week weeks /\ In (fst e) (in_week week data_missing).
Proof.
  intros Hlogs He. apply in_concat in He. destruct He as [entries [Hentries He]].
  destruct (Forall2_in_right _ _ _ _ _ entries Hlogs Hentries) as [week [Hweek Hsrc]].
  exists week. split; [assumption|]. rewrite <- Hsrc. apply in_map. assumption.
Qed.

Lemma grid_missing_weeks_follow_stamps (data grid : list Row) :
  weeks_follow_stamps data = true ->
  generate_missing_dates data = Ok grid ->
  forall a b, In a (filter (fun r => isnull (wl_up r)) grid) ->
              In b (filter (fun r => isnull (wl_up r)) grid) ->
              datetime a = datetime b -> week_of a = week_of b.
Proof.
  intros Hu Hgrid a b Ha Hb. apply filter_In in Ha, Hb.
  apply (grid_weeks_follow_stamps _ grid a b Hu Hgrid); tauto.
Qed.

Section BothPasses.

Variable Model : Type.
Variable search_fit : list (list (option Q)) -> list (option Q) -> result Model.
Variable predict : Model -> list (option Q) -> result Q.
Variable now : nat -> Z.

Lemma basic_handle_passes (data_clean : list Row) (start_date end_date : Z)
      (out : list Row) :
  StreamlitApp.handle_missing_values_by_week Model search_fit predict
    data_clean start_date end_date = Ok out ->
  exists grid,
    generate_missing_dates (between start_date end_date data_clean) = Ok grid /\
    ((filter (fun r => isnull (wl_up r)) grid = [] /\ out = grid) \/
     (exists lows highs : list (list (Row * Q)),
         Forall2 (fun week entries =>
                    exists model,
                      StreamlitApp.train_on Model search_fit
                        (in_week week (StreamlitApp.dropna_wl_up grid)) = Ok model /\
                      map fst entries =
                      in_week week (filter (fun r => isnull (wl_up r)) grid) /\
                      Forall (fun e => predict model
                                         (StreamlitApp.feature_cols (fst e))
                                       = Ok (snd e)) entries)
                 (filter (has_week_data (StreamlitApp.dropna_wl_up grid))
                         (weeks_with_fewer_missing
                            (filter (fun r => isnull (wl_up r)) grid)))
                 lows /\
         Forall2 (fun week entries =>
                    map fst entries =
                    in_week week (filter (fun r => isnull (wl_up r)) grid))
                 (weeks_with_more_missing (filter (fun r => isnull (wl_up r)) grid))
                 highs /\
         out = map (run_log upd_value (writes_of (concat lows ++ concat highs)))
                   grid)).
Proof.
  unfold StreamlitApp.handle_missing_values_by_week. intros H.
  apply bind_Ok_inv in H. destruct H as [grid [Hgrid H]].
  exists grid. split; [assumption|].
  set (dm := filter (fun r => isnull (wl_up r)) grid) in *.
  destruct (length dm =? 0)%nat eqn:E.
  - left. apply Nat.eqb_eq in E. apply length_zero_iff_nil in E.
    injection H as <-. tauto.
  - right. apply bind_Ok_inv in H. destruct H as [_ [_ H]].
    apply bind_Ok_inv in H. destruct H as [filled [Hlow H]].
    destruct (basic_fill_fewer_weeks _ _ _ _ _ _ _ _ Hlow) as [lows [Hlows ->]].
    destruct (basic_fill_more_log _ _ _ _ _ _ _ _ _ H) as [highs [Hhighs ->]].
    exists lows, highs. split; [assumption|]. split.
    + eapply Forall2_impl; [|exact Hhighs]. simpl.
      intros week entries [scope [model [_ [_ [Hsrc _]]]]]. assumption.
    + rewrite map_run_log, <- writes_of_app. reflexivity.
Qed.

Lemma extended_handle_passes (has_wl_up_prev : bool) (data_clean : list Row)
      (start_date end_date : Z) (out : list Row) :
  TestPy.handle_missing_values_by_week Model search_fit predict now
    has_wl_up_prev data_clean start_date end_date = Ok out ->
  exists grid frame0,
    generate_missing_dates (between start_date end_date data_clean) = Ok grid /\
    Forall2 (fun a b => exists c, b = set_wl_up_prev c a) grid frame0 /\
    ((filter (fun r => isnull (wl_up r)) grid = [] /\ out = frame0) \/
     (exists lows highs : list (list (Row * (Q * Z))),
         Forall2 (fun week entries =>
                    exists model,
                      TestPy.train_on Model search_fit
                        (in_week week (TestPy.dropna_wl_up grid)) = Ok model /\
                      map fst entries =
                      in_week week (filter (fun r => isnull (wl_up r)) grid) /\
                      Forall (fun e => predict model (TestPy.feature_cols (fst e))
                                       = Ok (fst (snd e))) entries)
                 (filter (has_week_data (TestPy.dropna_wl_up grid))
                         (weeks_with_fewer_missing
                            (filter (fun r => isnull (wl_up r)) grid)))
                 lows /\
         Forall2 (fun week entries =>
                    map fst entries =
                    in_week week (filter (fun r => isnull (wl_up r)) grid))
                 (weeks_with_more_missing (filter (fun r => isnull (wl_up r)) grid))
                 highs /\
         out = map merged
                   (map (run_log upd_forecast
                                 (writes_of (concat lows ++ concat highs)))
                        frame0))).
Proof.
  unfold TestPy.handle_missing_values_by_week. intros H.
  apply bind_Ok_inv in H. destruct H as [grid [Hgrid H]].
  set (dm := filter (fun r => isnull (wl_up r)) grid) in *.
  set (frame0 := if has_wl_up_prev
                 then assign set_wl_up_prev (interpolate (map wl_up_prev grid)) grid
                 else assign set_wl_up_prev (interpolate (shift1 (map wl_up grid)))
                             grid) in *.
  exists grid, frame0. split; [assumption|]. split.
  { unfold frame0. destruct has_wl_up_prev; apply assign_wl_up_prev.
    - rewrite length_interpolate. apply length_map.
    - rewrite length_interpolate, length_shift1. apply length_map. }
  destruct (length dm =? 0)%nat eqn:E.
  - left. apply Nat.eqb_eq in E. apply length_zero_iff_nil in E.
    injection H as <-. tauto.
  - right. apply bind_Ok_inv in H. destruct H as [_ [_ H]].
    apply bind_Ok_inv in H. destruct H as [_ [_ H]].
    apply bind_Ok_inv in H. destruct H as [st [Hlow H]].
    apply bind_Ok_inv in H. destruct H as [st2 [Hhigh H]].
    destruct (TestPy.fills st2 =? 0)%nat; [discriminate|]. injection H as <-.
    destruct (extended_fill_fewer_weeks _ _ _ _ _ _ _ _ _ Hlow)
      as [lows [Hlows [Hfr _]]].
    destruct (extended_fill_more_log _ _ _ _ _ _ _ _ _ _ Hhigh)
      as [highs [Hhighs Hfr2]].
    exists lows, highs. simpl in Hfr. split; [assumption|]. split.
    + eapply Forall2_impl; [|exact Hhighs]. simpl.
      intros week entries [scope [model [_ [_ [Hsrc _]]]]]. assumption.
    + rewrite Hfr2, Hfr, map_run_log, <- writes_of_app. reflexivity.
Qed.

Lemma low_sources (W : Type) (P : option Z -> list (Row * W) -> Prop)
      (data_missing : list Row) (weeks : list (option Z))
      (logs : list (list (Row * W))) :
  (forall week entries, P week entries ->
                        map fst entries = in_week week data_missing) ->
  Forall2 P weeks logs ->
  Forall2 (fun week entries => map fst entries = in_week week data_missing)
          weeks logs.
Proof. intros HP H. eapply Forall2_impl; [|exact H]. exact HP. Qed.

End BothPasses.

(** The last write for a missing row of a week of the first pass was made
    in that week's iteration of the first pass. *)
Lemma low_entry_origin (W : Type) (P : option Z -> list (Row * W) -> Prop)
      (keep : option Z -> bool) (data_missing : list Row)
      (lows highs : list (list (Row * W))) (week : option Z) (r : Row)
      (e : Row * W) :
  (forall a b, In a data_missing -> In b data_missing ->
               datetime a = datetime b -> week_of a = week_of b) ->
  (forall week entries, P week entries ->
                        map fst entries = in_week week data_missing) ->
  Forall2 P (filter keep (weeks_with_fewer_missing data_missing)) lows ->
  Forall2 (fun week entries => map fst entries = in_week week data_missing)
          (weeks_with_more_missing data_missing) highs ->
  In week (weeks_with_fewer_missing data_missing) ->
  In r (in_week week data_missing) ->
  In e (concat lows ++ concat highs) ->
  datetime (fst e) = datetime r ->
  exists entries, P week entries /\ In e entries.
Proof.
  intros Hw HP Hlows Hhighs Hweek Hr He Hd. apply in_app_or in He.
  destruct He as [He | He].
  - apply in_concat in He. destruct He as [entries [Hentries He]].
    destruct (Forall2_in_right _ _ _ _ _ entries Hlows Hentries)
      as [week' [_ Hentry]].
    assert (week' = week) as ->.
    { apply (week_of_entry data_missing week week' r (fst e)); try assumption.
      rewrite <- (HP _ _ Hentry). apply in_map. assumption. }
    exists entries. tauto.
  - destruct (entry_week _ _ _ _ _ Hhighs He) as [week' [Hweek' Hg]].
    assert (week' = week) as ->
        by (apply (week_of_entry data_missing week week' r (fst e)); assumption).
    apply in_fewer in Hweek. apply in_more in Hweek'. lia.
Qed.

Lemma fewer_of_nothing (week : option Z) : ~ In week (weeks_with_fewer_missing []).
Proof. intros H. exact H. Qed.

Lemma in_own_log (W : Type) (entries : list (Row * W)) (group : list Row)
      (lows highs : list (list (Row * W))) (r : Row) :
  map fst entries = group -> In entries lows -> In r group ->
  In (datetime r) (map datetime (map fst (concat lows ++ concat highs))).
Proof.
  intros Hsrc Hentries Hr. apply in_map. rewrite <- Hsrc in Hr.
  apply in_map_iff in Hr. destruct Hr as [e [He Hin]]. apply in_map_iff.
  exists e. split; [assumption|]. apply in_or_app. left.
  apply in_concat. exists entries. tauto.
Qed.

(** ** The orchestrator on weeks with at most 288 missing rows *)

(** On a window whose rows with the same stamp have the same week, whenever
    an orchestrator returns, every week with at most 288 missing rows and a
    present row was handled as follows: the model was trained on the
    present rows of that week alone, as the grid had them before any fill,
    and every missing row of the week carries a prediction of that model,
    made for the row of the week with its stamp: in the value column in
    [streamlit_app.py], in the forecast and display columns in [test.py]. *)
Theorem low_severity_weeks_trained_on_themselves
        (Model : Type)
        (search_fit : list (list (option Q)) -> list (option Q) -> result Model)
        (predict : Model -> list (option Q) -> result Q)
        (now : nat -> Z) (has_wl_up_prev : bool)
        (data_clean : list Row) (start_date end_date : Z) :
  weeks_follow_stamps (between start_date end_date data_clean) = true ->
  (forall out,
      StreamlitApp.handle_missing_values_by_week Model search_fit predict
        data_clean start_date end_date = Ok out ->
      basic_low_weeks_handled Model search_fit predict
        data_clean start_date end_date out) /\
  (forall out,
      TestPy.handle_missing_values_by_week Model search_fit predict now
        has_wl_up_prev data_clean start_date end_date = Ok out ->
      extended_low_weeks_handled Model search_fit predict
        data_clean start_date end_date out).
Proof.
  intros Hu. split; intros out H.
  - destruct (basic_handle_passes _ _ _ _ _ _ _ H) as [grid [Hgrid Hcases]].
    exists grid. split; [assumption|]. intros week Hweek Hdata.
    set (dm := filter (fun r => isnull (wl_up r)) grid) in *.
    destruct Hcases as [[Hdm _] | [lows [highs [Hlows [Hhighs ->]]]]].
    { rewrite Hdm in Hweek. destruct (fewer_of_nothing _ Hweek). }
    assert (In week (filter (has_week_data (StreamlitApp.dropna_wl_up grid))
                            (weeks_with_fewer_missing dm))) as Hkept
        by (apply filter_In; tauto).
    destruct (Forall2_in_left _ _ _ _ _ week Hlows Hkept)
      as [entries [Hentries [model [Hm [Hsrc Hp]]]]].
    exists model. split; [assumption|]. intros r Hr.
    pose proof (in_own_log _ _ _ _ highs r Hsrc Hentries Hr) as Hlabel.
    destruct (run_log_last_entry Q upd_value upd_value_datetime upd_value_last
                [] (concat lows ++ concat highs) r Hlabel) as [g [v [Hgv [Hg Hrun]]]].
    destruct (low_entry_origin _ _ _ dm lows highs week r (g, v)
                (grid_missing_weeks_follow_stamps _ _ Hu Hgrid)
                (fun w es HP => match HP with
                                | ex_intro _ _ (conj _ (conj Hs _)) => Hs
                                end)
                Hlows Hhighs Hweek Hr Hgv Hg)
      as [entries' [[model' [Hm' [Hsrc' Hp']]] Hin]].
    assert (model' = model) as -> by congruence.
    exists g, v. split; [|split; [assumption|split]].
    + pose proof (in_map fst _ (g, v) Hin) as Hgin. rewrite Hsrc' in Hgin.
      exact Hgin.
    + rewrite Forall_forall in Hp'. apply (Hp' (g, v) Hin).
    + change (set_wl_up (Some v) r) with (upd_value v r). rewrite <- Hrun.
      apply in_map. apply in_in_week in Hr. destruct Hr as [Hr _].
      unfold dm in Hr. apply filter_In in Hr. tauto.
  - destruct (extended_handle_passes _ _ _ _ _ _ _ _ _ H)
      as [grid [frame0 [Hgrid [Hf0 Hcases]]]].
    exists grid. split; [assumption|]. intros week Hweek Hdata.
    set (dm := filter (fun r => isnull (wl_up r)) grid) in *.
    destruct Hcases as [[Hdm _] | [lows [highs [Hlows [Hhighs ->]]]]].
    { rewrite Hdm in Hweek. destruct (fewer_of_nothing _ Hweek). }
    assert (In week (filter (has_week_data (TestPy.dropna_wl_up grid))
                            (weeks_with_fewer_missing dm))) as Hkept
        by (apply filter_In; tauto).
    destruct (Forall2_in_left _ _ _ _ _ week Hlows Hkept)
      as [entries [Hentries [model [Hm [Hsrc Hp]]]]].
    exists model. split; [assumption|]. intros r Hr.
    pose proof (in_own_log _ _ _ _ highs r Hsrc Hentries Hr) as Hlabel.
    pose proof Hr as Hrow. apply in_in_week in Hrow. destruct Hrow as [Hrow _].
    unfold dm in Hrow. apply filter_In in Hrow. destruct Hrow as [Hrow Hnull].
    destruct (Forall2_in_left _ _ _ _ _ r Hf0 Hrow) as [b [Hb [c ->]]].
    destruct (run_log_last_entry (Q * Z) upd_forecast upd_forecast_datetime
                upd_forecast_last [] (concat lows ++ concat highs)
                (set_wl_up_prev c r) Hlabel)
      as [g [[v t] [Hgv [Hg Hrun]]]].
    destruct (low_entry_origin _ _ _ dm lows highs week r (g, (v, t))
                (grid_missing_weeks_follow_stamps _ _ Hu Hgrid)
                (fun w es HP => match HP with
                                | ex_intro _ _ (conj _ (conj Hs _)) => Hs
                                end)
                Hlows Hhighs Hweek Hr Hgv Hg)
      as [entries' [[model' [Hm' [Hsrc' Hp']]] Hin]].
    assert (model' = model) as -> by congruence.
    exists g, v, (merged (upd_forecast (v, t) (set_wl_up_prev c r))).
    split; [|split; [assumption|split; [|split]]].
    + pose proof (in_map fst _ (g, (v, t)) Hin) as Hgin. rewrite Hsrc' in Hgin.
      exact Hgin.
    + rewrite Forall_forall in Hp'. apply (Hp' (g, (v, t)) Hin).
    + apply in_map. rewrite <- Hrun. apply in_map. assumption.
    + destruct (wl_up r) as [u|] eqn:Eu; [discriminate|].
      unfold merged, upd_forecast. simpl. rewrite Eu. simpl.
      repeat split. discriminate.
Qed.

(** Both applications return on the first window of [may_frame], whose
    weeks 19 and 21 have 3 and 2 missing rows. *)
Lemma low_severity_weeks_trained_on_themselves_witness :
  basic_low_weeks_handled nat fit_size predict_size
    may_frame first_start first_end
    (frame_of (basic_run first_start first_end)) /\
  extended_low_weeks_handled nat fit_size predict_size
    may_frame first_start first_end
    (frame_of (extended_run first_start first_end)).
Proof.
  destruct (low_severity_weeks_trained_on_themselves
              nat fit_size predict_size tick_clock true
              may_frame first_start first_end
              (unique_weeks_follow_stamps _ first_window_unique))
    as [Hbasic Hextended].
  split.
  - exact (Hbasic _ (proj1 (run_summary_inv _ _ _ basic_first_run))).
  - exact (Hextended _ (proj1 (run_summary_inv _ _ _ extended_first_run))).
Defined.

(** ** Rows no pass writes for *)

Lemma eq_na_true (cell key : option Z) :
  eq_na cell key = true -> cell = key /\ key <> None.
Proof.
  destruct cell as [a|], key as [b|]; simpl; try discriminate.
  intros H. apply Z.eqb_eq in H. split; [congruence | discriminate].
Qed.

(** The stamps written by the two passes are stamps of missing rows of
    their weeks. *)
Lemma written_label (W : Type) (data_missing : list Row) (keep : option Z -> bool)
      (lows highs : list (list (Row * W))) (t : Z) :
  Forall2 (fun week entries => map fst entries = in_week week data_missing)
          (filter keep (weeks_with_fewer_missing data_missing)) lows ->
  Forall2 (fun week entries => map fst entries = in_week week data_missing)
          (weeks_with_more_missing data_missing) highs ->
  In t (map fst (writes_of (concat lows ++ concat highs))) ->
  exists g week,
    datetime g = t /\ In g (in_week week data_missing) /\
    ((In week (weeks_with_fewer_missing data_missing) /\ keep week = true) \/
     In week (weeks_with_more_missing data_missing)).
Proof.
  intros Hlows Hhighs Ht. rewrite writes_of_labels in Ht.
  apply in_map_iff in Ht. destruct Ht as [g [Hg Ht]].
  apply in_map_iff in Ht. destruct Ht as [e [<- He]].
  apply in_app_or in He. destruct He as [He | He].
  - destruct (entry_week _ _ _ _ _ Hlows He) as [week [Hweek Hin]].
    apply filter_In in Hweek. exists (fst e), week. tauto.
  - destruct (entry_week _ _ _ _ _ Hhighs He) as [week [Hweek Hin]].
    exists (fst e), week. tauto.
Qed.

Lemma never_filled_unwritten (W : Type) (grid : list Row)
      (lows highs : list (list (Row * W))) (r : Row) :
  (forall a b, In a (filter (fun r => isnull (wl_up r)) grid) ->
               In b (filter (fun r => isnull (wl_up r)) grid) ->
               datetime a = datetime b -> week_of a = week_of b) ->
  Forall2 (fun week entries =>
             map fst entries = in_week week (filter (fun r => isnull (wl_up r)) grid))
          (filter (has_week_data (filter (fun r => negb (isnull (wl_up r))) grid))
                  (weeks_with_fewer_missing (filter (fun r => isnull (wl_up r)) grid)))
          lows ->
  Forall2 (fun week entries =>
             map fst entries = in_week week (filter (fun r => isnull (wl_up r)) grid))
          (weeks_with_more_missing (filter (fun r => isnull (wl_up r)) grid)) highs ->
  In r (filter (fun r => isnull (wl_up r)) grid) ->
  never_filled grid r ->
  ~ In (datetime r) (map fst (writes_of (concat lows ++ concat highs))).
Proof.
  intros Hw Hlows Hhighs Hr Hnever Hin.
  destruct (written_label _ _ _ _ _ _ Hlows Hhighs Hin)
    as [g [week [Hg [Hgin Hweek]]]].
  apply in_in_week in Hgin. destruct Hgin as [Hgin Hgw].
  rewrite (Hw g r Hgin Hr Hg) in Hgw. apply eq_na_true in Hgw.
  destruct Hgw as [Hrw Hsome].
  destruct Hnever as [Hnone | [Hfewer Hempty]]; [congruence|].
  rewrite Hrw in Hfewer, Hempty.
  destruct Hweek as [[_ Hdata] | Hmore].
  - unfold has_week_data in Hdata. rewrite Hempty in Hdata. discriminate.
  - apply in_fewer in Hfewer. apply in_more in Hmore. lia.
Qed.

(** On a window whose rows with the same stamp have the same week, a
    missing row of the grid whose week cell is absent, or whose week has at
    most 288 missing rows and no present row, comes back as it was, still
    missing, whenever an orchestrator returns: unchanged in
    [streamlit_app.py]; in [test.py] with no value, with the forecast and
    the time of a fill it had before (none, for a fresh frame), and with
    that forecast as its display value. *)
Theorem unfillable_rows_stay_missing
        (Model : Type)
        (search_fit : list (list (option Q)) -> list (option Q) -> result Model)
        (predict : Model -> list (option Q) -> result Q)
        (now : nat -> Z) (has_wl_up_prev : bool)
        (data_clean : list Row) (start_date end_date : Z)
        (grid : list Row) (r : Row) :
  weeks_follow_stamps (between start_date end_date data_clean) = true ->
  generate_missing_dates (between start_date end_date data_clean) = Ok grid ->
  In r (filter (fun r => isnull (wl_up r)) grid) ->
  never_filled grid r ->
  (forall out,
      StreamlitApp.handle_missing_values_by_week Model search_fit predict
        data_clean start_date end_date = Ok out ->
      In r out) /\
  (forall out,
      TestPy.handle_missing_values_by_week Model search_fit predict now
        has_wl_up_prev data_clean start_date end_date = Ok out ->
      exists r',
        In r' out /\ datetime r' = datetime r /\ wl_up r' = None /\
        wl_forecast r' = wl_forecast r /\ timestamp r' = timestamp r /\
        wl_up2 r' = wl_forecast r).
Proof.
  intros Hu Hgrid Hr Hnever.
  pose proof (grid_missing_weeks_follow_stamps _ _ Hu Hgrid) as Hw.
  pose proof Hr as Hrow. apply filter_In in Hrow. destruct Hrow as [Hrow Hnull].
  split; intros out H.
  - destruct (basic_handle_passes _ _ _ _ _ _ _ H) as [grid' [Hgrid' Hcases]].
    assert (grid' = grid) as -> by congruence.
    destruct Hcases as [[Hdm _] | [lows [highs [Hlows [Hhighs ->]]]]].
    { rewrite Hdm in Hr. destruct Hr. }
    apply (low_sources _ _ (filter (fun r => isnull (wl_up r)) grid)) in Hlows;
      [|intros week entries [model [_ [Hs _]]]; exact Hs].
    rewrite <- (run_log_untouched Q upd_value
                  (writes_of (concat lows ++ concat highs)) r).
    + apply in_map. assumption.
    + apply (never_filled_unwritten _ grid lows highs r); assumption.
  - destruct (extended_handle_passes _ _ _ _ _ _ _ _ _ H)
      as [grid' [frame0 [Hgrid' [Hf0 Hcases]]]].
    assert (grid' = grid) as -> by congruence.
    destruct Hcases as [[Hdm _] | [lows [highs [Hlows [Hhighs ->]]]]].
    { rewrite Hdm in Hr. destruct Hr. }
    apply (low_sources _ _ (filter (fun r => isnull (wl_up r)) grid)) in Hlows;
      [|intros week entries [model [_ [Hs _]]]; exact Hs].
    destruct (Forall2_in_left _ _ _ _ _ r Hf0 Hrow) as [b [Hb [c ->]]].
    exists (merged (set_wl_up_prev c r)). split.
    + rewrite <- (run_log_untouched (Q * Z) upd_forecast
                    (writes_of (concat lows ++ concat highs)) (set_wl_up_prev c r)).
      * apply in_map. apply in_map. assumption.
      * apply (never_filled_unwritten _ grid lows highs r); assumption.
    + destruct (wl_up r) as [u|] eqn:Eu; [discriminate|].
      unfold merged. simpl. rewrite Eu. repeat split.
Qed.

Lemma tail_frame_unique :
  is_unique (map datetime (between tail_start tail_end tail_frame)) = true.
Proof. vm_compute. reflexivity. Qed.

Lemma tail_frame_is_grid :
  generate_missing_dates (between tail_start tail_end tail_frame) = Ok tail_frame.
Proof. vm_compute. reflexivity. Qed.

Lemma basic_tail_run :
  run_summary (StreamlitApp.handle_missing_values_by_week
                 nat fit_size predict_size tail_frame tail_start tail_end)
              [10; 12]%nat =
  (true, [Some (Some 11%Q, None, None, None); Some (None, None, None, None)]).
Proof. vm_compute. reflexivity. Qed.

Lemma extended_tail_run :
  run_summary (TestPy.handle_missing_values_by_week
                 nat fit_size predict_size tick_clock true
                 tail_frame tail_start tail_end)
              [10; 12]%nat =
  (true, [Some (None, Some 11%Q, Some (tick_clock 0), Some 11%Q);
          Some (None, None, None, None)]).
Proof. vm_compute. reflexivity. Qed.

(** Slot 672 of [tail_frame] opens week 20, which has two missing rows and
    no present row: both applications return and leave it missing. *)
Lemma unfillable_rows_stay_missing_witness :
  In (slot 672 None)
     (frame_of (StreamlitApp.handle_missing_values_by_week
                  nat fit_size predict_size tail_frame tail_start tail_end)) /\
  exists r',
    In r' (frame_of (TestPy.handle_missing_values_by_week
                       nat fit_size predict_size tick_clock true
                       tail_frame tail_start tail_end)) /\
    datetime r' = slot_stamp 672 /\ wl_up r' = None /\
    wl_forecast r' = None /\ timestamp r' = None /\ wl_up2 r' = None.
Proof.
  assert (In (slot 672 None) (filter (fun r => isnull (wl_up r)) tail_frame))
    as Hr by (vm_compute; tauto).
  assert (never_filled tail_frame (slot 672 None)) as Hnever.
  { right. split; [vm_compute; tauto | reflexivity]. }
  destruct (unfillable_rows_stay_missing
              nat fit_size predict_size tick_clock true
              tail_frame tail_start tail_end tail_frame (slot 672 None)
              (unique_weeks_follow_stamps _ tail_frame_unique)
              tail_frame_is_grid Hr Hnever)
    as [Hbasic Hextended].
  split.
  - exact (Hbasic _ (proj1 (run_summary_inv _ _ _ basic_tail_run))).
  - exact (Hextended _ (proj1 (run_summary_inv _ _ _ extended_tail_run))).
Defined.

(** ** Present readings *)

Lemma Forall2_impl_in (A B : Type) (P R : A -> B -> Prop) (l : list A) (l' : list B) :
  (forall a b, In a l -> In b l' -> P a b -> R a b) ->
  Forall2 P l l' -> Forall2 R l l'.
Proof.
  intros HPR H. induction H as [|x y xs ys Hxy H IH]; constructor.
  - apply HPR; simpl; auto.
  - apply IH. intros a b Ha Hb. apply HPR; simpl; auto.
Qed.

Lemma Forall2_same (A : Type) (l : list A) : Forall2 eq l l.
Proof. induction l; constructor; auto. Qed.

(** With one row per stamp, no pass writes at the stamp of a present row. *)
Lemma present_unwritten (W : Type) (grid : list Row) (keep : option Z -> bool)
      (lows highs : list (list (Row * W))) (a : Row) :
  NoDup (map datetime grid) ->
  Forall2 (fun week entries =>
             map fst entries = in_week week (filter (fun r => isnull (wl_up r)) grid))
          (filter keep
                  (weeks_with_fewer_missing (filter (fun r => isnull (wl_up r)) grid)))
          lows ->
  Forall2 (fun week entries =>
             map fst entries = in_week week (filter (fun r => isnull (wl_up r)) grid))
          (weeks_with_more_missing (filter (fun r => isnull (wl_up r)) grid)) highs ->
  In a grid -> wl_up a <> None ->
  ~ In (datetime a) (map fst (writes_of (concat lows ++ concat highs))).
Proof.
  intros Hu Hlows Hhighs Ha Hpresent Hin.
  destruct (written_label _ _ _ _ _ _ Hlows Hhighs Hin)
    as [g [week [Hg [Hgin _]]]].
  apply in_in_week in Hgin. destruct Hgin as [Hgin _].
  apply filter_In in Hgin. destruct Hgin as [Hgin Hnull].
  assert (g = a) as -> by (apply (NoDup_map_inj _ _ datetime grid); assumption).
  destruct (wl_up a); [discriminate | congruence].
Qed.



(** Without the condition the reading is lost in [streamlit_app.py]: in
    [echo_frame] the stamp of slot 662 has a row with the value 250 and a
    row without a value, and the write for the missing row sets both. *)
Example repeated_stamp_overwrites_reading :
  map wl_up echo_frame
  = [Some 250%Q; Some 250%Q; Some 250%Q; Some 250%Q; Some 250%Q; Some 250%Q; None] /\
  option_map (map wl_up)
             (match StreamlitApp.handle_missing_values_by_week
                      nat fit_size predict_size echo_frame tail_start echo_end with
              | Ok out => Some out
              | Raise _ => None
              end)
  = Some [Some 250%Q; Some 250%Q; Some 6%Q; Some 6%Q; Some 250%Q; Some 250%Q;
          Some 250%Q].
Proof. vm_compute. split; reflexivity. Qed.

(** ** When the orchestrators raise *)

(** Both orchestrators raise [ValueError] when the window selects no row:
    the minimum and maximum stamp of an empty frame are [NaT], which
    [pd.date_range] refuses. *)
Theorem empty_window_raises
        (Model : Type)
        (search_fit : list (list (option Q)) -> list (option Q) -> result Model)
        (predict : Model -> list (option Q) -> result Q)
        (now : nat -> Z) (has_wl_up_prev : bool)
        (data_clean : list Row) (start_date end_date : Z) :
  between start_date end_date data_clean = [] ->
  StreamlitApp.handle_missing_values_by_week Model search_fit predict
    data_clean start_date end_date = Raise ValueError /\
  TestPy.handle_missing_values_by_week Model search_fit predict now
    has_wl_up_prev data_clean start_date end_date = Raise ValueError.
Proof.
  intros H. unfold StreamlitApp.handle_missing_values_by_week,
              TestPy.handle_missing_values_by_week.
  rewrite H. split; reflexivity.
Qed.

(** A window that ends before the first row of [tail_frame]. *)
Lemma empty_window_raises_witness :
  StreamlitApp.handle_missing_values_by_week nat fit_size predict_size
    tail_frame 0 1 = Raise ValueError /\
  TestPy.handle_missing_values_by_week nat fit_size predict_size tick_clock true
    tail_frame 0 1 = Raise ValueError.
Proof.
  apply (empty_window_raises nat fit_size predict_size tick_clock true
           tail_frame 0 1).
  vm_compute. reflexivity.
Defined.

Lemma basic_train_on_few (Model : Type)
      (search_fit : list (list (option Q)) -> list (option Q) -> result Model)
      (scope : list Row) :
  (length scope < 4)%nat ->
  StreamlitApp.train_on Model search_fit scope = Raise ValueError.
Proof.
  intros H. unfold StreamlitApp.train_on, StreamlitApp.prepare_features,
              StreamlitApp.train_model, StreamlitApp.n_splits_of.
  rewrite length_map.
  destruct scope as [|a [|b [|c [|d rest]]]]; simpl in H; try lia; reflexivity.
Qed.

Lemma extended_train_on_few (Model : Type)
      (search_fit : list (list (option Q)) -> list (option Q) -> result Model)
      (scope : list Row) :
  (length scope < 6)%nat ->
  TestPy.train_on Model search_fit scope = Raise ValueError.
Proof.
  intros H. unfold TestPy.train_on, TestPy.prepare_features, TestPy.train_model,
              TimeSeriesSplit.
  rewrite length_map.
  destruct (Z.of_nat (length scope) <? 5 + 1) eqn:E; [reflexivity|].
  apply Z.ltb_ge in E. lia.
Qed.

(** Once a row of the grid is missing, the model trained first, which is
    never used, decides whether anything is filled: [streamlit_app.py]
    raises [ValueError] when the grid has fewer than four present rows,
    [test.py] when it has fewer than six, and [test.py] raises [KeyError]
    when the frame passed in has no [wl_up_prev] column, because the
    training rows were taken before the orchestrator added it. *)
Theorem initial_training_raises
        (Model : Type)
        (search_fit : list (list (option Q)) -> list (option Q) -> result Model)
        (predict : Model -> list (option Q) -> result Q)
        (now : nat -> Z)
        (data_clean : list Row) (start_date end_date : Z) (grid : list Row) :
  generate_missing_dates (between start_date end_date data_clean) = Ok grid ->
  filter (fun r => isnull (wl_up r)) grid <> [] ->
  ((length (filter (fun r => negb (isnull (wl_up r))) grid) < 4)%nat ->
   StreamlitApp.handle_missing_values_by_week Model search_fit predict
     data_clean start_date end_date = Raise ValueError) /\
  ((length (filter (fun r => negb (isnull (wl_up r))) grid) < 6)%nat ->
   TestPy.handle_missing_values_by_week Model search_fit predict now
     true data_clean start_date end_date = Raise ValueError) /\
  TestPy.handle_missing_values_by_week Model search_fit predict now
    false data_clean start_date end_date = Raise KeyError.
Proof.
  intros Hgrid Hmissing.
  assert ((length (filter (fun r => isnull (wl_up r)) grid) =? 0)%nat = false) as E.
  { apply Nat.eqb_neq. intros Hlen. apply length_zero_iff_nil in Hlen.
    contradiction. }
  unfold StreamlitApp.handle_missing_values_by_week,
    TestPy.handle_missing_values_by_week.
  rewrite Hgrid. cbn [bind]. rewrite E.
  split; [|split].
  - intros Hfew. unfold StreamlitApp.dropna_wl_up.
    rewrite (basic_train_on_few _ _ _ Hfew). reflexivity.
  - intros Hfew. unfold TestPy.dropna_wl_up.
    rewrite (extended_train_on_few _ _ _ Hfew). reflexivity.
  - reflexivity.
Qed.

(** [short_frame] has one missing row and three present ones. *)
Lemma initial_training_raises_witness :
  StreamlitApp.handle_missing_values_by_week nat fit_size predict_size
    short_frame tail_start short_end = Raise ValueError /\
  TestPy.handle_missing_values_by_week nat fit_size predict_size tick_clock
    true short_frame tail_start short_end = Raise ValueError /\
  TestPy.handle_missing_values_by_week nat fit_size predict_size tick_clock
    false short_frame tail_start short_end = Raise KeyError.
Proof.
  assert (generate_missing_dates (between tail_start short_end short_frame)
          = Ok short_frame) as Hgrid by (vm_compute; reflexivity).
  assert (filter (fun r => isnull (wl_up r)) short_frame <> []) as Hmissing
      by (vm_compute; discriminate).
  destruct (initial_training_raises nat fit_size predict_size tick_clock
              short_frame tail_start short_end short_frame Hgrid Hmissing)
    as [Hbasic [Hextended Hkey]].
  split; [|split].
  - apply Hbasic. vm_compute. lia.
  - apply Hextended. vm_compute. lia.
  - exact Hkey.
Defined.

(** The first pass skips a week that has no present row. *)
Lemma basic_fill_fewer_idle (Model : Type)
      (search_fit : list (list (option Q)) -> list (option Q) -> result Model)
      (predict : Model -> list (option Q) -> result Q)
      (data_missing data_not_missing : list Row) (weeks : list (option Z))
      (frame : list Row) :
  (forall week, In week weeks -> in_week week data_not_missing = []) ->
  StreamlitApp.fill_fewer Model search_fit predict data_missing data_not_missing
                          weeks frame = Ok frame.
Proof.
  induction weeks as [|w ws IH]; intros Hidle; simpl; [reflexivity|].
  rewrite (Hidle w (or_introl eq_refl)). simpl. apply IH.
  intros week Hweek. apply Hidle. right. assumption.
Qed.

Lemma extended_fill_fewer_idle (Model : Type)
      (search_fit : list (list (option Q)) -> list (option Q) -> result Model)
      (predict : Model -> list (option Q) -> result Q) (now : nat -> Z)
      (data_missing data_not_missing : list Row) (weeks : list (option Z))
      (st : TestPy.State) :
  (forall week, In week weeks -> in_week week data_not_missing = []) ->
  TestPy.fill_fewer Model search_fit predict now data_missing data_not_missing
                    weeks st = Ok st.
Proof.
  induction weeks as [|w ws IH]; intros Hidle; simpl; [reflexivity|].
  rewrite (Hidle w (or_introl eq_refl)). simpl. apply IH.
  intros week Hweek. apply Hidle. right. assumption.
Qed.

(** For a frame that has no provenance column yet.  When the grid has
    missing rows, no week has more than 288 of them and none of their weeks
    has a present row, nothing is filled.
    [streamlit_app.py] then returns the grid as it is, once the model
    trained first is fitted; [test.py] raises [KeyError], because the
    display column is computed from the column [wl_forecast], which only a
    fill creates. *)
Theorem nothing_to_fill_from
        (Model : Type)
        (search_fit : list (list (option Q)) -> list (option Q) -> result Model)
        (predict : Model -> list (option Q) -> result Q)
        (now : nat -> Z)
        (data_clean : list Row) (start_date end_date : Z) (grid : list Row) :
  forallb no_provenance data_clean = true ->
  generate_missing_dates (between start_date end_date data_clean) = Ok grid ->
  filter (fun r => isnull (wl_up r)) grid <> [] ->
  weeks_with_more_missing (filter (fun r => isnull (wl_up r)) grid) = [] ->
  (forall week,
      In week (weeks_with_fewer_missing (filter (fun r => isnull (wl_up r)) grid)) ->
      in_week week (filter (fun r => negb (isnull (wl_up r))) grid) = []) ->
  (is_ok (StreamlitApp.train_on Model search_fit
            (filter (fun r => negb (isnull (wl_up r))) grid)) = true ->
   StreamlitApp.handle_missing_values_by_week Model search_fit predict
     data_clean start_date end_date = Ok grid) /\
  (is_ok (TestPy.train_on Model search_fit
            (filter (fun r => negb (isnull (wl_up r))) grid)) = true ->
   TestPy.handle_missing_values_by_week Model search_fit predict now
     true data_clean start_date end_date = Raise KeyError).
Proof.
  intros _ Hgrid Hmissing Hmore Hidle.
  assert ((length (filter (fun r => isnull (wl_up r)) grid) =? 0)%nat = false) as E.
  { apply Nat.eqb_neq. intros Hlen. apply length_zero_iff_nil in Hlen.
    contradiction. }
  unfold StreamlitApp.handle_missing_values_by_week,
    TestPy.handle_missing_values_by_week.
  rewrite Hgrid. cbn [bind]. rewrite E, Hmore.
  unfold StreamlitApp.dropna_wl_up, TestPy.dropna_wl_up.
  split; intros Hfit.
  - destruct (StreamlitApp.train_on Model search_fit
                (filter (fun r => negb (isnull (wl_up r))) grid));
      [|discriminate].
    cbn [bind]. rewrite (basic_fill_fewer_idle _ _ _ _ _ _ _ Hidle). reflexivity.
  - destruct (TestPy.train_on Model search_fit
                (filter (fun r => negb (isnull (wl_up r))) grid));
      [|discriminate].
    cbn [bind]. rewrite (extended_fill_fewer_idle _ _ _ _ _ _ _ _ Hidle).
    reflexivity.
Qed.

(** The only missing rows of [idle_frame] are the two of week 20, which
    has no present row. *)
Lemma nothing_to_fill_from_witness :
  StreamlitApp.handle_missing_values_by_week nat fit_size predict_size
    idle_frame tail_start tail_end = Ok idle_frame /\
  TestPy.handle_missing_values_by_week nat fit_size predict_size tick_clock
    true idle_frame tail_start tail_end = Raise KeyError.
Proof.
  assert (generate_missing_dates (between tail_start tail_end idle_frame)
          = Ok idle_frame) as Hgrid by (vm_compute; reflexivity).
  assert (filter (fun r => isnull (wl_up r)) idle_frame <> []) as Hmissing
      by (vm_compute; discriminate).
  assert (weeks_with_more_missing (filter (fun r => isnull (wl_up r)) idle_frame)
          = []) as Hmore by (vm_compute; reflexivity).
  assert (forall week,
             In week (weeks_with_fewer_missing
                        (filter (fun r => isnull (wl_up r)) idle_frame)) ->
             in_week week (filter (fun r => negb (isnull (wl_up r))) idle_frame) = [])
    as Hidle.
  { intros week [<- | []]. vm_compute. reflexivity. }
  assert (forallb no_provenance idle_frame = true) as Hfresh
      by (vm_compute; reflexivity).
  destruct (nothing_to_fill_from nat fit_size predict_size tick_clock
              idle_frame tail_start tail_end idle_frame
              Hfresh Hgrid Hmissing Hmore Hidle)
    as [Hbasic Hextended].
  split; [apply Hbasic | apply Hextended]; vm_compute; reflexivity.
Defined.

Lemma all_weeks_absent (weeks : list (option Z)) :
  In None weeks -> all_weeks weeks = None.
Proof.
  induction weeks as [|[w|] ws IH]; simpl; intros H; [contradiction | | reflexivity].
  destruct H as [H | H]; [discriminate|]. rewrite (IH H). reflexivity.
Qed.

Lemma basic_fill_more_absent_week (Model : Type)
      (search_fit : list (list (option Q)) -> list (option Q) -> result Model)
      (predict : Model -> list (option Q) -> result Q)
      (data_clean data_missing pool : list Row) (weeks : list (option Z))
      (frame : list Row) :
  In None (weeks_with_missing data_missing) -> weeks <> [] ->
  StreamlitApp.fill_more Model search_fit predict data_clean data_missing pool
                         weeks frame = Raise TypeError.
Proof.
  intros Habsent Hweeks. destruct weeks as [|w ws]; [contradiction|]. simpl.
  unfold StreamlitApp.scope_of_week, StreamlitApp.prev_week_of, py_min.
  rewrite (all_weeks_absent _ Habsent). reflexivity.
Qed.

Lemma extended_fill_more_absent_week (Model : Type)
      (search_fit : list (list (option Q)) -> list (option Q) -> result Model)
      (predict : Model -> list (option Q) -> result Q) (now : nat -> Z)
      (data_clean data_missing pool : list Row) (weeks : list (option Z))
      (st : TestPy.State) :
  In None (weeks_with_missing data_missing) -> weeks <> [] ->
  TestPy.fill_more Model search_fit predict now data_clean data_missing pool
                   weeks st = Raise TypeError.
Proof.
  intros Habsent Hweeks. destruct weeks as [|w ws]; [contradiction|]. simpl.
  unfold TestPy.scope_of_week, TestPy.prev_week_of, py_min.
  rewrite (all_weeks_absent _ Habsent). reflexivity.
Qed.

(** When a missing row of the grid has no week cell, as the rows have that
    the orchestrator's own gridding adds, and some week has more than 288
    missing rows, neither orchestrator returns: if nothing fails earlier,
    the second pass compares that week with the smallest of the weeks with
    missing rows, which is undefined, and raises [TypeError]. *)
Theorem absent_week_stops_second_pass
        (Model : Type)
        (search_fit : list (list (option Q)) -> list (option Q) -> result Model)
        (predict : Model -> list (option Q) -> result Q)
        (now : nat -> Z) (has_wl_up_prev : bool)
        (data_clean : list Row) (start_date end_date : Z) (grid : list Row) :
  generate_missing_dates (between start_date end_date data_clean) = Ok grid ->
  In None (weeks_with_missing (filter (fun r => isnull (wl_up r)) grid)) ->
  weeks_with_more_missing (filter (fun r => isnull (wl_up r)) grid) <> [] ->
  (forall out,
      StreamlitApp.handle_missing_values_by_week Model search_fit predict
        data_clean start_date end_date <> Ok out) /\
  (forall out,
      TestPy.handle_missing_values_by_week Model search_fit predict now
        has_wl_up_prev data_clean start_date end_date <> Ok out).
Proof.
  intros Hgrid Habsent Hmore.
  assert ((length (filter (fun r => isnull (wl_up r)) grid) =? 0)%nat = false) as E.
  { apply Nat.eqb_neq. intros Hlen. apply length_zero_iff_nil in Hlen.
    rewrite Hlen in Habsent. destruct Habsent. }
  unfold StreamlitApp.handle_missing_values_by_week,
    TestPy.handle_missing_values_by_week.
  rewrite Hgrid. cbn [bind]. rewrite E.
  unfold StreamlitApp.dropna_wl_up, TestPy.dropna_wl_up.
  split.
  - intros out.
    destruct (StreamlitApp.train_on Model search_fit
                (filter (fun r => negb (isnull (wl_up r))) grid));
      [|discriminate].
    cbn [bind].
    destruct (StreamlitApp.fill_fewer _ _ _ _ _ _ _); [|discriminate].
    cbn [bind].
    rewrite (basic_fill_more_absent_week _ _ _ _ _ _ _ _ Habsent Hmore).
    discriminate.
  - intros out. destruct has_wl_up_prev; [|discriminate]. cbn [bind].
    destruct (TestPy.train_on Model search_fit
                (filter (fun r => negb (isnull (wl_up r))) grid));
      [|discriminate].
    cbn [bind].
    destruct (TestPy.fill_fewer _ _ _ _ _ _ _ _); [|discriminate].
    cbn [bind].
    rewrite (extended_fill_more_absent_week _ _ _ _ _ _ _ _ _ Habsent Hmore).
    discriminate.
Qed.

Lemma holed_window_gridded :
  is_ok (generate_missing_dates (between second_start second_end holed_frame))
  = true.
Proof. vm_compute. reflexivity. Qed.

(** The second window of [holed_frame] lacks slot 2017; the grid restores
    it without a week, and week 22 has 290 missing rows. *)
Lemma absent_week_stops_second_pass_witness :
  (forall out,
      StreamlitApp.handle_missing_values_by_week nat fit_size predict_size
        holed_frame second_start second_end <> Ok out) /\
  (forall out,
      TestPy.handle_missing_values_by_week nat fit_size predict_size tick_clock
        true holed_frame second_start second_end <> Ok out).
Proof.
  apply (absent_week_stops_second_pass nat fit_size predict_size tick_clock true
           holed_frame second_start second_end
           (frame_of (generate_missing_dates
                        (between second_start second_end holed_frame)))).
  - apply ok_frame_of. exact holed_window_gridded.
  - vm_compute. tauto.
  - vm_compute. discriminate.
Defined.

(** There the error is [TypeError] in both applications. *)
Example holed_window_raises_type_error :
  StreamlitApp.handle_missing_values_by_week nat fit_size predict_size
    holed_frame second_start second_end = Raise TypeError /\
  TestPy.handle_missing_values_by_week nat fit_size predict_size tick_clock
    true holed_frame second_start second_end = Raise TypeError.
Proof. vm_compute. split; reflexivity. Qed.

(** ** Rows still missing after a return *)

Lemma in_weeks_with_missing (data_missing : list Row) (a : Row) :
  In a data_missing -> In (week_of a) (weeks_with_missing data_missing).
Proof.
  intros Ha. unfold weeks_with_missing. apply in_unique. apply in_map. assumption.
Qed.

Lemma in_own_week (frame : list Row) (a : Row) (w : Z) :
  In a frame -> week_of a = Some w -> In a (in_week (week_of a) frame).
Proof.
  intros Ha Hw. apply in_in_week. split; [assumption|]. rewrite Hw. simpl.
  apply Z.eqb_refl.
Qed.

(** A missing row that no pass wrote for is one of the rows described by
    [never_filled]. *)
Lemma unwritten_never_filled (W : Type) (grid : list Row)
      (lows highs : list (list (Row * W))) (a : Row) :
  Forall2 (fun week entries =>
             map fst entries = in_week week (filter (fun r => isnull (wl_up r)) grid))
          (filter (has_week_data (filter (fun r => negb (isnull (wl_up r))) grid))
                  (weeks_with_fewer_missing (filter (fun r => isnull (wl_up r)) grid)))
          lows ->
  Forall2 (fun week entries =>
             map fst entries = in_week week (filter (fun r => isnull (wl_up r)) grid))
          (weeks_with_more_missing (filter (fun r => isnull (wl_up r)) grid)) highs ->
  In a (filter (fun r => isnull (wl_up r)) grid) ->
  ~ In (datetime a) (map datetime (map fst (concat lows ++ concat highs))) ->
  never_filled grid a.
Proof.
  intros Hlows Hhighs Ha Hunwritten.
  set (dm := filter (fun r => isnull (wl_up r)) grid) in *.
  destruct (week_of a) as [w|] eqn:Ew; [|left; assumption].
  right. pose proof (in_weeks_with_missing dm a Ha) as Hweek.
  pose proof (in_own_week dm a w Ha Ew) as Hown.
  rewrite Ew in Hweek, Hown.
  assert (forall (weeks : list (option Z)) (logs : list (list (Row * W))),
             Forall2 (fun week entries => map fst entries = in_week week dm)
                     weeks logs ->
             In (Some w) weeks ->
             In (datetime a) (map datetime (map fst (concat logs)))) as Hwritten.
  { intros weeks logs Hlogs Hin.
    destruct (Forall2_in_left _ _ _ _ _ (Some w) Hlogs Hin) as [entries [He Hsrc]].
    apply in_map. apply in_map_iff. rewrite <- Hsrc in Hown.
    apply in_map_iff in Hown. destruct Hown as [e [Hfst Hine]].
    exists e. split; [assumption|]. apply in_concat. exists entries. tauto. }
  assert (~ In (Some w) (weeks_with_more_missing dm)) as Hnot_more.
  { intros Hin. apply Hunwritten. rewrite !map_app. apply in_or_app. right.
    apply (Hwritten _ _ Hhighs Hin). }
  assert (In (Some w) (weeks_with_fewer_missing dm)) as Hfewer.
  { apply in_fewer. split; [assumption|].
    destruct (Z_le_gt_dec (missing_count (in_week (Some w) dm)) 288) as [Hle | Hgt];
      [assumption|].
    exfalso. apply Hnot_more. apply in_more. split; [assumption | lia]. }
  rewrite Ew. split; [assumption|].
  destruct (has_week_data (filter (fun r => negb (isnull (wl_up r))) grid) (Some w))
    eqn:Hdata.
  - exfalso. apply Hunwritten. rewrite !map_app. apply in_or_app. left.
    apply (Hwritten _ _ Hlows). apply filter_In. tauto.
  - unfold has_week_data in Hdata. apply Z.ltb_ge in Hdata.
    apply length_zero_iff_nil. lia.
Qed.

Section LeftMissing.

Variable Model : Type.
Variable search_fit : list (list (option Q)) -> list (option Q) -> result Model.
Variable predict : Model -> list (option Q) -> result Q.
Variable now : nat -> Z.

Lemma basic_rows_left_missing (data_clean : list Row) (start_date end_date : Z)
      (grid out : list Row) (r : Row) :
  generate_missing_dates (between start_date end_date data_clean) = Ok grid ->
  StreamlitApp.handle_missing_values_by_week Model search_fit predict
    data_clean start_date end_date = Ok out ->
  In r out -> wl_up r = None ->
  In r (filter (fun r => isnull (wl_up r)) grid) /\ never_filled grid r.
Proof.
  intros Hgrid H Hr Hnone.
  destruct (basic_handle_passes _ _ _ _ _ _ _ H) as [grid' [Hgrid' Hcases]].
  assert (grid' = grid) as -> by congruence.
  destruct Hcases as [[Hdm ->] | [lows [highs [Hlows [Hhighs ->]]]]].
  { exfalso. assert (In r (filter (fun r => isnull (wl_up r)) grid)) as Hin
        by (apply filter_In; rewrite Hnone; tauto).
    rewrite Hdm in Hin. destruct Hin. }
  apply (low_sources _ _ (filter (fun r => isnull (wl_up r)) grid)) in Hlows;
    [|intros week entries [model [_ [Hs _]]]; exact Hs].
  apply in_map_iff in Hr. destruct Hr as [a [Hrun Ha]].
  destruct (in_dec Z.eq_dec (datetime a)
                   (map datetime (map fst (concat lows ++ concat highs))))
    as [Hwritten | Hunwritten].
  { exfalso.
    destruct (run_log_last_entry Q upd_value upd_value_datetime upd_value_last
                [] (concat lows ++ concat highs) a Hwritten)
      as [g [v [_ [_ Hlast]]]].
    simpl in Hlast. rewrite Hlast in Hrun. rewrite <- Hrun in Hnone. discriminate. }
  rewrite run_log_untouched in Hrun
    by (rewrite writes_of_labels; assumption).
  subst a.
  assert (In r (filter (fun r => isnull (wl_up r)) grid)) as Hin
      by (apply filter_In; rewrite Hnone; tauto).
  split; [assumption|].
  apply (unwritten_never_filled _ grid lows highs r); assumption.
Qed.

Lemma extended_rows_left_missing (has_wl_up_prev : bool) (data_clean : list Row)
      (start_date end_date : Z) (grid out : list Row) (r : Row) :
  generate_missing_dates (between start_date end_date data_clean) = Ok grid ->
  TestPy.handle_missing_values_by_week Model search_fit predict now
    has_wl_up_prev data_clean start_date end_date = Ok out ->
  In r out -> wl_up r = None -> wl_forecast r = None ->
  exists a,
    In a (filter (fun r => isnull (wl_up r)) grid) /\ never_filled grid a /\
    datetime r = datetime a.
Proof.
  intros Hgrid H Hr Hnone.
  intros Hforecast.
  destruct (extended_handle_passes _ _ _ _ _ _ _ _ _ H)
    as [grid' [frame0 [Hgrid' [Hf0 Hcases]]]].
  assert (grid' = grid) as -> by congruence.
  destruct Hcases as [[Hdm ->] | [lows [highs [Hlows [Hhighs ->]]]]].
  { exfalso. destruct (Forall2_in_right _ _ _ _ _ r Hf0 Hr) as [a [Ha [c ->]]].
    assert (In a (filter (fun r => isnull (wl_up r)) grid)) as Hin
        by (apply filter_In; simpl in Hnone; rewrite Hnone; tauto).
    rewrite Hdm in Hin. destruct Hin. }
  apply (low_sources _ _ (filter (fun r => isnull (wl_up r)) grid)) in Hlows;
    [|intros week entries [model [_ [Hs _]]]; exact Hs].
  rewrite map_map in Hr. apply in_map_iff in Hr. destruct Hr as [b [Hrun Hb]].
  destruct (Forall2_in_right _ _ _ _ _ b Hf0 Hb) as [a [Ha [c ->]]].
  exists a.
  assert (wl_up a = None) as Hmissing.
  { rewrite <- Hrun in Hnone. unfold merged in Hnone. simpl in Hnone.
    rewrite (run_log_keeps (Q * Z) upd_forecast _ wl_up) in Hnone;
      [exact Hnone | reflexivity]. }
  assert (In a (filter (fun r => isnull (wl_up r)) grid)) as Hin
      by (apply filter_In; rewrite Hmissing; tauto).
  split; [assumption|]. split.
  + apply (unwritten_never_filled _ grid lows highs a); try assumption.
    intros Hwritten.
    destruct (run_log_last_entry (Q * Z) upd_forecast upd_forecast_datetime
                upd_forecast_last [] (concat lows ++ concat highs)
                (set_wl_up_prev c a) Hwritten)
      as [g [w [_ [_ Hlast]]]].
    simpl in Hlast. rewrite Hlast in Hrun. rewrite <- Hrun in Hforecast.
    discriminate.
  + rewrite <- Hrun. unfold merged. simpl.
    rewrite (run_log_datetime (Q * Z) upd_forecast upd_forecast_datetime).
    reflexivity.
Qed.

End LeftMissing.

(** Whenever an orchestrator returns, a row it leaves without a value (in
    [test.py]: without a value and without a forecast) is a missing row of
    the grid that no pass could write for: its week cell is absent, or its
    week has at most 288 missing rows and no present row.  Every other
    missing row was filled. *)
Theorem rows_left_missing_were_unfillable
        (Model : Type)
        (search_fit : list (list (option Q)) -> list (option Q) -> result Model)
        (predict : Model -> list (option Q) -> result Q)
        (now : nat -> Z) (has_wl_up_prev : bool)
        (data_clean : list Row) (start_date end_date : Z) (grid : list Row) :
  generate_missing_dates (between start_date end_date data_clean) = Ok grid ->
  (forall out r,
      StreamlitApp.handle_missing_values_by_week Model search_fit predict
        data_clean start_date end_date = Ok out ->
      In r out -> wl_up r = None ->
      In r (filter (fun r => isnull (wl_up r)) grid) /\ never_filled grid r) /\
  (forall out r,
      TestPy.handle_missing_values_by_week Model search_fit predict now
        has_wl_up_prev data_clean start_date end_date = Ok out ->
      In r out -> wl_up r = None -> wl_forecast r = None ->
      exists a,
        In a (filter (fun r => isnull (wl_up r)) grid) /\ never_filled grid a /\
        datetime r = datetime a).
Proof.
  intros Hgrid. split; intros out r H Hr Hnone.
  - apply (basic_rows_left_missing Model search_fit predict
             data_clean start_date end_date grid out r); assumption.
  - apply (extended_rows_left_missing Model search_fit predict now has_wl_up_prev
             data_clean start_date end_date grid out r); assumption.
Qed.

(** Both applications return on [tail_frame]; the rows they leave missing
    there are rows of week 20. *)
Lemma rows_left_missing_were_unfillable_witness :
  (forall r,
      In r (frame_of (StreamlitApp.handle_missing_values_by_week
                        nat fit_size predict_size tail_frame tail_start tail_end)) ->
      wl_up r = None ->
      In r (filter (fun r => isnull (wl_up r)) tail_frame) /\
      never_filled tail_frame r) /\
  (forall r,
      In r (frame_of (TestPy.handle_missing_values_by_week
                        nat fit_size predict_size tick_clock true
                        tail_frame tail_start tail_end)) ->
      wl_up r = None -> wl_forecast r = None ->
      exists a,
        In a (filter (fun r => isnull (wl_up r)) tail_frame) /\
        never_filled tail_frame a /\ datetime r = datetime a).
Proof.
  destruct (rows_left_missing_were_unfillable
              nat fit_size predict_size tick_clock true
              tail_frame tail_start tail_end tail_frame tail_frame_is_grid)
    as [Hbasic Hextended].
  split; intros r.
  - exact (Hbasic _ r (proj1 (run_summary_inv _ _ _ basic_tail_run))).
  - exact (Hextended _ r (proj1 (run_summary_inv _ _ _ extended_tail_run))).
Defined.

(** ** [fill_code_column] *)

Section Fill.

Variable A : Type.

Lemma length_ffill_from (last : option A) (col : list (option A)) :
  length (ffill_from last col) = length col.
Proof.
  revert last. induction col as [|[v|] rest IH]; intros last; simpl;
    [reflexivity | |]; rewrite IH; reflexivity.
Qed.

Lemma length_bfill (col : list (option A)) : length (bfill col) = length col.
Proof.
  induction col as [|[v|] rest IH]; simpl; [reflexivity | |]; rewrite IH;
    reflexivity.
Qed.

(** Valid cells are left as they are. *)
Lemma ffill_from_keeps (last : option A) (col : list (option A)) :
  Forall2 (fun c d => c <> None -> d = c) col (ffill_from last col).
Proof.
  revert last. induction col as [|[v|] rest IH]; intros last; simpl; constructor;
    auto. congruence.
Qed.

Lemma bfill_keeps (col : list (option A)) :
  Forall2 (fun c d => c <> None -> d = c) col (bfill col).
Proof.
  induction col as [|[v|] rest IH]; simpl; constructor; auto. congruence.
Qed.

(** A filled cell holds a value of the column. *)
Lemma ffill_from_source (last : option A) (col : list (option A)) (v : A) :
  In (Some v) (ffill_from last col) -> last = Some v \/ In (Some v) col.
Proof.
  revert last. induction col as [|[w|] rest IH]; intros last; simpl;
    [tauto | |].
  - intros [H | H]; [tauto|]. destruct (IH _ H) as [H' | H']; tauto.
  - intros [H | H]; [tauto|]. destruct (IH _ H) as [H' | H']; tauto.
Qed.

Lemma hd_bfill (col : list (option A)) : hd None (bfill col) = first_valid col.
Proof. induction col as [|[v|] rest IH]; simpl; auto. Qed.

Lemma first_valid_in (col : list (option A)) (v : A) :
  first_valid col = Some v -> In (Some v) col.
Proof.
  induction col as [|[w|] rest IH]; simpl; [discriminate | |].
  - intros H. left. assumption.
  - intros H. right. auto.
Qed.

Lemma bfill_source (col : list (option A)) (v : A) :
  In (Some v) (bfill col) -> In (Some v) col.
Proof.
  induction col as [|[w|] rest IH]; simpl; [tauto | |].
  - intros [H | H]; auto.
  - intros [H | H]; [|auto]. right. apply first_valid_in.
    rewrite <- hd_bfill. assumption.
Qed.

(** After a valid cell the forward fill leaves no absent cell. *)
Lemma ffill_from_valid (v : A) (col : list (option A)) :
  Forall (fun d => d <> None) (ffill_from (Some v) col).
Proof.
  revert v. induction col as [|[w|] rest IH]; intros v; simpl; constructor;
    auto; discriminate.
Qed.

Lemma bfill_valid (col : list (option A)) :
  Forall (fun d => d <> None) col -> bfill col = col.
Proof.
  induction 1 as [|[v|] rest Hv H IH]; simpl; [reflexivity | |].
  - rewrite IH. reflexivity.
  - congruence.
Qed.

Lemma first_valid_ffill (col : list (option A)) :
  first_valid (ffill_from None col) = first_valid col.
Proof. induction col as [|[v|] rest IH]; simpl; auto. Qed.

Lemma first_valid_none (col : list (option A)) :
  first_valid col = None -> Forall (fun c => c = None) col.
Proof.
  induction col as [|[v|] rest IH]; simpl; intros H; [constructor | discriminate|].
  constructor; auto.
Qed.

(** Forward fill, then backward fill: with one valid cell in the column,
    no cell is left absent. *)
Lemma bfill_ffill_complete (col : list (option A)) (v : A) :
  In (Some v) col -> Forall (fun d => d <> None) (bfill (ffill col)).
Proof.
  unfold ffill. induction col as [|[w|] rest IH]; simpl; [tauto | |].
  - intros _. pose proof (ffill_from_valid w rest) as Hv.
    rewrite (bfill_valid _ Hv). constructor; [discriminate | assumption].
  - intros [H | H]; [discriminate|]. specialize (IH H). constructor; [|assumption].
    rewrite hd_bfill, first_valid_ffill.
    destruct (first_valid rest) eqn:E; [discriminate|].
    apply first_valid_none in E. rewrite Forall_forall in E.
    specialize (E _ H). discriminate.
Qed.

Lemma bfill_ffill_keeps (col : list (option A)) :
  Forall2 (fun c d => c <> None -> d = c) col (bfill (ffill col)).
Proof.
  unfold ffill. pose proof (ffill_from_keeps None col) as H1.
  pose proof (bfill_keeps (ffill_from None col)) as H2.
  revert H2. generalize (bfill (ffill_from None col)).
  induction H1 as [|c d cs ds Hcd H1 IH]; intros l H2; inversion H2; subst;
    constructor.
  - intros Hc. specialize (Hcd Hc). subst d. auto.
  - apply IH. assumption.
Qed.

Lemma bfill_ffill_source (col : list (option A)) (v : A) :
  In (Some v) (bfill (ffill col)) -> In (Some v) col.
Proof.
  intros H. apply bfill_source in H. apply ffill_from_source in H.
  destruct H as [H | H]; [discriminate | assumption].
Qed.

(** The carry of the forward fill over a prefix. *)
Lemma ffill_from_app (last : option A) (l1 l2 : list (option A)) :
  ffill_from last (l1 ++ l2) =
  ffill_from last l1 ++
  ffill_from (fold_left (fun acc c => match c with
                                      | Some v => Some v
                                      | None => acc
                                      end) l1 last) l2.
Proof.
  revert last. induction l1 as [|[v|] rest IH]; intros last; simpl;
    [reflexivity | |]; rewrite IH; reflexivity.
Qed.

Lemma bfill_app (l1 l2 : list (option A)) :
  exists filled, bfill (l1 ++ l2) = filled ++ bfill l2 /\ length filled = length l1.
Proof.
  induction l1 as [|[v|] rest [filled [E Hlen]]]; simpl.
  - exists []. tauto.
  - exists (Some v :: filled). rewrite E. simpl. auto.
  - exists (hd None (filled ++ bfill l2) :: filled). rewrite E. simpl. auto.
Qed.

Lemma first_valid_carry (last : option A) (col : list (option A)) :
  first_valid (last :: ffill_from last col) =
  match last with
  | Some v => Some v
  | None => first_valid col
  end.
Proof. destruct last; simpl; [reflexivity | apply first_valid_ffill]. Qed.

(** The cell at one position after both fills. *)
Lemma bfill_ffill_at (before after : list (option A)) (c : option A) :
  nth_error (bfill (ffill (before ++ c :: after))) (length before) =
  Some (match c with
        | Some v => Some v
        | None => match last_valid before with
                  | Some v => Some v
                  | None => first_valid after
                  end
        end).
Proof.
  unfold ffill. rewrite ffill_from_app. fold (last_valid before).
  destruct (bfill_app (ffill_from None before)
                      (ffill_from (last_valid before) (c :: after)))
    as [filled [-> Hlen]].
  rewrite length_ffill_from in Hlen.
  rewrite nth_error_app2 by lia. rewrite Hlen, Nat.sub_diag.
  pose proof (hd_bfill (ffill_from (last_valid before) (c :: after))) as Hhd.
  destruct (bfill (ffill_from (last_valid before) (c :: after))) as [|x xs] eqn:E.
  - apply (f_equal (@length (option A))) in E.
    rewrite length_bfill, length_ffill_from in E. discriminate.
  - simpl in Hhd. simpl. rewrite Hhd. destruct c as [v|]; [reflexivity|].
    change (ffill_from (last_valid before) (None :: after))
      with (last_valid before :: ffill_from (last_valid before) after).
    rewrite first_valid_carry. reflexivity.
Qed.

End Fill.

Lemma assign_code (col : list (option string)) (frame : list Row) :
  length col = length frame ->
  Forall2 (fun a b => b = set_code (code b) a) frame (assign set_code col frame) /\
  map code (assign set_code col frame) = col.
Proof.
  unfold assign. revert col. induction frame as [|r rs IH]; intros [|c cs] H;
    simpl in *; try discriminate.
  - split; [constructor | reflexivity].
  - destruct (IH cs) as [H1 H2]; [lia|]. split; [constructor; auto|].
    rewrite H2. reflexivity.
Qed.

Lemma nth_error_assign (A : Type) (set : A -> Row -> Row) (col : list A)
      (frame : list Row) (n : nat) (c : A) (r : Row) :
  nth_error col n = Some c -> nth_error frame n = Some r ->
  nth_error (assign set col frame) n = Some (set c r).
Proof.
  unfold assign. revert col frame. induction n as [|n IH]; intros [|x xs] [|y ys];
    simpl; try discriminate.
  - intros H1 H2. injection H1 as ->. injection H2 as ->. reflexivity.
  - apply IH.
Qed.

Lemma rows_keep_labels (data out : list Row) :
  Forall2 (fun a b => b = set_code (code b) a) data out ->
  Forall2 (fun c d => c <> None -> d = c) (map code data) (map code out) ->
  Forall2 (fun a b => b = set_code (code b) a /\
                      (code a <> None -> code b = code a)) data out.
Proof.
  induction 1 as [|a b rest out Hab Hrows IH]; simpl; intros Hkeep;
    inversion Hkeep; subst; constructor; auto.
Qed.

(** With a column [code], [fill_code_column] changes no other column and no
    label that is there; every label of the result is a label of the
    input; and once one row is labelled, every row of the result is.
    Without the column, [streamlit_app.py] raises [KeyError] and [test.py]
    returns the frame as it is. *)
Theorem fill_code_column_labels (data : list Row) :
  StreamlitApp.fill_code_column true data
  = Ok (TestPy.fill_code_column true data) /\
  StreamlitApp.fill_code_column false data = Raise KeyError /\
  TestPy.fill_code_column false data = data /\
  Forall2 (fun a b => b = set_code (code b) a /\
                      (code a <> None -> code b = code a))
          data (TestPy.fill_code_column true data) /\
  (forall b c, In b (TestPy.fill_code_column true data) -> code b = Some c ->
               exists a, In a data /\ code a = Some c) /\
  (forall a, In a data -> code a <> None ->
             forall b, In b (TestPy.fill_code_column true data) ->
                       code b <> None).
Proof.
  unfold StreamlitApp.fill_code_column, TestPy.fill_code_column.
  split; [reflexivity|]. split; [reflexivity|]. split; [reflexivity|].
  destruct (assign_code (bfill (ffill (map code data))) data) as [Hrows Hcol].
  { rewrite length_bfill. unfold ffill. rewrite length_ffill_from.
    apply length_map. }
  split; [|split].
  - apply rows_keep_labels; [assumption|]. rewrite Hcol.
    apply bfill_ffill_keeps.
  - intros b c Hb Hc.
    assert (In (Some c) (map code data)) as Hin.
    { apply bfill_ffill_source. rewrite <- Hcol, <- Hc. apply in_map. assumption. }
    apply in_map_iff in Hin. destruct Hin as [a [Ha Hin]]. exists a. tauto.
  - intros a Ha Hlabel b Hb. destruct (code a) as [c|] eqn:Ec; [|congruence].
    assert (In (Some c) (map code data)) as Hin
        by (rewrite <- Ec; apply in_map; assumption).
    pose proof (bfill_ffill_complete _ _ _ Hin) as Hall.
    rewrite <- Hcol in Hall. rewrite Forall_forall in Hall.
    apply Hall. apply in_map. assumption.
Qed.

(** Which label a row gets: its own if it has one; otherwise that of the
    nearest labelled row before it; otherwise, for the rows before the first
    labelled one, that of the first labelled row. *)
Theorem fill_code_column_nearest_label (before after : list Row) (r : Row) :
  nth_error (TestPy.fill_code_column true (before ++ r :: after)) (length before)
  = Some (set_code (nearest_code before r after) r).
Proof.
  unfold TestPy.fill_code_column, nearest_code.
  apply nth_error_assign.
  - rewrite map_app. simpl map.
    rewrite <- (length_map code before). apply bfill_ffill_at.
  - rewrite nth_error_app2 by lia. rewrite Nat.sub_diag. reflexivity.
Qed.

(** In [station_frame] the two leading rows get the first label, the row
    after the first label repeats it, and the last row repeats the second
    label. *)
Example station_frame_labels :
  map code (TestPy.fill_code_column true station_frame)
  = [Some "CPY001"%string; Some "CPY001"%string; Some "CPY001"%string;
     Some "CPY001"%string; Some "CPY002"%string; Some "CPY002"%string].
Proof. reflexivity. Qed.

(** ** [merge_data] *)

Lemma merge_prev_rows (df1 df2 : list Row) :
  NoDup (map datetime df2) -> Forall2 (joined df2) df1 (merge_prev df1 df2).
Proof.
  intros Hu. induction df1 as [|a rest IH]; [constructor|].
  unfold merge_prev in *. simpl.
  destruct (filter (fun r => datetime r =? datetime a) df2) as [|m ms] eqn:E.
  - simpl. constructor; [|assumption]. right. split; [|reflexivity].
    intros m Hm Hd.
    assert (In m (filter (fun r => datetime r =? datetime a) df2)) as Hin
        by (apply filter_In; split; [assumption | apply Z.eqb_eq; assumption]).
    rewrite E in Hin. destruct Hin.
  - assert (In m (filter (fun r => datetime r =? datetime a) df2)) as Hin
        by (rewrite E; left; reflexivity).
    apply filter_In in Hin. destruct Hin as [Hm Hd]. apply Z.eqb_eq in Hd.
    pose proof (filter_key_single df2 m Hu Hm) as Hone. rewrite Hd in Hone.
    rewrite E in Hone. injection Hone as ->. simpl.
    constructor; [|assumption]. left. exists m. tauto.
Qed.

(** Without a second station the column [wl_up_prev] lags by one row of
    the cleaned selection, whatever time lies between the two rows, and the
    first row has none; nothing else changes. *)
Theorem merge_data_lags_by_row :
  (forall df1,
      Forall2 (fun a b => b = set_wl_up_prev (wl_up_prev b) a)
              df1 (TestPy.merge_data df1 None)) /\
  (forall a rest,
      nth_error (TestPy.merge_data (a :: rest) None) 0
      = Some (set_wl_up_prev None a)) /\
  (forall before a b after,
      nth_error (TestPy.merge_data (before ++ a :: b :: after) None)
                (S (length before))
      = Some (set_wl_up_prev (wl_up a) b)).
Proof.
  unfold TestPy.merge_data. split; [|split].
  - intros df1. pose proof (assign_wl_up_prev (shift1 (map wl_up df1)) df1) as H.
    rewrite length_shift1, length_map in H. specialize (H eq_refl).
    eapply Forall2_impl; [|exact H]. intros a b [c ->]. reflexivity.
  - intros a rest. reflexivity.
  - intros before a b after. apply nth_error_assign.
    + rewrite map_app. simpl map. unfold shift1.
      destruct (map wl_up before ++ wl_up a :: wl_up b :: map wl_up after)
        as [|x xs] eqn:E.
      { destruct (map wl_up before); discriminate. }
      rewrite <- E. rewrite removelast_app by discriminate.
      change (nth_error (map wl_up before
                         ++ removelast (wl_up a :: wl_up b :: map wl_up after))
                        (length before) = Some (wl_up a)).
      rewrite nth_error_app2 by (rewrite length_map; lia).
      rewrite length_map, Nat.sub_diag. reflexivity.
    + rewrite nth_error_app2 by lia.
      replace (S (length before) - length before)%nat with 1%nat by lia.
      reflexivity.
Qed.

(** In [gap_frame] the reading of 5:00 gets the reading of 0:15 as its
    previous value. *)
Example gap_frame_lag :
  map wl_up_prev (TestPy.merge_data gap_frame None)
  = [None; Some 200%Q; Some 210%Q].
Proof. reflexivity. Qed.

(** With a second station that has one row per stamp, [merge_data] keeps
    the rows of the first station, in number and order, and gives each the
    value of the second station at its stamp as [wl_up_prev], or none when
    the second station has no row there. *)
Theorem merge_data_second_station (df1 df2 : list Row) :
  is_unique (map datetime df2) = true ->
  Forall2 (joined df2) df1 (TestPy.merge_data df1 (Some df2)).
Proof.
  intros Hu. apply is_unique_NoDup in Hu. apply merge_prev_rows. assumption.
Qed.

Lemma merge_data_second_station_witness :
  Forall2 (joined upstream_frame) gap_frame
          (TestPy.merge_data gap_frame (Some upstream_frame)).
Proof.
  apply (merge_data_second_station gap_frame upstream_frame).
  vm_compute. reflexivity.
Defined.

(** A stamp that the second station reports twice doubles the row of the
    first station. *)
Example repeated_upstream_stamp_doubles_row :
  map (fun r => (datetime r, wl_up r, wl_up_prev r))
      (TestPy.merge_data single_frame (Some twin_frame))
  = [(minutes 0, Some 200%Q, Some 200%Q); (minutes 0, Some 200%Q, Some 300%Q)].
Proof. reflexivity. Qed.

(** ** Metrics on columns with absent values *)

Lemma check_array_absent (y : list (option Q)) :
  In None y -> check_array y = Raise ValueError.
Proof.
  induction y as [|[v|] rest IH]; simpl; intros H; [contradiction | | reflexivity].
  destruct H as [H | H]; [discriminate|]. rewrite (IH H). reflexivity.
Qed.

Lemma check_array_cases (y : list (option Q)) :
  (exists vs, check_array y = Ok vs) \/ check_array y = Raise ValueError.
Proof.
  induction y as [|[v|] rest IH]; simpl.
  - left. exists []. reflexivity.
  - destruct IH as [[vs ->] | ->]; [left; exists (v :: vs) | right]; reflexivity.
  - right. reflexivity.
Qed.

Lemma check_targets_absent (y_true y_pred : list (option Q)) :
  In None y_true \/ In None y_pred ->
  check_targets y_true y_pred = Raise ValueError.
Proof.
  intros H. unfold check_targets.
  destruct (negb (length y_true =? length y_pred)%nat); [reflexivity|].
  destruct (check_array_cases y_true) as [[vs Hv] | Hv]; rewrite Hv;
    [|reflexivity].
  cbn [bind]. destruct H as [H | H].
  - rewrite (check_array_absent _ H) in Hv. discriminate.
  - rewrite (check_array_absent _ H). reflexivity.
Qed.



(** ** The frame the scripts hand to the orchestrator *)

Lemma calendars_follow_stamps (calendar_of : Z -> Calendar) (frame : list Row) :
  with_calendar calendar_of frame -> weeks_follow_stamps frame = true.
Proof.
  intros H. unfold weeks_follow_stamps. apply forallb_forall. intros a Ha.
  apply forallb_forall. intros b Hb.
  destruct (datetime a =? datetime b) eqn:E; [|reflexivity]. simpl.
  apply Z.eqb_eq in E. apply same_cell_eq. unfold week_of.
  rewrite (H a Ha), (H b Hb), E. reflexivity.
Qed.

Lemma with_calendar_between (calendar_of : Z -> Calendar) (s e : Z)
      (frame : list Row) :
  with_calendar calendar_of frame -> with_calendar calendar_of (between s e frame).
Proof.
  intros H r Hr. unfold between in Hr. apply filter_In in Hr. apply H. tauto.
Qed.

Lemma with_calendar_rows (calendar_of : Z -> Calendar) (l l' : list Row) :
  with_calendar calendar_of l ->
  Forall2 (fun a b => datetime b = datetime a /\ calendar b = calendar a) l l' ->
  with_calendar calendar_of l'.
Proof.
  intros H HF b Hb. destruct (Forall2_in_right _ _ _ _ _ b HF Hb) as [a [Ha [Hd Hc]]].
  rewrite Hd, Hc. apply H. assumption.
Qed.

Lemma basic_delete_rows (data : list Row) (s e : Z) :
  Forall2 (fun a b => datetime b = datetime a /\ calendar b = calendar a)
          data (fst (StreamlitApp.delete_data_by_date_range data s e)).
Proof.
  unfold StreamlitApp.delete_data_by_date_range.
  destruct (negb (length (between s e data) =? 0)%nat); simpl.
  - apply (Forall2_map_right _ _ _ eq); [|apply Forall2_same].
    intros a b <-. destruct ((s <=? datetime a) && (datetime a <=? e));
      split; reflexivity.
  - eapply Forall2_impl; [|apply Forall2_same]. intros a b <-. tauto.
Qed.

Lemma extended_delete_rows (data : list Row) (s e : Z) :
  Forall2 (fun a b => datetime b = datetime a /\ calendar b = calendar a)
          data (fst (TestPy.delete_data_by_date_range data s e)).
Proof.
  unfold TestPy.delete_data_by_date_range.
  destruct (length (between s e data) =? 0)%nat; simpl.
  - eapply Forall2_impl; [|apply Forall2_same]. intros a b <-. tauto.
  - destruct (TestPy.over_30_percent _ _); simpl.
    + eapply Forall2_impl; [|apply Forall2_same]. intros a b <-. tauto.
    + apply (Forall2_map_right _ _ _ eq); [|apply Forall2_same].
      intros a b <-. destruct ((s <=? datetime a) && (datetime a <=? e));
      split; reflexivity.
Qed.

Lemma fill_code_rows (col : list (option string)) (frame : list Row) :
  length col = length frame ->
  Forall2 (fun a b => datetime b = datetime a /\ calendar b = calendar a)
          frame (assign set_code col frame).
Proof.
  intros H. destruct (assign_code col frame H) as [Hrows _].
  eapply Forall2_impl; [|exact Hrows]. intros a b ->. tauto.
Qed.

Lemma length_bfill_ffill_code (frame : list Row) :
  length (bfill (ffill (map code frame))) = length frame.
Proof.
  rewrite length_bfill. unfold ffill. rewrite length_ffill_from. apply length_map.
Qed.

Lemma stamps_of_rows (l l' : list Row) :
  Forall2 (fun a b => datetime b = datetime a /\ calendar b = calendar a) l l' ->
  map datetime l' = map datetime l.
Proof.
  intros H. apply Forall2_map_eq. eapply Forall2_impl; [|exact H].
  intros a b [Hd _]. exact Hd.
Qed.

(** The window of a gridded frame with calendars: the orchestrator's own
    gridding returns it, and a never-filled row of it is in a week with at
    most 288 missing rows and no present row. *)
Lemma gridded_window (s e : Z) (frame grid : list Row) :
  gridded (map datetime frame) = true ->
  generate_missing_dates (between s e frame) = Ok grid ->
  grid = between s e frame.
Proof.
  intros Hg Hgrid.
  destruct (between s e frame) as [|r rs] eqn:E; [discriminate|].
  rewrite <- E in *. rewrite regrid_of_grid in Hgrid.
  - congruence.
  - rewrite between_stamps. apply gridded_filter_interval. assumption.
  - rewrite E. discriminate.
Qed.

Lemma never_filled_with_calendar (calendar_of : Z -> Calendar) (window : list Row)
      (a : Row) :
  with_calendar calendar_of window ->
  In a (filter (fun r => isnull (wl_up r)) window) ->
  never_filled window a -> in_idle_week window a.
Proof.
  intros Hcal Ha Hnever. pose proof Ha as Hin. apply filter_In in Hin.
  destruct Hin as [Hin _].
  assert (week_of a = Some (week_of_year (calendar_of (datetime a)))) as Hw
      by (unfold week_of; rewrite (Hcal a Hin); reflexivity).
  destruct Hnever as [Hnone | [Hfewer Hempty]]; [congruence|].
  exists (week_of_year (calendar_of (datetime a))). rewrite Hw in Hfewer, Hempty.
  tauto.
Qed.

Section BasicScript.

Variable Model : Type.
Variable search_fit : list (list (option Q)) -> list (option Q) -> result Model.
Variable predict : Model -> list (option Q) -> result Q.
Variable calendar_of : Z -> Calendar.

(** The frame [streamlit_app.py] passes to its orchestrator. *)
Lemma basic_process_inv (has_code : bool) (df_clean : list Row)
      (ds de s e : Z) (out : list Row) (shown : list StreamlitApp.message) :
  StreamlitApp.process Model search_fit predict calendar_of has_code df_clean
    ds de s e = Ok (out, shown) ->
  exists grid frame,
    generate_missing_dates df_clean = Ok grid /\
    map datetime frame = map datetime grid /\
    with_calendar calendar_of frame /\
    StreamlitApp.handle_missing_values_by_week Model search_fit predict
      frame s e = Ok out.
Proof.
  unfold StreamlitApp.process. intros H.
  apply bind_Ok_inv in H. destruct H as [grid [Hgrid H]].
  apply bind_Ok_inv in H. destruct H as [coded [Hcoded H]].
  unfold StreamlitApp.fill_code_column in Hcoded.
  destruct has_code; [|discriminate]. injection Hcoded as <-.
  set (featured := StreamlitApp.create_time_features calendar_of _) in H.
  pose proof (basic_delete_rows featured ds de) as Hdel.
  destruct (StreamlitApp.delete_data_by_date_range featured ds de)
    as [frame shown'] eqn:E.
  simpl in Hdel. apply bind_Ok_inv in H. destruct H as [handled [Hhandled H]].
  injection H as <- <-.
  assert (with_calendar calendar_of featured) as Hcal.
  { intros r Hr. unfold featured, StreamlitApp.create_time_features in Hr.
    apply in_map_iff in Hr. destruct Hr as [a [<- _]]. reflexivity. }
  exists grid, frame. split; [assumption|]. split; [|split].
  - rewrite (stamps_of_rows _ _ Hdel). unfold featured,
      StreamlitApp.create_time_features.
    rewrite map_map. simpl.
    apply (stamps_of_rows grid).
    apply fill_code_rows. apply length_bfill_ffill_code.
  - apply (with_calendar_rows _ featured); assumption.
  - assumption.
Qed.

End BasicScript.

(** ** What the script of [streamlit_app.py] leaves missing *)

(** In [streamlit_app.py], for a cleaned selection without repeated stamps:
    whenever the chain run by the button returns, the frame it passed to
    the orchestrator was gridded and had its calendar columns computed from
    the stamps, so the gridding inside the orchestrator added no row, every
    row had a week, and rows with the same stamp had the same week; and a
    row of the result without a value lies in a week of the window that has
    at most 288 missing rows and not one present row.  Every other gap of
    the window, deleted or not recorded, was filled. *)
Theorem basic_script_fills_all_but_idle_weeks
        (Model : Type)
        (search_fit : list (list (option Q)) -> list (option Q) -> result Model)
        (predict : Model -> list (option Q) -> result Q)
        (calendar_of : Z -> Calendar) (has_code : bool) (df_clean : list Row)
        (delete_start_datetime delete_end_datetime start_date end_date : Z)
        (out : list Row) (shown : list StreamlitApp.message) :
  is_unique (map datetime df_clean) = true ->
  StreamlitApp.process Model search_fit predict calendar_of has_code df_clean
    delete_start_datetime delete_end_datetime start_date end_date
  = Ok (out, shown) ->
  exists frame,
    StreamlitApp.handle_missing_values_by_week Model search_fit predict
      frame start_date end_date = Ok out /\
    with_calendar calendar_of frame /\
    weeks_follow_stamps (between start_date end_date frame) = true /\
    generate_missing_dates (between start_date end_date frame)
    = Ok (between start_date end_date frame) /\
    forall r, In r out -> wl_up r = None ->
              in_idle_week (between start_date end_date frame) r.
Proof.
  intros Hu H.
  destruct (basic_process_inv _ _ _ _ _ _ _ _ _ _ _ _ H)
    as [grid [frame [Hgrid [Hstamps [Hcal Hhandled]]]]].
  exists frame. split; [assumption|]. split; [assumption|].
  pose proof (with_calendar_between _ start_date end_date _ Hcal) as Hwin.
  split; [apply (calendars_follow_stamps calendar_of); assumption|].
  destruct (grid_is_gridded _ _ Hu Hgrid) as [Hgridded _].
  rewrite <- Hstamps in Hgridded.
  destruct (basic_handle_passes _ _ _ _ _ _ _ Hhandled) as [inner [Hinner _]].
  pose proof (gridded_window _ _ _ _ Hgridded Hinner) as ->.
  split; [assumption|]. intros r Hr Hnone.
  destruct (basic_rows_left_missing _ _ _ _ _ _ _ _ r Hinner Hhandled Hr Hnone)
    as [Hmissing Hnever].
  apply (never_filled_with_calendar calendar_of); assumption.
Qed.

Section ExtendedScript.

Variable Model : Type.
Variable search_fit : list (list (option Q)) -> list (option Q) -> result Model.
Variable predict : Model -> list (option Q) -> result Q.
Variable now : nat -> Z.
Variable calendar_of : Z -> Calendar.

Lemma merge_data_stamps (df1 : list Row) (df2 : option (list Row)) :
  match df2 with
  | Some station => is_unique (map datetime station) = true
  | None => True
  end ->
  map datetime (TestPy.merge_data df1 df2) = map datetime df1.
Proof.
  intros Hu. apply Forall2_map_eq. destruct df2 as [station|]; simpl.
  - apply is_unique_NoDup in Hu.
    eapply Forall2_impl; [|apply (merge_prev_rows df1 station Hu)].
    intros a b [[m [_ [_ ->]]] | [_ ->]]; reflexivity.
  - pose proof (assign_wl_up_prev (shift1 (map wl_up df1)) df1) as H.
    rewrite length_shift1, length_map in H. specialize (H eq_refl).
    eapply Forall2_impl; [|exact H]. intros a b [c ->]. reflexivity.
Qed.

(** The frame [test.py] passes to its orchestrator. *)
Lemma extended_process_inv (has_code : bool) (df_clean : list Row)
      (df2_clean : option (list Row)) (delete_data_option : bool)
      (ds de s e : Z) (out : list Row) (shown : list TestPy.message) :
  match df2_clean with
  | Some station => is_unique (map datetime station) = true
  | None => True
  end ->
  TestPy.process Model search_fit predict now calendar_of has_code df_clean
    df2_clean delete_data_option ds de s e = Ok (out, shown) ->
  exists deleted grid frame,
    map datetime deleted = map datetime df_clean /\
    generate_missing_dates deleted = Ok grid /\
    map datetime frame = map datetime grid /\
    with_calendar calendar_of frame /\
    TestPy.handle_missing_values_by_week Model search_fit predict now true
      frame s e = Ok out.
Proof.
  unfold TestPy.process. intros Hu H.
  pose proof (merge_data_stamps df_clean df2_clean Hu) as Hmerged.
  set (merged_frame := TestPy.merge_data df_clean df2_clean) in *.
  assert (exists deleted shown',
             (if delete_data_option
              then TestPy.delete_data_by_date_range merged_frame ds de
              else (merged_frame, [])) = (deleted, shown') /\
             map datetime deleted = map datetime merged_frame)
    as [deleted [shown' [E Hdeleted]]].
  { destruct delete_data_option.
    - pose proof (extended_delete_rows merged_frame ds de) as Hdel.
      destruct (TestPy.delete_data_by_date_range merged_frame ds de)
        as [deleted shown'].
      exists deleted, shown'. split; [reflexivity|].
      apply stamps_of_rows. assumption.
    - exists merged_frame, []. tauto. }
  rewrite E in H.
  apply bind_Ok_inv in H. destruct H as [grid [Hgrid H]].
  apply bind_Ok_inv in H. destruct H as [handled [Hhandled H]].
  injection H as <- <-.
  set (coded := TestPy.fill_code_column has_code grid) in *.
  set (featured := TestPy.create_time_features calendar_of coded) in *.
  set (frame := assign set_wl_up_prev (interpolate (map wl_up_prev featured))
                       featured) in *.
  assert (Forall2 (fun a b => datetime b = datetime a /\ calendar b = calendar a)
                  grid coded) as Hcoded.
  { unfold coded, TestPy.fill_code_column. destruct has_code.
    - apply fill_code_rows. apply length_bfill_ffill_code.
    - eapply Forall2_impl; [|apply Forall2_same]. intros a b <-. tauto. }
  assert (with_calendar calendar_of featured) as Hcal.
  { intros r Hr. unfold featured, TestPy.create_time_features in Hr.
    apply in_map_iff in Hr. destruct Hr as [a [<- _]]. reflexivity. }
  assert (Forall2 (fun a b => datetime b = datetime a /\ calendar b = calendar a)
                  featured frame) as Hframe.
  { unfold frame.
    pose proof (assign_wl_up_prev (interpolate (map wl_up_prev featured)) featured)
      as Hrows.
    rewrite length_interpolate, length_map in Hrows. specialize (Hrows eq_refl).
    eapply Forall2_impl; [|exact Hrows]. intros a b [c ->]. split; reflexivity. }
  exists deleted, grid, frame. split; [congruence|]. split; [assumption|].
  split; [|split].
  - rewrite (stamps_of_rows _ _ Hframe). unfold featured,
      TestPy.create_time_features.
    rewrite map_map. simpl. apply (stamps_of_rows grid). assumption.
  - apply (with_calendar_rows _ featured); assumption.
  - assumption.
Qed.

End ExtendedScript.

(** ** What the script of [test.py] leaves missing *)

(** In [test.py], for a cleaned selection without repeated stamps and, when
    a second station is used, one without repeated stamps either: whenever
    the chain run by the button returns, the frame it passed to the
    orchestrator was gridded and had its calendar columns computed from
    the stamps, so the gridding inside the orchestrator added no row and
    rows with the same stamp had the same week; and a row of the result
    with neither a value nor a forecast has the stamp of a missing row in a
    week of the window that has at most 288 missing rows and not one
    present row.  Every other gap of the window has a forecast. *)
Theorem extended_script_fills_all_but_idle_weeks
        (Model : Type)
        (search_fit : list (list (option Q)) -> list (option Q) -> result Model)
        (predict : Model -> list (option Q) -> result Q)
        (now : nat -> Z) (calendar_of : Z -> Calendar)
        (has_code : bool) (df_clean : list Row) (df2_clean : option (list Row))
        (delete_data_option : bool)
        (delete_start_datetime delete_end_datetime start_date end_date : Z)
        (out : list Row) (shown : list TestPy.message) :
  is_unique (map datetime df_clean) = true ->
  match df2_clean with
  | Some station => is_unique (map datetime station) = true
  | None => True
  end ->
  TestPy.process Model search_fit predict now calendar_of has_code df_clean
    df2_clean delete_data_option
    delete_start_datetime delete_end_datetime start_date end_date
  = Ok (out, shown) ->
  exists frame,
    TestPy.handle_missing_values_by_week Model search_fit predict now true
      frame start_date end_date = Ok out /\
    with_calendar calendar_of frame /\
    weeks_follow_stamps (between start_date end_date frame) = true /\
    generate_missing_dates (between start_date end_date frame)
    = Ok (between start_date end_date frame) /\
    forall r, In r out -> wl_up r = None -> wl_forecast r = None ->
              exists a, in_idle_week (between start_date end_date frame) a /\
                        datetime r = datetime a.
Proof.
  intros Hu Hstation H.
  destruct (extended_process_inv _ _ _ _ _ _ _ _ _ _ _ _ _ _ _ Hstation H)
    as [deleted [grid [frame [Hdeleted [Hgrid [Hstamps [Hcal Hhandled]]]]]]].
  exists frame. split; [assumption|]. split; [assumption|].
  pose proof (with_calendar_between _ start_date end_date _ Hcal) as Hwin.
  split; [apply (calendars_follow_stamps calendar_of); assumption|].
  rewrite <- Hdeleted in Hu.
  destruct (grid_is_gridded _ _ Hu Hgrid) as [Hgridded _].
  rewrite <- Hstamps in Hgridded.
  destruct (extended_handle_passes _ _ _ _ _ _ _ _ _ Hhandled)
    as [inner [frame0 [Hinner _]]].
  pose proof (gridded_window _ _ _ _ Hgridded Hinner) as ->.
  split; [assumption|]. intros r Hr Hnone Hforecast.
  destruct (extended_rows_left_missing _ _ _ _ _ _ _ _ _ _ r
              Hinner Hhandled Hr Hnone Hforecast)
    as [a [Hmissing [Hnever Hd]]].
  exists a. split; [|assumption].
  apply (never_filled_with_calendar calendar_of); assumption.
Qed.

Lemma ok_value_of (A : Type) (default : A) (r : result A) :
  is_ok r = true -> r = Ok (value_of default r).
Proof. destruct r; [reflexivity | discriminate]. Qed.

Lemma cleaned_frame_unique : is_unique (map datetime cleaned_frame) = true.
Proof. vm_compute. reflexivity. Qed.

(** Both chains return on [cleaned_frame]: the two deleted slots of week 19
    are filled from its ten remaining readings, the two slots of week 20
    stay missing. *)
Example chains_on_cleaned_frame :
  map wl_up (fst (value_of ([], []) basic_chain))
  = repeat (Some 250%Q) 10 ++ [Some 10%Q; Some 10%Q; None; None] /\
  map (fun r => (wl_up r, wl_forecast r)) (fst (value_of ([], []) extended_chain))
  = repeat (Some 250%Q, None) 10
    ++ [(None, Some 10%Q); (None, Some 10%Q); (None, None); (None, None)].
Proof. vm_compute. split; reflexivity. Qed.

Lemma basic_script_fills_all_but_idle_weeks_witness :
  exists frame,
    StreamlitApp.handle_missing_values_by_week nat fit_size predict_size
      frame tail_start tail_end = Ok (fst (value_of ([], []) basic_chain)) /\
    with_calendar may_calendar_of frame /\
    weeks_follow_stamps (between tail_start tail_end frame) = true /\
    generate_missing_dates (between tail_start tail_end frame)
    = Ok (between tail_start tail_end frame) /\
    forall r, In r (fst (value_of ([], []) basic_chain)) -> wl_up r = None ->
              in_idle_week (between tail_start tail_end frame) r.
Proof.
  apply (basic_script_fills_all_but_idle_weeks
           nat fit_size predict_size may_calendar_of true cleaned_frame
           cut_start tail_end tail_start tail_end
           (fst (value_of ([], []) basic_chain))
           (snd (value_of ([], []) basic_chain)) cleaned_frame_unique).
  rewrite <- surjective_pairing. apply ok_value_of. vm_compute. reflexivity.
Defined.

Lemma extended_script_fills_all_but_idle_weeks_witness :
  exists frame,
    TestPy.handle_missing_values_by_week nat fit_size predict_size tick_clock true
      frame tail_start tail_end = Ok (fst (value_of ([], []) extended_chain)) /\
    with_calendar may_calendar_of frame /\
    weeks_follow_stamps (between tail_start tail_end frame) = true /\
    generate_missing_dates (between tail_start tail_end frame)
    = Ok (between tail_start tail_end frame) /\
    forall r, In r (fst (value_of ([], []) extended_chain)) ->
              wl_up r = None -> wl_forecast r = None ->
              exists a, in_idle_week (between tail_start tail_end frame) a /\
                        datetime r = datetime a.
Proof.
  apply (extended_script_fills_all_but_idle_weeks
           nat fit_size predict_size tick_clock may_calendar_of true
           cleaned_frame None true cut_start tail_end tail_start tail_end
           (fst (value_of ([], []) extended_chain))
           (snd (value_of ([], []) extended_chain)) cleaned_frame_unique I).
  rewrite <- surjective_pairing. apply ok_value_of. vm_compute. reflexivity.
Defined.

(** ** [smooth_filled_values] *)

Lemma convex_within (lo hi a b t : Q) :
  (lo <= a -> a <= hi -> lo <= b -> b <= hi -> 0 <= t -> t <= 1 ->
   lo <= a + (b - a) * t /\ a + (b - a) * t <= hi)%Q.
Proof. intros. split; nra. Qed.

Lemma fraction_in_unit (d n : Z) :
  0 <= d -> d <= n -> 0 < n ->
  (0 <= inject_Z d / inject_Z n /\ inject_Z d / inject_Z n <= 1)%Q.
Proof.
  intros Hd Hdn Hn.
  assert (0 < inject_Z n)%Q as Hpos
      by (change 0%Q with (inject_Z 0); rewrite <- Zlt_Qlt; exact Hn).
  split.
  - apply Qle_shift_div_l; [assumption|]. rewrite Qmult_0_l.
    change 0%Q with (inject_Z 0). rewrite <- Zle_Qle. assumption.
  - apply Qle_shift_div_r; [assumption|]. rewrite Qmult_1_l.
    rewrite <- Zle_Qle. assumption.
Qed.

Lemma next_valid_within (lo hi : Q) (col : list (option Q)) (e : nat) (b : Q) :
  Forall (within lo hi) col -> next_valid col = Some (e, b) ->
  (lo <= b /\ b <= hi)%Q.
Proof.
  intros H. revert e. induction H as [|[v|] rest Hc H IH]; simpl; intros e E;
    [discriminate | |].
  - injection E as _ <-. exact Hc.
  - destruct (next_valid rest) as [[d x]|]; [|discriminate].
    injection E as _ <-. apply (IH d). reflexivity.
Qed.

(** Linear interpolation stays between the bounds of the valid cells. *)
Lemma interpolate_from_within (lo hi : Q) (col : list (option Q))
      (prev : option (Q * nat)) :
  Forall (within lo hi) col ->
  match prev with
  | Some (a, _) => (lo <= a /\ a <= hi)%Q
  | None => True
  end ->
  Forall (within lo hi) (interpolate_from prev col).
Proof.
  intros H. revert prev. induction H as [|[v|] rest Hc H IH]; intros prev Hprev;
    simpl; [constructor | |].
  - constructor; [exact Hc|]. apply IH. exact Hc.
  - destruct prev as [[a d]|].
    + constructor; [|apply IH; exact Hprev].
      destruct (next_valid rest) as [[e b]|] eqn:E; [|exact Hprev].
      destruct (next_valid_within lo hi rest e b H E) as [Hb1 Hb2].
      destruct Hprev as [Ha1 Ha2].
      destruct (fraction_in_unit (Z.of_nat d) (Z.of_nat (d + e + 1)))
        as [Ht1 Ht2]; try lia.
      simpl.
      assert ((a + (b - a) * inject_Z (Z.of_nat d)
                   / inject_Z (Z.of_nat (d + e + 1))
               == a + (b - a) * (inject_Z (Z.of_nat d)
                                 / inject_Z (Z.of_nat (d + e + 1))))%Q) as ->
          by (unfold Qdiv; ring).
      apply convex_within; assumption.
    + constructor; [exact I|]. apply IH. exact I.
Qed.

(** After a valid cell the interpolation leaves no absent cell, so only a
    leading run of absent cells stays. *)
Lemma interpolate_from_valid (p : Q * nat) (col : list (option Q)) :
  Forall (fun c => c <> None) (interpolate_from (Some p) col).
Proof.
  revert p. induction col as [|[v|] rest IH]; intros [a d]; simpl; constructor;
    auto; discriminate.
Qed.

Lemma interpolate_shape (col : list (option Q)) :
  exists tail,
    interpolate col = repeat None (leading_absent col) ++ tail /\
    Forall (fun c => c <> None) tail.
Proof.
  unfold interpolate. induction col as [|[v|] rest [tail [E Htail]]]; simpl.
  - exists []. split; [reflexivity | constructor].
  - exists (Some v :: interpolate_from (Some (v, 1%nat)) rest). split; [reflexivity|].
    constructor; [discriminate | apply interpolate_from_valid].
  - exists tail. rewrite E. tauto.
Qed.

Lemma valid_cells_absent (cells : list (option Q)) :
  Forall (fun c => c = None) cells -> valid_cells cells = [].
Proof.
  induction 1 as [|c rest Hc H IH]; [reflexivity|]. subst c. exact IH.
Qed.

Lemma in_valid_cells (cells : list (option Q)) (v : Q) :
  In v (valid_cells cells) <-> In (Some v) cells.
Proof.
  unfold valid_cells. rewrite in_flat_map. split.
  - intros [[x|] [Hin Hv]]; simpl in Hv; [|contradiction].
    destruct Hv as [-> | []]. assumption.
  - intros H. exists (Some v). split; [assumption | left; reflexivity].
Qed.

Lemma Qsum_within (lo hi : Q) (vs : list Q) :
  Forall (fun v => lo <= v /\ v <= hi)%Q vs ->
  (inject_Z (Z.of_nat (length vs)) * lo <= Qsum vs /\
   Qsum vs <= inject_Z (Z.of_nat (length vs)) * hi)%Q.
Proof.
  induction 1 as [|v rest [Hv1 Hv2] H [IH1 IH2]].
  - simpl. split; rewrite Qmult_0_l; apply Qle_refl.
  - change (Qsum (v :: rest)) with (v + Qsum rest)%Q.
    replace (Z.of_nat (length (v :: rest))) with (1 + Z.of_nat (length rest))
      by (simpl length; lia).
    rewrite inject_Z_plus. change (inject_Z 1) with 1%Q. split; lra.
Qed.

Lemma Qmean_within (lo hi : Q) (vs : list Q) :
  vs <> [] -> Forall (fun v => lo <= v /\ v <= hi)%Q vs ->
  (lo <= Qmean vs /\ Qmean vs <= hi)%Q.
Proof.
  intros Hne H. destruct (Qsum_within lo hi vs H) as [H1 H2]. unfold Qmean.
  assert (0 < inject_Z (Z.of_nat (length vs)))%Q as Hpos.
  { change 0%Q with (inject_Z 0). rewrite <- Zlt_Qlt.
    destruct vs; [congruence | simpl length; lia]. }
  split.
  - apply Qle_shift_div_l; [assumption|]. rewrite Qmult_comm. assumption.
  - apply Qle_shift_div_r; [assumption|]. rewrite Qmult_comm. assumption.
Qed.

Lemma window_mean_within (lo hi : Q) (cells : list (option Q)) :
  Forall (within lo hi) cells -> within lo hi (window_mean cells).
Proof.
  intros H. unfold window_mean.
  destruct (valid_cells cells) as [|v vs] eqn:E; [exact I|].
  apply Qmean_within; [discriminate|]. rewrite <- E. apply Forall_forall.
  intros x Hx. apply in_valid_cells in Hx. rewrite Forall_forall in H.
  apply (H (Some x) Hx).
Qed.

Lemma in_firstn (A : Type) (n : nat) (l : list A) (x : A) :
  In x (firstn n l) -> In x l.
Proof.
  revert l. induction n as [|n IH]; intros [|y ys]; simpl; try tauto.
  intros [H | H]; auto.
Qed.

Lemma Forall_firstn_of (A : Type) (P : A -> Prop) (n : nat) (l : list A) :
  Forall P l -> Forall P (firstn n l).
Proof.
  rewrite !Forall_forall. intros H x Hx. apply H. apply (in_firstn _ n). assumption.
Qed.

Lemma length_rolling_from (window : nat) (seen col : list (option Q)) :
  length (rolling_from window seen col) = length col.
Proof.
  revert seen. induction col as [|c rest IH]; intros seen; simpl;
    [reflexivity | rewrite IH; reflexivity].
Qed.

Lemma rolling_from_within (lo hi : Q) (window : nat) (seen col : list (option Q)) :
  Forall (within lo hi) seen -> Forall (within lo hi) col ->
  Forall (within lo hi) (rolling_from window seen col).
Proof.
  intros Hseen H. revert seen Hseen.
  induction H as [|c rest Hc H IH]; intros seen Hseen; simpl; [constructor|].
  assert (Forall (within lo hi) (firstn window (c :: seen))) as Hcells
      by (apply Forall_firstn_of; constructor; assumption).
  constructor; [apply window_mean_within; assumption|].
  apply IH. assumption.
Qed.

(** A window of at least one cell has a mean at every valid cell. *)
Lemma rolling_from_valid (window : nat) (seen col : list (option Q)) :
  (1 <= window)%nat -> Forall (fun c => c <> None) col ->
  Forall (fun c => c <> None) (rolling_from window seen col).
Proof.
  intros Hw H. revert seen.
  induction H as [|c rest Hc H IH]; intros seen; simpl; [constructor|].
  constructor; [|apply IH].
  destruct c as [v|]; [|congruence]. destruct window as [|w]; [lia|].
  simpl. unfold window_mean. simpl. discriminate.
Qed.

(** While every cell so far is absent, so is the mean. *)
Lemma rolling_from_absent (window : nat) (seen tail : list (option Q)) (k : nat) :
  Forall (fun c => c = None) seen ->
  exists seen',
    Forall (fun c => c = None) seen' /\
    rolling_from window seen (repeat None k ++ tail)
    = repeat None k ++ rolling_from window seen' tail.
Proof.
  revert seen. induction k as [|k IH]; intros seen Hseen; simpl.
  - exists seen. tauto.
  - assert (Forall (fun c : option Q => c = None) (firstn window (None :: seen)))
      as Hcells by (apply Forall_firstn_of; constructor; [reflexivity | assumption]).
    destruct (IH _ Hcells) as [seen' [Hseen' E]]. exists seen'.
    split; [assumption|]. rewrite E. unfold window_mean.
    rewrite (valid_cells_absent _ Hcells). reflexivity.
Qed.

Lemma map_assign (A : Type) (get : Row -> A) (set : A -> Row -> Row)
      (col : list A) (frame : list Row) :
  (forall c r, get (set c r) = c) -> length col = length frame ->
  map get (assign set col frame) = col.
Proof.
  intros Hget. unfold assign. revert frame.
  induction col as [|c cs IH]; intros [|r rs] H; simpl in *; try discriminate;
    [reflexivity|]. rewrite Hget, IH by lia. reflexivity.
Qed.

Lemma assign_wl_up (col : list (option Q)) (frame : list Row) :
  length col = length frame ->
  Forall2 (fun a b => b = set_wl_up (wl_up b) a) frame (assign set_wl_up col frame).
Proof.
  unfold assign. revert col. induction frame as [|r rs IH]; intros [|c cs] H;
    simpl in *; try discriminate; constructor.
  - reflexivity.
  - apply IH. lia.
Qed.

Lemma set_wl_up_chain (data mid out : list Row) :
  Forall2 (fun a b => b = set_wl_up (wl_up b) a) data mid ->
  Forall2 (fun a b => b = set_wl_up (wl_up b) a) mid out ->
  Forall2 (fun a b => b = set_wl_up (wl_up b) a) data out.
Proof.
  intros H. revert out. induction H as [|a m rest mids Ham H IH]; intros out H2;
    inversion H2 as [|? b ? outs Hmb H2']; subst; constructor; [|auto].
  rewrite Hmb at 1. rewrite Ham. reflexivity.
Qed.

Lemma valid_column (col : list (option Q)) (lo hi : Q) :
  Forall (fun c => c <> None) col -> Forall (within lo hi) col ->
  exists vs, col = map Some vs /\ Forall (fun v => lo <= v /\ v <= hi)%Q vs.
Proof.
  induction 1 as [|[v|] rest Hc H IH]; intros Hin; inversion Hin; subst.
  - exists []. split; [reflexivity | constructor].
  - destruct (IH H3) as [vs [-> Hvs]]. exists (v :: vs).
    split; [reflexivity | constructor; assumption].
  - congruence.
Qed.

(** For a window of at least one row, [smooth_filled_values] returns; it
    changes no column but [wl_up]; the rows before the first reading stay
    without a value and every row from the first reading on has one, so
    every gap after it is closed; and every value of the result lies
    between the bounds of the readings that were there. *)
Theorem smooth_filled_values_closes_gaps_within_bounds
        (data : list Row) (window_size : nat) (lo hi : Q) :
  (1 <= window_size)%nat ->
  (forall r v, In r data -> wl_up r = Some v -> (lo <= v /\ v <= hi)%Q) ->
  exists out vs,
    TestPy.smooth_filled_values data window_size = Ok out /\
    Forall2 (fun a b => b = set_wl_up (wl_up b) a) data out /\
    map wl_up out = repeat None (leading_absent (map wl_up data)) ++ map Some vs /\
    Forall (fun v => lo <= v /\ v <= hi)%Q vs.
Proof.
  intros Hw Hbounds. unfold TestPy.smooth_filled_values, rolling_mean.
  assert ((window_size <? 1)%nat = false) as -> by (apply Nat.ltb_ge; assumption).
  cbn [bind].
  assert (length (interpolate (map wl_up data)) = length data) as Hlen
      by (rewrite length_interpolate; apply length_map).
  rewrite (map_assign _ wl_up set_wl_up _ _ (fun c r => eq_refl) Hlen).
  set (smoothed := rolling_from window_size [] (interpolate (map wl_up data))).
  assert (length smoothed
          = length (assign set_wl_up (interpolate (map wl_up data)) data))
    as Hlen2.
  { unfold smoothed. rewrite length_rolling_from, Hlen. unfold assign.
    rewrite length_map, length_combine, Hlen. lia. }
  assert (Forall (within lo hi) (map wl_up data)) as Hcol.
  { apply Forall_forall. intros c Hc. apply in_map_iff in Hc.
    destruct Hc as [r [<- Hr]]. destruct (wl_up r) as [v|] eqn:E; [|exact I].
    apply (Hbounds r v Hr E). }
  assert (Forall (within lo hi) smoothed) as Hsmooth.
  { unfold smoothed. apply rolling_from_within; [constructor|].
    apply (interpolate_from_within lo hi _ None Hcol I). }
  destruct (interpolate_shape (map wl_up data)) as [tail [Eshape Htail]].
  destruct (rolling_from_absent window_size [] tail
              (leading_absent (map wl_up data)) (Forall_nil _))
    as [seen' [_ Erolling]].
  pose proof (rolling_from_valid window_size seen' tail Hw Htail) as Hvalid.
  assert (smoothed = repeat None (leading_absent (map wl_up data))
                     ++ rolling_from window_size seen' tail) as Esmoothed
      by (unfold smoothed; rewrite Eshape; exact Erolling).
  rewrite Esmoothed in Hsmooth. apply Forall_app in Hsmooth.
  destruct Hsmooth as [_ Hsmooth].
  destruct (valid_column _ lo hi Hvalid Hsmooth) as [vs [Evs Hvs]].
  exists (assign set_wl_up smoothed
                 (assign set_wl_up (interpolate (map wl_up data)) data)), vs.
  split; [reflexivity|]. split; [|split].
  - apply (set_wl_up_chain data
             (assign set_wl_up (interpolate (map wl_up data)) data)).
    + apply assign_wl_up. assumption.
    + apply assign_wl_up. assumption.
  - rewrite (map_assign _ wl_up set_wl_up _ _ (fun c r => eq_refl) Hlen2).
    rewrite Esmoothed, Evs. reflexivity.
  - assumption.
Qed.

Lemma ramp_frame_bounds (r : Row) (v : Q) :
  In r ramp_frame -> wl_up r = Some v -> (200 <= v /\ v <= 260)%Q.
Proof.
  intros Hr Hv. simpl in Hr.
  repeat (destruct Hr as [<- | Hr]; [simpl in Hv; try discriminate;
                                     injection Hv as <-; split; discriminate|]).
  contradiction.
Qed.

Lemma smooth_filled_values_closes_gaps_within_bounds_witness :
  exists out vs,
    TestPy.smooth_filled_values ramp_frame 3 = Ok out /\
    Forall2 (fun a b => b = set_wl_up (wl_up b) a) ramp_frame out /\
    map wl_up out = repeat None (leading_absent (map wl_up ramp_frame))
                    ++ map Some vs /\
    Forall (fun v => 200 <= v /\ v <= 260)%Q vs.
Proof.
  apply (smooth_filled_values_closes_gaps_within_bounds ramp_frame 3 200 260).
  - lia.
  - exact ramp_frame_bounds.
Defined.

(** On [ramp_frame] the two empty slots get the values on the line from 230
    to 260 and are then averaged with their neighbours; the readings 230
    and 260 themselves come back as 215 and 250.  A window of no row is
    refused. *)
Example ramp_frame_smoothed :
  option_map (map (fun r => option_map Qred (wl_up r)))
             (match TestPy.smooth_filled_values ramp_frame 3 with
              | Ok out => Some out
              | Raise _ => None
              end)
  = Some [None; Some 200%Q; Some 215%Q; Some (670 # 3)%Q; Some 240%Q; Some 250%Q] /\
  TestPy.smooth_filled_values ramp_frame 0 = Raise ValueError.
Proof. vm_compute. split; reflexivity. Qed.
